(** * bikeshare.py: a shallow embedding and the properties of its report pipeline

    The program is an interactive report generator over bicycle-share trip
    logs.  The embedding follows src/bikeshare.py function by function:

    - Python strings are [string]s of bytes; [lower] and [title] are
      [str.lower] and [str.title] on ASCII text (every key the program
      compares against is ASCII);
    - a pandas value is a [Cell], a column a list of cells, a data frame a
      list of column names with labelled rows;
    - [print] and [input] are events of a trace, exceptions are values
      ([Raise]), and the functions that talk to the terminal live in the
      small monad [IO];
    - what belongs to the interpreter or to a library and not to the
      program (reading a file, parsing a time stamp, rendering a float, the
      calendar) is a variable of the section. *)

From Stdlib Require Import ZArith QArith Qabs List String Ascii Bool Lia.
From Stdlib Require Import DecimalString Sorted Permutation.
Import ListNotations.

Open Scope list_scope.
Open Scope Z_scope.
Open Scope string_scope.

Set Implicit Arguments.

(** ** Python strings *)

Definition is_lower (c : ascii) : bool :=
  let n := nat_of_ascii c in ((97 <=? n) && (n <=? 122))%nat.

Definition is_upper (c : ascii) : bool :=
  let n := nat_of_ascii c in ((65 <=? n) && (n <=? 90))%nat.

Definition to_lower (c : ascii) : ascii :=
  if is_upper c then ascii_of_nat (nat_of_ascii c + 32) else c.

Definition to_upper (c : ascii) : ascii :=
  if is_lower c then ascii_of_nat (nat_of_ascii c - 32) else c.

(** [s.lower()] *)
Fixpoint lower (s : string) : string :=
  match s with
  | EmptyString => EmptyString
  | String c s' => String (to_lower c) (lower s')
  end.

(** [s.title()]: a cased character is upper-cased when it follows an uncased
    one (or starts the string) and lower-cased otherwise. *)
Fixpoint title_from (previous_is_cased : bool) (s : string) : string :=
  match s with
  | EmptyString => EmptyString
  | String c s' =>
      if is_lower c then
        String (if previous_is_cased then c else to_upper c) (title_from true s')
      else if is_upper c then
        String (if previous_is_cased then to_lower c else c) (title_from true s')
      else String c (title_from false s')
  end.

Definition title (s : string) : string := title_from false s.

(** [s.strip()], on the blanks of ASCII *)
Definition is_space (c : ascii) : bool :=
  let n := nat_of_ascii c in ((n =? 32) || ((9 <=? n) && (n <=? 13)))%nat.

Fixpoint lstrip (s : string) : string :=
  match s with
  | EmptyString => EmptyString
  | String c s' => if is_space c then lstrip s' else s
  end.

Fixpoint rstrip (s : string) : string :=
  match s with
  | EmptyString => EmptyString
  | String c s' =>
      match rstrip s' with
      | EmptyString => if is_space c then EmptyString else String c EmptyString
      | r => String c r
      end
  end.

Definition strip (s : string) : string := rstrip (lstrip s).


(** [s.startswith(p)] *)
Definition startswith (p s : string) : bool := String.prefix p s.

(** [c * n] for a one-character string and [x in l] for a list of strings *)
Fixpoint repeat_string (s : string) (n : nat) : string :=
  match n with
  | O => EmptyString
  | S n' => s ++ repeat_string s n'
  end.

Definition mem (x : string) (l : list string) : bool :=
  existsb (String.eqb x) l.

(** [l.index(x)]: the position of the first element equal to [x], or nothing
    where Python raises [ValueError] *)
Fixpoint index (x : string) (l : list string) : option nat :=
  match l with
  | [] => None
  | y :: l' => if String.eqb y x then Some O else option_map S (index x l')
  end.

(** *** Formatting integers *)

(** [str(z)], [f"{z}"] *)
Definition str_int (z : Z) : string := NilZero.string_of_int (Z.to_int z).

(** [f"{z:02d}"] *)
Definition fmt_02d (z : Z) : string :=
  let s := str_int z in
  if (String.length s <? 2)%nat then "0" ++ s else s.

(** the digits of [f"{n:,}"]: a comma before every group of three digits that
    is not the first *)
Fixpoint group_digits (s : string) (k : nat) : string :=
  match s with
  | EmptyString => EmptyString
  | String c s' =>
      let k' := pred k in
      String c (if ((0 <? k') && (k' mod 3 =? 0))%nat
                then "," ++ group_digits s' k'
                else group_digits s' k')
  end.

(** [f"{n:,}"] for a count *)
Definition fmt_count (n : nat) : string :=
  let s := str_int (Z.of_nat n) in group_digits s (String.length s).

(** [f"{s:<10}"] *)
Definition ljust10 (s : string) : string :=
  s ++ repeat_string " " (10 - String.length s).

(** ** Constants of the module *)

Definition ESC : string := String (ascii_of_nat 27) EmptyString.

Definition BLUE : string := ESC ++ "[38;2;94;94;255m".
Definition GREEN : string := ESC ++ "[38;2;0;195;0m".
Definition MAGENTA : string := ESC ++ "[38;2;173;127;168m".
Definition RED : string := ESC ++ "[38;2;255;0;0m".
Definition YELLOW : string := ESC ++ "[38;2;128;96;0m".
Definition ENDC : string := ESC ++ "[0m".

(** the box-drawing bar of the report lines (U+2502, three bytes of UTF-8) *)
Definition BAR : string :=
  String (ascii_of_nat 226) (String (ascii_of_nat 148)
    (String (ascii_of_nat 130) EmptyString)).

(** [CITY_DATA]: a dict, kept in insertion order *)
Definition CITY_DATA : list (string * string) :=
  [ ("chicago", "chicago.csv");
    ("new york", "new_york_city.csv");
    ("washington", "washington.csv") ].

Fixpoint dict_get (k : string) (d : list (string * string)) : option string :=
  match d with
  | [] => None
  | (k', v) :: d' => if String.eqb k' k then Some v else dict_get k d'
  end.

Definition dict_mem (k : string) (d : list (string * string)) : bool :=
  match dict_get k d with Some _ => true | None => false end.

(** ** get_filter_description *)

Definition get_filter_description (city month day : string) : string :=
  let city_part := "City: " ++ title city ++ " | " in
  let month_part :=
    "Month: " ++ (if String.eqb month "all" then "All" else title month) in
  let day_part :=
    "Day: " ++ (if String.eqb day "all" then "All" else title day) in
  city_part ++ month_part ++ " | " ++ day_part.



(** ** Values, exceptions and the console *)

(** The three fields the program reads off a parsed start time
    ([.dt.month], [.dt.day_name()], [.dt.hour]) and its text ([str]). *)
Inductive Weekday :=
  Monday | Tuesday | Wednesday | Thursday | Friday | Saturday | Sunday.

Record Timestamp := {
  ts_month : Z;
  ts_weekday : Weekday;
  ts_hour : Z;
  ts_text : string
}.

Definition day_name (d : Weekday) : string :=
  match d with
  | Monday => "Monday" | Tuesday => "Tuesday" | Wednesday => "Wednesday"
  | Thursday => "Thursday" | Friday => "Friday" | Saturday => "Saturday"
  | Sunday => "Sunday"
  end.

(** A value held by a data frame: missing ([NaN]), text, an integer, a float
    (a rational here) or a parsed time stamp. *)
Inductive Cell :=
| NaN
| Str (s : string)
| Int (z : Z)
| Flt (q : Q)
| Time (t : Timestamp).

(** The exceptions the program can meet; all of them derive from [Exception].
    The string is [str(e)]. *)
Inductive exn :=
| FileNotFoundError (msg : string)
| KeyError (msg : string)
| ValueError (msg : string)
| IndexError (msg : string)
| TypeError (msg : string)
| EOFError (msg : string)
| OtherException (msg : string).

Definition exn_str (e : exn) : string :=
  match e with
  | FileNotFoundError m | KeyError m | ValueError m | IndexError m
  | TypeError m | EOFError m | OtherException m => m
  end.

(** The outcome of running a piece of the program: it returns, it raises, or
    it never returns ([Hang]: a loop that can no longer make progress). *)
Inductive Res (A : Type) :=
| Ok (a : A)
| Raise (e : exn)
| Hang.

Arguments Ok {A} a.
Arguments Raise {A} e.
Arguments Hang {A}.

Definition res_bind {A B} (m : Res A) (f : A -> Res B) : Res B :=
  match m with
  | Ok a => f a
  | Raise e => Raise e
  | Hang => Hang
  end.

Notation "x <~ m ;; k" := (res_bind m (fun x => k))
  (at level 61, m at next level, right associativity).

(** What the program does to the terminal. *)
Inductive Event :=
| Print (line : string)                                   (* print(line) *)
| PrintTable (headers : list string) (body : list (list string))
                                        (* print(tabulate(body, headers)) *)
| PrintTime                      (* the line with the elapsed calculation time *)
| Prompt (text : string).                                 (* input(text) *)

(** A run reads the lines typed by the user and leaves a trace. *)
Record Run (A : Type) := {
  trace : list Event;
  rest : list string;
  result : Res A
}.

Definition IO (A : Type) : Type := list string -> Run A.

Definition ret {A} (a : A) : IO A :=
  fun stdin => {| trace := []; rest := stdin; result := Ok a |}.

Definition bind {A B} (m : IO A) (f : A -> IO B) : IO B :=
  fun stdin =>
    let r := m stdin in
    match result r with
    | Ok a =>
        let r' := f a (rest r) in
        {| trace := (trace r ++ trace r')%list; rest := rest r';
           result := result r' |}
    | Raise e => {| trace := trace r; rest := rest r; result := Raise e |}
    | Hang => {| trace := trace r; rest := rest r; result := Hang |}
    end.

Notation "x <- m ;; k" := (bind m (fun x => k))
  (at level 61, m at next level, right associativity).
Notation "m ;; k" := (bind m (fun _ => k))
  (at level 61, right associativity).

Definition emit (e : Event) : IO unit :=
  fun stdin => {| trace := [e]; rest := stdin; result := Ok tt |}.

Definition print (line : string) : IO unit := emit (Print line).

(** [input(text)]: the next line typed, [EOFError] when there is none *)
Definition input (text : string) : IO string :=
  fun stdin =>
    match stdin with
    | [] => {| trace := [Prompt text]; rest := [];
               result := Raise (EOFError "EOF when reading a line") |}
    | l :: stdin' => {| trace := [Prompt text]; rest := stdin'; result := Ok l |}
    end.

(** a pure computation inside [IO] *)
Definition lift {A} (m : Res A) : IO A :=
  fun stdin => {| trace := []; rest := stdin; result := m |}.

(** [try: m  except Exception as e: h e] *)
Definition try_except {A} (m : IO A) (h : exn -> IO A) : IO A :=
  fun stdin =>
    let r := m stdin in
    match result r with
    | Raise e =>
        let r' := h e (rest r) in
        {| trace := (trace r ++ trace r')%list; rest := rest r';
           result := result r' |}
    | _ => r
    end.

(** ** format_time *)

(** [int(x)] on a number: floats are truncated towards zero and a missing
    value cannot be converted. *)
Definition truncate (q : Q) : Z := Z.quot (Qnum q) (Zpos (Qden q)).

Definition int_ (x : Cell) : Res Z :=
  match x with
  | Int z => Ok z
  | Flt q => Ok (truncate q)
  | NaN => Raise (ValueError "cannot convert float NaN to integer")
  | Str _ => Raise (ValueError "invalid literal for int() with base 10")
  | Time _ => Raise (TypeError "int() argument must be a string, a bytes-like object or a real number")
  end.

Definition format_time (seconds : Cell) : Res string :=
  n <~ int_ seconds ;;
  let seconds := Z.abs n in
  let hours := seconds / 3600 in
  let minutes := (seconds mod 3600) / 60 in
  let seconds := seconds mod 60 in
  Ok (str_int hours ++ "h " ++ str_int minutes ++ "m " ++ str_int seconds ++ "s").



(** ** Data frames *)

(** A row carries its index label (the number of the record in the source
    file) and one cell per column; a series is a column with its labels. *)
Record Row := { label : nat; cells : list Cell }.

Record DataFrame := { columns : list string; rows : list Row }.

Definition Series : Type := list (nat * Cell).

Definition values (s : Series) : list Cell := map snd s.

(** [len(df)] *)
Definition len (df : DataFrame) : nat := List.length (rows df).

Definition cell_at (i : nat) (r : Row) : Cell := nth i (cells r) NaN.

(** [df[name]] *)
Definition getitem (df : DataFrame) (name : string) : Res Series :=
  match index name (columns df) with
  | Some i => Ok (map (fun r => (label r, cell_at i r)) (rows df))
  | None => Raise (KeyError ("'" ++ name ++ "'"))
  end.

Fixpoint replace_nth (i : nat) (c : Cell) (l : list Cell) : list Cell :=
  match l, i with
  | [], _ => []
  | _ :: l', O => c :: l'
  | x :: l', S i' => x :: replace_nth i' c l'
  end.

Fixpoint zip_rows (f : Row -> Cell -> Row) (rs : list Row) (cs : list Cell)
  : list Row :=
  match rs, cs with
  | r :: rs', c :: cs' => f r c :: zip_rows f rs' cs'
  | _, _ => []
  end.

(** [df[name] = column]: an existing column is overwritten, a new one is added
    after the others. *)
Definition setitem (df : DataFrame) (name : string) (column : list Cell)
  : DataFrame :=
  match index name (columns df) with
  | Some i =>
      {| columns := columns df;
         rows := zip_rows (fun r c =>
                   {| label := label r; cells := replace_nth i c (cells r) |})
                   (rows df) column |}
  | None =>
      {| columns := (columns df ++ [name])%list;
         rows := zip_rows (fun r c =>
                   {| label := label r; cells := (cells r ++ [c])%list |})
                   (rows df) column |}
  end.

Fixpoint select_rows (rs : list Row) (mask : list bool) : list Row :=
  match rs, mask with
  | r :: rs', b :: mask' =>
      if b then r :: select_rows rs' mask' else select_rows rs' mask'
  | _, _ => []
  end.

(** [df[mask]] for a boolean series computed from [df] *)
Definition select (df : DataFrame) (mask : list bool) : DataFrame :=
  {| columns := columns df; rows := select_rows (rows df) mask |}.

(** [df.iloc[a:b]] *)
Definition iloc (df : DataFrame) (a b : nat) : DataFrame :=
  {| columns := columns df; rows := firstn (b - a) (skipn a (rows df)) |}.

(** *** Cells *)

Definition isna (c : Cell) : bool :=
  match c with NaN => true | _ => false end.

Definition weekday_eqb (a b : Weekday) : bool :=
  match a, b with
  | Monday, Monday | Tuesday, Tuesday | Wednesday, Wednesday
  | Thursday, Thursday | Friday, Friday | Saturday, Saturday
  | Sunday, Sunday => true
  | _, _ => false
  end.

Definition timestamp_eqb (a b : Timestamp) : bool :=
  Z.eqb (ts_month a) (ts_month b) && weekday_eqb (ts_weekday a) (ts_weekday b)
  && Z.eqb (ts_hour a) (ts_hour b) && String.eqb (ts_text a) (ts_text b).

(** Equality of two cells as keys of a count table: missing values fall into
    one group, numbers compare by value. *)
Definition cell_eqb (a b : Cell) : bool :=
  match a, b with
  | NaN, NaN => true
  | Str x, Str y => String.eqb x y
  | Int x, Int y => Z.eqb x y
  | Flt x, Flt y => Qeq_bool x y
  | Int x, Flt y => Qeq_bool (inject_Z x) y
  | Flt x, Int y => Qeq_bool x (inject_Z y)
  | Time x, Time y => timestamp_eqb x y
  | _, _ => false
  end.

(** [series == k] for an integer and [series == s] for a string, cell by
    cell; a missing value equals nothing. *)
Definition eq_int (k : Z) (c : Cell) : bool :=
  match c with
  | Int z => Z.eqb z k
  | Flt q => Qeq_bool q (inject_Z k)
  | _ => false
  end.

Definition eq_str (s : string) (c : Cell) : bool :=
  match c with
  | Str x => String.eqb x s
  | _ => false
  end.

(** [series.str.lower()] *)
Definition str_lower (c : Cell) : Cell :=
  match c with
  | Str s => Str (lower s)
  | _ => NaN
  end.

(** The order of two cells of one kind: numbers by value, text byte by byte. *)
Definition cell_leb (a b : Cell) : bool :=
  match a, b with
  | Str x, Str y => String.leb x y
  | Int x, Int y => Z.leb x y
  | Flt x, Flt y => Qle_bool x y
  | Int x, Flt y => Qle_bool (inject_Z x) y
  | Flt x, Int y => Qle_bool x (inject_Z y)
  | _, _ => true
  end.

(** [series.dropna()] *)
Definition dropna (s : Series) : Series :=
  filter (fun p => negb (isna (snd p))) s.

(** *** Counting *)

(** The count table of a list of keys, in order of first occurrence. *)
Fixpoint count_key (c : Cell) (table : list (Cell * nat)) : list (Cell * nat) :=
  match table with
  | [] => [(c, 1%nat)]
  | (k, n) :: table' =>
      if cell_eqb k c then (k, S n) :: table' else (k, n) :: count_key c table'
  end.

Definition tally (xs : list Cell) : list (Cell * nat) :=
  fold_left (fun table c => count_key c table) xs [].

(** A stable sort by descending count. *)
Fixpoint insert_desc (x : Cell * nat) (l : list (Cell * nat))
  : list (Cell * nat) :=
  match l with
  | [] => [x]
  | y :: l' => if (snd y <=? snd x)%nat then x :: l else y :: insert_desc x l'
  end.

Definition sort_desc (l : list (Cell * nat)) : list (Cell * nat) :=
  fold_right insert_desc [] l.

(** [series.value_counts(dropna=...)]: the distinct values with their number
    of occurrences, most frequent first; equally frequent values stay in order
    of first occurrence. *)
Definition value_counts_na (s : Series) : list (Cell * nat) :=
  sort_desc (tally (values s)).

Definition value_counts (s : Series) : list (Cell * nat) :=
  value_counts_na (dropna s).

(** [counts.sort_index()] *)
Fixpoint insert_key (x : Cell * nat) (l : list (Cell * nat))
  : list (Cell * nat) :=
  match l with
  | [] => [x]
  | y :: l' =>
      if cell_leb (fst x) (fst y) then x :: l else y :: insert_key x l'
  end.

Definition sort_index (l : list (Cell * nat)) : list (Cell * nat) :=
  fold_right insert_key [] l.

(** [counts.idxmax()] and [counts.idxmin()]: the key of the first entry
    holding the extreme count. *)
Fixpoint first_best (better : nat -> nat -> bool) (best : Cell * nat)
  (l : list (Cell * nat)) : Cell * nat :=
  match l with
  | [] => best
  | x :: l' =>
      first_best better (if better (snd x) (snd best) then x else best) l'
  end.

Definition idxmax (counts : list (Cell * nat)) : Res Cell :=
  match counts with
  | [] => Raise (ValueError "attempt to get argmax of an empty sequence")
  | x :: l => Ok (fst (first_best (fun n m => (m <? n)%nat) x l))
  end.

Definition idxmin (counts : list (Cell * nat)) : Res Cell :=
  match counts with
  | [] => Raise (ValueError "attempt to get argmin of an empty sequence")
  | x :: l => Ok (fst (first_best (fun n m => (n <? m)%nat) x l))
  end.

(** [counts[key]] *)
Fixpoint count_of (key : Cell) (counts : list (Cell * nat)) : Res nat :=
  match counts with
  | [] => Raise (KeyError "key")
  | (k, n) :: counts' => if cell_eqb k key then Ok n else count_of key counts'
  end.

(** [counts.index[0]] and [counts.iloc[0]] *)
Definition index0 (counts : list (Cell * nat)) : Res Cell :=
  match counts with
  | [] => Raise (IndexError "index 0 is out of bounds for axis 0 with size 0")
  | (k, _) :: _ => Ok k
  end.

Definition iloc0 (counts : list (Cell * nat)) : Res nat :=
  match counts with
  | [] => Raise (IndexError "single positional indexer is out-of-bounds")
  | (_, n) :: _ => Ok n
  end.

(** [series.mode()]: the values of highest count, in ascending order. *)
Definition max_count (table : list (Cell * nat)) : nat :=
  fold_right (fun x m => Nat.max (snd x) m) O table.

Fixpoint insert_asc (x : Cell) (l : list Cell) : list Cell :=
  match l with
  | [] => [x]
  | y :: l' => if cell_leb x y then x :: l else y :: insert_asc x l'
  end.

Definition sort_asc (l : list Cell) : list Cell := fold_right insert_asc [] l.

Definition mode (s : Series) : list Cell :=
  let table := tally (values (dropna s)) in
  let m := max_count table in
  sort_asc (map fst (filter (fun x => (snd x =? m)%nat) table)).

(** [modes[0]] *)
Definition getitem0 (l : list Cell) : Res Cell :=
  match l with
  | [] => Raise (KeyError "0")
  | x :: _ => Ok x
  end.

(** *** Arithmetic on series *)

(** [a + b] on two values *)
Definition cell_add (a b : Cell) : Res Cell :=
  match a, b with
  | Str x, Str y => Ok (Str (x ++ y))
  | Int x, Int y => Ok (Int (x + y))
  | Int x, Flt y => Ok (Flt (inject_Z x + y))
  | Flt x, Int y => Ok (Flt (x + inject_Z y))
  | Flt x, Flt y => Ok (Flt (x + y))
  | _, _ => Raise (TypeError "unsupported operand type(s) for +")
  end.

Fixpoint sequence {A} (l : list (Res A)) : Res (list A) :=
  match l with
  | [] => Ok []
  | m :: l' => x <~ m ;; xs <~ sequence l' ;; Ok (x :: xs)
  end.

(** [series + text] *)
Definition add_scalar (s : Series) (text : string) : Res Series :=
  sequence (map (fun p =>
    if isna (snd p) then Ok (fst p, NaN)
    else c <~ cell_add (snd p) (Str text) ;; Ok (fst p, c)) s).

(** The outer join of two series on their labels, both in increasing order:
    a label held by one side only gets a missing value on the other. *)
Fixpoint align (a : Series) : Series -> list (nat * Cell * Cell) :=
  fix align_a (b : Series) : list (nat * Cell * Cell) :=
    match a, b with
    | [], _ => map (fun p => (fst p, NaN, snd p)) b
    | _, [] => map (fun p => (fst p, snd p, NaN)) a
    | (la, x) :: a', (lb, y) :: b' =>
        if (la <? lb)%nat then (la, x, NaN) :: align a' b
        else if (lb <? la)%nat then (lb, NaN, y) :: align_a b'
        else (la, x, y) :: align a' b'
    end.

(** [a + b] on two series: the values are added label by label, and the sum
    is missing where either operand is. *)
Definition add_series (a b : Series) : Res Series :=
  sequence (map (fun t =>
    match t with
    | (l, x, y) =>
        if isna x || isna y then Ok (l, NaN)
        else c <~ cell_add x y ;; Ok (l, c)
    end) (align a b)).

(** [series.sum()] and [series.mean()], missing values skipped *)
Definition to_Q (c : Cell) : Res Q :=
  match c with
  | Int z => Ok (inject_Z z)
  | Flt q => Ok q
  | _ => Raise (TypeError "unsupported operand type(s) for +")
  end.

Definition all_int (l : list Cell) : bool :=
  forallb (fun c => match c with Int _ => true | _ => false end) l.

Definition series_sum (s : Series) : Res Cell :=
  let xs := values (dropna s) in
  qs <~ sequence (map to_Q xs) ;;
  let total := fold_left Qplus qs (0 # 1) in
  Ok (if all_int xs then Int (truncate total) else Flt total).

Definition series_mean (s : Series) : Res Cell :=
  let xs := values (dropna s) in
  qs <~ sequence (map to_Q xs) ;;
  match qs with
  | [] => Ok NaN
  | _ => Ok (Flt (fold_left Qplus qs (0 # 1) / inject_Z (Z.of_nat (List.length qs))))
  end.

(** [series.min()] and [series.max()] *)
Definition series_min (s : Series) : Cell :=
  match values (dropna s) with
  | [] => NaN
  | x :: l => fold_left (fun m c => if cell_leb m c then m else c) l x
  end.

Definition series_max (s : Series) : Cell :=
  match values (dropna s) with
  | [] => NaN
  | x :: l => fold_left (fun m c => if cell_leb c m then m else c) l x
  end.

(** ** The program *)

(** What [pd.read_csv] finds under a path. *)
Inductive FileState :=
| Absent                          (* no such file *)
| Unreadable (msg : string)       (* a file that cannot be read or parsed *)
| Content (df : DataFrame).

Definition months : list string :=
  ["january"; "february"; "march"; "april"; "may"; "june"].

Definition valid_months : list string := "all" :: months.

Definition valid_days : list string :=
  ["all"; "monday"; "tuesday"; "wednesday"; "thursday"; "friday"; "saturday";
   "sunday"].

Definition derived_columns : list string := ["month"; "day_of_week"; "hour"].

Definition newline : string := String (ascii_of_nat 10) EmptyString.

Definition prefix_trace {A} (t : list Event) (r : Run A) : Run A :=
  {| trace := (t ++ trace r)%list; rest := rest r; result := result r |}.

(** ** A small world to run the program in *)

Module Sample.

Definition stamp (m : Z) (d : Weekday) (h : Z) (text : string) : Timestamp :=
  {| ts_month := m; ts_weekday := d; ts_hour := h; ts_text := text |}.

Definition parse (c : Cell) : Timestamp + string :=
  match c with
  | Str "2017-01-02 08:00:00" => inl (stamp 1 Monday 8 "2017-01-02 08:00:00")
  | Str "2017-01-03 17:10:00" => inl (stamp 1 Tuesday 17 "2017-01-03 17:10:00")
  | Str "2017-02-06 08:30:00" => inl (stamp 2 Monday 8 "2017-02-06 08:30:00")
  | Str "2017-06-11 23:00:00" => inl (stamp 6 Sunday 23 "2017-06-11 23:00:00")
  | _ => inr "Unknown datetime string format, unable to parse"
  end.

Definition row (l : nat) (cs : list Cell) : Row := {| label := l; cells := cs |}.

Definition chicago : DataFrame :=
  {| columns := ["Start Time"; "Trip Duration"; "Start Station"; "End Station";
                 "User Type"; "Gender"; "Birth Year"];
     rows :=
       [ row 0 [Str "2017-01-02 08:00:00"; Int 300; Str "B"; Str "X";
                Str "Subscriber"; Str "Male"; Flt (1990 # 1)];
         row 1 [Str "2017-01-03 17:10:00"; Int 600; Str "A"; Str "Y";
                Str "Customer"; NaN; NaN];
         row 2 [Str "2017-02-06 08:30:00"; Int 3970; NaN; Str "Y";
                Str "Subscriber"; NaN; Flt (1985 # 1)];
         row 3 [Str "2017-06-11 23:00:00"; Int 60; Str "A"; NaN;
                Str "Subscriber"; Str "Female"; Flt (1990 # 1)];
         row 4 [Str "2017-01-02 08:00:00"; Int 300; Str "B"; Str "X";
                Str "Subscriber"; Str "Male"; Flt (1990 # 1)];
         row 5 [Str "2017-01-03 17:10:00"; Int 600; Str "A"; Str "Y";
                Str "Customer"; NaN; NaN] ] |}.

(** chicago.csv holds six trips, washington.csv cannot be parsed and
    new_york_city.csv is missing. *)
Definition files (path : string) : FileState :=
  if String.eqb path "chicago.csv" then Content chicago
  else if String.eqb path "washington.csv" then Unreadable "Error tokenizing data"
  else Absent.

Definition chicago_stamps : list Timestamp :=
  [ stamp 1 Monday 8 "2017-01-02 08:00:00";
    stamp 1 Tuesday 17 "2017-01-03 17:10:00";
    stamp 2 Monday 8 "2017-02-06 08:30:00";
    stamp 6 Sunday 23 "2017-06-11 23:00:00";
    stamp 1 Monday 8 "2017-01-02 08:00:00";
    stamp 1 Tuesday 17 "2017-01-03 17:10:00" ].

(** chicago.csv once loaded: the start times parsed, the three derived
    columns added. *)
Definition chicago_loaded : DataFrame :=
  setitem
    (setitem
       (setitem
          (setitem chicago "Start Time" (map Time chicago_stamps))
          "month" (map (fun t => Int (ts_month t)) chicago_stamps))
       "day_of_week" (map (fun t => Str (day_name (ts_weekday t))) chicago_stamps))
    "hour" (map (fun t => Int (ts_hour t)) chicago_stamps).

Definition chicago_hours : list Z := [8; 17; 8; 23; 8; 17].

Definition chicago_hour_column : Series :=
  [ (0%nat, Int 8); (1%nat, Int 17); (2%nat, Int 8); (3%nat, Int 23);
    (4%nat, Int 8); (5%nat, Int 17) ].

(** The loaded table filtered on a month without trips. *)
Definition no_rows : DataFrame :=
  {| columns := columns chicago_loaded; rows := [] |}.

(** The table of a city that records neither gender nor birth year. *)
Definition washington : DataFrame :=
  {| columns := ["Start Time"; "Trip Duration"; "Start Station"; "End Station";
                 "User Type"];
     rows :=
       [ row 0 [Str "2017-01-02 08:00:00"; Flt (489066 # 1000); Str "A";
                Str "B"; Str "Subscriber"];
         row 1 [Str "2017-01-03 17:10:00"; Flt (402549 # 1000); Str "B";
                Str "A"; Str "Customer"] ] |}.

(** Two routes that occur once each. *)
Definition tie : DataFrame :=
  {| columns := ["Start Station"; "End Station"];
     rows := [ row 0 [Str "B"; Str "X"]; row 1 [Str "A"; Str "Y"] ] |}.

Definition repr_float (q : Q) : string :=
  str_int (Qnum q) ++ "/" ++ str_int (Zpos (Qden q)).

Definition fmt_float (decimals : nat) (q : Q) : string := repr_float q.

Definition current_year : Z := 2024.

End Sample.

Section Program.

Set Default Proof Using "Type".

(** The files of the working directory. *)
Variable fs : string -> FileState.

(** [pd.to_datetime] on one value: the parsed time stamp, or the message of
    the [ValueError] raised for a value that is not a date. *)
Variable to_datetime : Cell -> Timestamp + string.

(** [str(x)] and [f"{x:.Nf}"] on a float. *)
Variable repr_float : Q -> string.
Variable fmt_float : nat -> Q -> string.

(** [datetime.now().year] *)
Variable current_year : Z.

(** [str(c)], [f"{c}"] *)
Definition str_cell (c : Cell) : string :=
  match c with
  | NaN => "nan"
  | Str s => s
  | Int z => str_int z
  | Flt q => repr_float q
  | Time t => ts_text t
  end.

(** [f"{c:02d}"] *)
Definition fmt_02d_cell (c : Cell) : Res string :=
  match c with
  | Int z => Ok (fmt_02d z)
  | _ => Raise (ValueError "Unknown format code 'd'")
  end.

(** *** load_data *)

Definition read_csv (path : string) : Res DataFrame :=
  match fs path with
  | Absent =>
      Raise (FileNotFoundError
               ("[Errno 2] No such file or directory: '" ++ path ++ "'"))
  | Unreadable msg => Raise (OtherException msg)
  | Content df => Ok df
  end.

Definition to_datetime_series (s : Series) : Res (list Cell) :=
  sequence (map (fun p =>
    match to_datetime (snd p) with
    | inl t => Ok (Time t)
    | inr msg => Raise (ValueError msg)
    end) s).

(** [series.dt.<field>] *)
Definition dt (field : Timestamp -> Cell) (s : Series) : Res (list Cell) :=
  sequence (map (fun p =>
    match snd p with
    | Time t => Ok (field t)
    | _ => Raise (OtherException
                    "Can only use .dt accessor with datetimelike values")
    end) s).

(** Lines 148 to 155: the month filter. *)
Definition filter_month (month : string) (df : DataFrame) : Res DataFrame :=
  if negb (String.eqb month "all") then
    match index (lower month) months with
    | Some i =>
        let month_num := Z.of_nat i + 1 in
        col <~ getitem df "month" ;;
        Ok (select df (map (eq_int month_num) (values col)))
    | None => Raise (ValueError ("'" ++ lower month ++ "' is not in list"))
    end
  else Ok df.

(** Lines 157 to 160: the day filter. *)
Definition filter_day (day : string) (df : DataFrame) : Res DataFrame :=
  if negb (String.eqb day "all") then
    col <~ getitem df "day_of_week" ;;
    Ok (select df
          (map (fun c => eq_str (lower day) (str_lower c)) (values col)))
  else Ok df.

(** Lines 148 to 163: the two filters. *)
Definition filter_frame (month day : string) (df : DataFrame) : Res DataFrame :=
  df <~ filter_month month df ;;
  df <~ filter_day day df ;;
  Ok df.

(** Lines 141 to 146: the start times are parsed and the three fields are
    derived from them. *)
Definition derive_frame (df : DataFrame) : Res DataFrame :=
  start <~ getitem df "Start Time" ;;
  stamps <~ to_datetime_series start ;;
  let df := setitem df "Start Time" stamps in
  start <~ getitem df "Start Time" ;;
  col <~ dt (fun t => Int (ts_month t)) start ;;
  let df := setitem df "month" col in
  start <~ getitem df "Start Time" ;;
  col <~ dt (fun t => Str (day_name (ts_weekday t))) start ;;
  let df := setitem df "day_of_week" col in
  start <~ getitem df "Start Time" ;;
  col <~ dt (fun t => Int (ts_hour t)) start ;;
  let df := setitem df "hour" col in
  Ok df.

(** Lines 139 to 146: the file of the city is read and completed. *)
Definition read_frame (city : string) : Res DataFrame :=
  path <~ match dict_get city CITY_DATA with
          | Some path => Ok path
          | None => Raise (KeyError ("'" ++ city ++ "'"))
          end ;;
  df <~ read_csv path ;;
  derive_frame df.

(** The body of the [try]. *)
Definition load_frame (city month day : string) : Res DataFrame :=
  df <~ read_frame city ;;
  filter_frame month day df.

Definition load_data (city month day : string) : IO (option DataFrame) :=
  print "" ;;
  print (BLUE ++ "Loading your selected data..." ++ ENDC) ;;
  print "" ;;
  try_except
    (df <- lift (load_frame city month day) ;;
     ret (Some df))
    (fun e =>
       match e with
       | FileNotFoundError _ =>
           print (RED ++ "Error loading data: " ++ exn_str e ++ ENDC) ;;
           ret None
       | _ =>
           print (RED ++ "An unexpected error occurred: " ++ exn_str e ++ ENDC) ;;
           ret None
       end).

(** *** display_header *)

Definition display_header (city month day : string) : IO unit :=
  let status_line := get_filter_description city month day in
  print status_line ;;
  print (repeat_string "-" (String.length status_line)) ;;
  print "".

(** *** display_ride_stats *)

Definition display_ride_stats (df : DataFrame) : IO unit :=
  print (GREEN ++ "Ride Count Statistics" ++ ENDC) ;;
  print "" ;;
  print ("Total Rides " ++ BAR ++ " " ++ fmt_count (len df)) ;;
  print "" ;;
  print "Hours:" ;;
  hour <- lift (getitem df "hour") ;;
  let hourly_rides := sort_index (value_counts hour) in
  busiest_hour <- lift (idxmax hourly_rides) ;;
  quietest_hour <- lift (idxmin hourly_rides) ;;
  h <- lift (fmt_02d_cell busiest_hour) ;;
  n <- lift (count_of busiest_hour hourly_rides) ;;
  print ("Busiest     " ++ BAR ++ " " ++ h ++ ":00 (" ++ fmt_count n ++ " rides)") ;;
  h <- lift (fmt_02d_cell quietest_hour) ;;
  n <- lift (count_of quietest_hour hourly_rides) ;;
  print ("Quietest    " ++ BAR ++ " " ++ h ++ ":00 (" ++ fmt_count n ++ " rides)") ;;
  print "" ;;
  emit PrintTime ;;
  print "".

(** *** display_station_stats *)

Definition display_station_stats (df : DataFrame) : IO unit :=
  print (GREEN ++ "Station Statistics" ++ ENDC) ;;
  print "" ;;
  print "Most Popular Stations:" ;;
  start <- lift (getitem df "Start Station") ;;
  let start_station_counts := value_counts (dropna start) in
  end_ <- lift (getitem df "End Station") ;;
  let end_station_counts := value_counts (dropna end_) in
  k <- lift (index0 start_station_counts) ;;
  n <- lift (iloc0 start_station_counts) ;;
  print ("Start       " ++ BAR ++ " " ++ str_cell k ++ " (" ++ fmt_count n ++ " rides)") ;;
  k <- lift (index0 end_station_counts) ;;
  n <- lift (iloc0 end_station_counts) ;;
  print ("End         " ++ BAR ++ " " ++ str_cell k ++ " (" ++ fmt_count n ++ " rides)") ;;
  print "" ;;
  start <- lift (getitem df "Start Station") ;;
  left <- lift (add_scalar (dropna start) " to ") ;;
  end_ <- lift (getitem df "End Station") ;;
  route_series <- lift (add_series left (dropna end_)) ;;
  popular_route <- lift (getitem0 (mode route_series)) ;;
  route_count <- lift (iloc0 (value_counts route_series)) ;;
  print "Most Popular Route:" ;;
  print (str_cell popular_route ++ " (" ++ fmt_count route_count ++ " rides)") ;;
  print "" ;;
  emit PrintTime ;;
  print "".

(** *** display_trip_duration_stats *)

Definition display_trip_duration_stats (df : DataFrame) : IO unit :=
  print (GREEN ++ "Trip Duration Statistics" ++ ENDC) ;;
  print "" ;;
  duration <- lift (getitem df "Trip Duration") ;;
  total_duration <- lift (series_sum duration) ;;
  duration <- lift (getitem df "Trip Duration") ;;
  avg_duration <- lift (series_mean duration) ;;
  t <- lift (format_time total_duration) ;;
  print ("Total Time  " ++ BAR ++ " " ++ t) ;;
  t <- lift (format_time avg_duration) ;;
  print ("Average Time" ++ BAR ++ " " ++ t) ;;
  print "" ;;
  emit PrintTime ;;
  print "".

(** *** display_user_stats *)

Definition gender_warning : string :=
  YELLOW ++ "* Subscriber gender data missing/unavailable for your selection"
    ++ ENDC.

Definition birth_year_warning : string :=
  YELLOW ++ "* Subscriber birth year data missing/unavailable for your selection"
    ++ ENDC.

(** [(count / total) * 100] *)
Definition percentage (count total : nat) : Q :=
  (inject_Z (Z.of_nat count) / inject_Z (Z.of_nat total) * inject_Z 100)%Q.

Fixpoint for_each {A} (l : list A) (body : A -> IO unit) : IO unit :=
  match l with
  | [] => ret tt
  | x :: l' => body x ;; for_each l' body
  end.

(** [df[df['User Type'] == 'Subscriber']] *)
Definition subscribers (df : DataFrame) : Res DataFrame :=
  user_type <~ getitem df "User Type" ;;
  Ok (select df (map (eq_str "Subscriber") (values user_type))).

(** Lines 345 to 354: the user types. *)
Definition display_user_types (df : DataFrame) : IO unit :=
  let total_users := len df in
  user_type <- lift (getitem df "User Type") ;;
  let user_types := value_counts user_type in
  print "User Types:" ;;
  for_each user_types (fun item =>
    let percentage := percentage (snd item) total_users in
    print (ljust10 (str_cell (fst item)) ++ "  " ++ BAR ++ " "
             ++ fmt_count (snd item) ++ " (" ++ fmt_float 1 percentage ++ "%)")) ;;
  print "".

(** Lines 362 to 382: the gender of the subscribers. *)
Definition display_gender (df : DataFrame) : IO unit :=
  if mem "Gender" (columns df) then
    subscriber_df <- lift (subscribers df) ;;
    gender <- lift (getitem subscriber_df "Gender") ;;
    let gender_counts := value_counts_na gender in
    let subscriber_total := len subscriber_df in
    match gender_counts with
    | [] => print gender_warning
    | _ =>
        print "Subscriber gender:" ;;
        for_each (map fst gender_counts) (fun gender =>
          count <- lift (count_of gender gender_counts) ;;
          let percentage := percentage count subscriber_total in
          let gender_display := if isna gender then Str "Unknown" else gender in
          print (ljust10 (str_cell gender_display) ++ "  " ++ BAR ++ " "
                   ++ fmt_count count ++ " (" ++ fmt_float 0 percentage ++ "%)")) ;;
        print ""
    end
  else print gender_warning.

(** Lines 384 to 401: the birth year of the subscribers. *)
Definition display_birth_year (df : DataFrame) : IO unit :=
  if mem "Birth Year" (columns df) then
    subscriber_df <- lift (subscribers df) ;;
    birth_year <- lift (getitem subscriber_df "Birth Year") ;;
    let subscriber_birth_years := dropna birth_year in
    match subscriber_birth_years with
    | [] => print birth_year_warning
    | _ =>
        print "Subscriber birth year:" ;;
        earliest <- lift (int_ (series_min subscriber_birth_years)) ;;
        latest <- lift (int_ (series_max subscriber_birth_years)) ;;
        common <- lift (m <~ getitem0 (mode subscriber_birth_years) ;; int_ m) ;;
        print ("Earliest    " ++ BAR ++ " " ++ str_int earliest
                 ++ " (current age: " ++ str_int (current_year - earliest) ++ ")") ;;
        print ("Latest      " ++ BAR ++ " " ++ str_int latest
                 ++ " (current age: " ++ str_int (current_year - latest) ++ ")") ;;
        print ("Most Common " ++ BAR ++ " " ++ str_int common
                 ++ " (current age: " ++ str_int (current_year - common) ++ ")")
    end
  else print birth_year_warning.

Definition display_user_stats (df : DataFrame) : IO unit :=
  print (GREEN ++ "User Statistics" ++ ENDC) ;;
  print "" ;;
  display_user_types df ;;
  (if mem "Gender" (columns df) || mem "Birth Year" (columns df)
   then _ <- lift (subscribers df) ;; ret tt
   else ret tt) ;;
  display_gender df ;;
  display_birth_year df ;;
  print "" ;;
  emit PrintTime ;;
  print "".

(** *** display_raw_data *)

Definition yes_no_error : string :=
  RED ++ "Error: Invalid input. Please enter " ++ String (ascii_of_nat 34) "yes"
    ++ String (ascii_of_nat 34) " or " ++ String (ascii_of_nat 34) "no"
    ++ String (ascii_of_nat 34) ENDC.

(** The loop consumes one line of input per turn. *)
Fixpoint get_yes_no_input (prompt : string) (stdin : list string) : Run bool :=
  match stdin with
  | [] => {| trace := [Prompt prompt]; rest := [];
             result := Raise (EOFError "EOF when reading a line") |}
  | l :: stdin' =>
      let response := lower (strip l) in
      if mem response ["yes"; "y"] then
        {| trace := [Prompt prompt]; rest := stdin'; result := Ok true |}
      else if mem response ["no"; "n"] then
        {| trace := [Prompt prompt]; rest := stdin'; result := Ok false |}
      else
        prefix_trace [Prompt prompt; Print yes_no_error]
          (get_yes_no_input prompt stdin')
  end.

Definition view_prompt : string :=
  "Would you like to view the raw data? [yes/no]: ".

Definition more_prompt : string :=
  newline ++ "Would you like to see 5 more rows? [yes/no]: ".

(** [[col for col in df.columns if col not in ['month', 'day_of_week', 'hour']]] *)
Definition original_columns (df : DataFrame) : list string :=
  filter (fun col => negb (mem col derived_columns)) (columns df).

(** [df[cols]] *)
Definition project (df : DataFrame) (cols : list string) : Res DataFrame :=
  positions <~ sequence (map (fun col =>
                 match index col (columns df) with
                 | Some i => Ok i
                 | None => Raise (KeyError ("'" ++ col ++ "'"))
                 end) cols) ;;
  Ok {| columns := cols;
        rows := map (fun r =>
                  {| label := label r;
                     cells := map (fun i => cell_at i r) positions |})
                  (rows df) |}.

(** [frame.fillna('').astype(str).values.tolist()] *)
Definition fillna_empty (c : Cell) : Cell :=
  if isna c then Str "" else c.

Definition tolist (df : DataFrame) : list (list string) :=
  map (fun r => map (fun c => str_cell (fillna_empty c)) (cells r)) (rows df).

(** The body of the paging loop; each turn moves [start_idx] five rows on, so
    [len df] turns and one more are enough for the loop to end. *)
Fixpoint raw_data_loop (fuel : nat) (df : DataFrame) (cols : list string)
  (start_idx : nat) : IO unit :=
  match fuel with
  | O => lift Hang
  | S fuel' =>
      if (start_idx <? len df)%nat then
        let chunk_end := Nat.min (start_idx + 5) (len df) in
        let current_chunk := iloc df start_idx chunk_end in
        selected <- lift (project current_chunk cols) ;;
        let table_data := tolist selected in
        emit (PrintTable cols table_data) ;;
        let start_idx := (start_idx + 5)%nat in
        stop <- (if (start_idx <? len df)%nat
                 then more <- get_yes_no_input more_prompt ;; ret (negb more)
                 else ret false) ;;
        if stop then ret tt else raw_data_loop fuel' df cols start_idx
      else ret tt
  end.

Definition display_raw_data (df : DataFrame) (city month day : string)
  : IO unit :=
  let filter_description := get_filter_description city month day in
  print (GREEN ++ "Raw data is available for your selection ("
           ++ filter_description ++ ")." ++ ENDC) ;;
  print "" ;;
  let original_columns := original_columns df in
  view <- get_yes_no_input view_prompt ;;
  if view then raw_data_loop (S (len df)) df original_columns 0 else ret tt.

(** *** get_filters *)

(** One validated prompt: the question is asked until the answer, in lower
    case, is an accepted one.  An exception of [input] is caught and the
    question asked again, so at the end of the input the loop never ends. *)
Fixpoint ask (question : string) (blank_line : bool) (valid : string -> bool)
  (complaint : string) (stdin : list string) : Run string :=
  match stdin with
  | [] =>
      {| trace := [Prompt question;
                   Print (RED ++ "An error occurred: EOF when reading a line"
                            ++ ". Please try again." ++ ENDC)];
         rest := []; result := Hang |}
  | l :: stdin' =>
      let answer := lower l in
      let asked := if blank_line then [Prompt question; Print ""]
                   else [Prompt question] in
      if valid answer then
        {| trace := asked; rest := stdin'; result := Ok answer |}
      else
        prefix_trace (asked ++ [Print complaint])%list
          (ask question blank_line valid complaint stdin')
  end.

Definition get_filters : IO (string * string * string) :=
  print "" ;;
  print (BLUE ++ "Welcome to bikeshare analytics." ++ ENDC) ;;
  print "" ;;
  city <- ask ("Would you like to see data for Chicago, New York, or Washington?"
                 ++ newline) true
            (fun s => dict_mem s CITY_DATA)
            (RED ++ "Error: Invalid city input. Please choose Chicago, New York, or Washington."
               ++ ENDC) ;;
  month <- ask ("Which month? All, January, February, March, April, May, or June?"
                  ++ newline) true
             (fun s => mem s valid_months)
             (RED ++ "Error: Invalid month option. Please try again." ++ ENDC) ;;
  day <- ask ("Which day? All, Monday, Tuesday, Wednesday, Thursday, Friday, Saturday, or Sunday?"
                ++ newline) false
           (fun s => mem s valid_days)
           (RED ++ "Error: Invalid day input." ++ ENDC) ;;
  ret (city, month, day).

(** *** main *)

Definition restart_prompt : string := "Would you like to restart? [yes/no]: ".

Fixpoint ask_restart (stdin : list string) : Run string :=
  match stdin with
  | [] => {| trace := [Prompt restart_prompt]; rest := [];
             result := Raise (EOFError "EOF when reading a line") |}
  | l :: stdin' =>
      let restart := lower l in
      if mem restart ["yes"; "no"; "y"; "n"] then
        {| trace := [Prompt restart_prompt]; rest := stdin';
           result := Ok restart |}
      else
        prefix_trace [Prompt restart_prompt; Print yes_no_error]
          (ask_restart stdin')
  end.

(** The five reports, in the order [main] calls them. *)
Definition report (df : DataFrame) (city month day : string) : IO unit :=
  display_header city month day ;;
  display_ride_stats df ;;
  display_station_stats df ;;
  display_trip_duration_stats df ;;
  display_user_stats df ;;
  display_raw_data df city month day.

(** Lines 477 to 500: one turn of the loop once the filters are chosen; the
    result tells whether the user asked for another turn. *)
Definition session (city month day : string) : IO bool :=
  df <- load_data city month day ;;
  match df with
  | Some df => report df city month day
  | None => ret tt
  end ;;
  print "" ;;
  print (BLUE ++ "End of session" ++ ENDC) ;;
  print "" ;;
  restart <- ask_restart ;;
  if negb (startswith "y" restart) then ret false
  else print (newline ++ newline) ;; ret true.

Definition main_iteration : IO bool :=
  filters <- get_filters ;;
  match filters with
  | (city, month, day) => session city month day
  end.

(** [main]: a turn that returns has read at least four lines, so the loop
    takes at most as many turns as there are lines of input. *)
Fixpoint main_loop (fuel : nat) : IO unit :=
  match fuel with
  | O => lift Hang
  | S fuel' =>
      again <- main_iteration ;;
      if again then main_loop fuel' else ret tt
  end.

Definition main : IO unit :=
  fun stdin => main_loop (S (List.length stdin)) stdin.


(** *** The filters as the specification words them *)

(** The cell of a row under a column name. *)
Definition field (df : DataFrame) (name : string) (r : Row) : Cell :=
  match index name (columns df) with
  | Some i => cell_at i r
  | None => NaN
  end.

(** The 1-based index of a month name in the fixed list of six names. *)
Definition month_index (month : string) : option Z :=
  option_map (fun i => Z.of_nat (S i)) (index month months).

(** A row passes the month filter when the filter is "all" or its derived
    month number is the index of the month name. *)
Definition month_matches (df : DataFrame) (month : string) (r : Row) : bool :=
  String.eqb month "all"
  || match month_index month with
     | Some k => cell_eqb (field df "month" r) (Int k)
     | None => false
     end.

(** A row passes the day filter when the filter is "all" or its derived
    weekday name equals the filter up to case. *)
Definition day_matches (df : DataFrame) (day : string) (r : Row) : bool :=
  String.eqb day "all"
  || match field df "day_of_week" r with
     | Str name => String.eqb (lower name) (lower day)
     | _ => false
     end.

(** The rows of the subscribers: those whose user type is "Subscriber". *)
Definition subscriber_rows (df : DataFrame) : list Row :=
  filter (fun r => cell_eqb (field df "User Type" r) (Str "Subscriber"))
    (rows df).


(** *** The pages of the raw data as the specification words them *)

(** Page [k] holds the rows 5k to min(5k+5, n) of the table. *)
Definition page_rows (df : DataFrame) (k : nat) : list Row :=
  firstn (Nat.min (5 * k + 5) (len df) - 5 * k) (skipn (5 * k) (rows df)).

(** It shows them under the original columns, a missing value as the empty
    text. *)
Definition page (df : DataFrame) (k : nat) : Event :=
  PrintTable (original_columns df)
    (map (fun r =>
            map (fun col => str_cell (fillna_empty (field df col r)))
              (original_columns df))
       (page_rows df k)).

(** The pages [k] to [k + m], with the question asked between two pages. *)
Fixpoint pages_with_prompts (df : DataFrame) (k m : nat) : list Event :=
  match m with
  | O => [page df k]
  | S m' => page df k :: Prompt more_prompt :: pages_with_prompts df (S k) m'
  end.

Definition raw_data_intro (city month day : string) : list Event :=
  [Print (GREEN ++ "Raw data is available for your selection ("
            ++ get_filter_description city month day ++ ")." ++ ENDC);
   Print "";
   Prompt view_prompt].

(** Every table of a trace is followed at once by the question whether to
    go on. *)
Fixpoint prompted_after_each_page (t : list Event) : bool :=
  match t with
  | [] => true
  | PrintTable _ _ :: t' =>
      match t' with
      | Prompt text :: _ =>
          String.eqb text more_prompt && prompted_after_each_page t'
      | _ => false
      end
  | _ :: t' => prompted_after_each_page t'
  end.

(** *** Counting, as the specification words it *)

(** The number of values of a list that equal [k]. *)
Definition occurrences (k : Cell) (xs : list Cell) : nat :=
  List.length (filter (cell_eqb k) xs).

(** The position of the first value that equals [k]; the length of the list
    when there is none. *)
Fixpoint first_pos (k : Cell) (xs : list Cell) : nat :=
  match xs with
  | [] => O
  | x :: xs' => if cell_eqb k x then O else S (first_pos k xs')
  end.

(** The count a table holds for a key, none counting as zero. *)
Definition count_in (table : list (Cell * nat)) (k : Cell) : nat :=
  match count_of k table with
  | Ok n => n
  | _ => O
  end.

(** The keys of a table after one more value has been seen. *)
Definition see (keys : list Cell) (c : Cell) : list Cell :=
  if existsb (fun k => cell_eqb k c) keys then keys else (keys ++ [c])%list.

(** The keys of a count table of [xs] stand in order of first occurrence,
    each is the first value of its kind, and every value has its key. *)
Definition first_seen (xs keys : list Cell) : Prop :=
  StronglySorted (fun a b => (first_pos a xs < first_pos b xs)%nat) keys
  /\ Forall (fun k => nth_error xs (first_pos k xs) = Some k) keys
  /\ (forall y, In y xs -> exists k, In k keys /\ cell_eqb k y = true).

(** *** The hours, as the specification words them *)

(** The number of rides that start at hour [h]. *)
Definition rides_at (hours : list Z) (h : Z) : nat :=
  count_occ Z.eq_dec hours h.

(** The lines of the ride statistics. *)
Definition ride_report (total : nat) (busiest : Z) (busiest_rides : nat)
  (quietest : Z) (quietest_rides : nat) : list Event :=
  [Print (GREEN ++ "Ride Count Statistics" ++ ENDC);
   Print "";
   Print ("Total Rides " ++ BAR ++ " " ++ fmt_count total);
   Print "";
   Print "Hours:";
   Print ("Busiest     " ++ BAR ++ " " ++ fmt_02d busiest ++ ":00 ("
            ++ fmt_count busiest_rides ++ " rides)");
   Print ("Quietest    " ++ BAR ++ " " ++ fmt_02d quietest ++ ":00 ("
            ++ fmt_count quietest_rides ++ " rides)");
   Print "";
   PrintTime;
   Print ""].

(** The key of an entry of a table of hours. *)
Definition int_key (p : Cell * nat) : Z :=
  match fst p with
  | Int z => z
  | _ => 0
  end.

(** No two entries of a table have the same key. *)
Definition functional (table : list (Cell * nat)) : Prop :=
  forall p q, In p table -> In q table ->
              cell_eqb (fst p) (fst q) = true -> p = q.

(** *** The stations, as the specification words them *)










(** The rows of a series that hold a value under [f], with their labels. *)
Definition sel (f : Row -> option Cell) (rs : list Row) : Series :=
  flat_map (fun r => match f r with
                     | Some v => [(label r, v)]
                     | None => []
                     end) rs.





(** *** Reading the input *)

(** A run never gives back more lines than it was given, and a run that
    returns has read one line at least. *)
Definition reads_forward {A} (m : IO A) : Prop :=
  forall stdin, (List.length (rest (m stdin)) <= List.length stdin)%nat.

Definition reads_a_line {A} (m : IO A) : Prop :=
  forall stdin a,
    result (m stdin) = Ok a ->
    (List.length (rest (m stdin)) < List.length stdin)%nat.

(** *** The report of a failed load *)

Definition is_not_found (e : exn) : bool :=
  match e with FileNotFoundError _ => true | _ => false end.

(** The line printed by the handler that catches [e]. *)
Definition error_line (e : exn) : string :=
  RED ++ (if is_not_found e then "Error loading data: "
          else "An unexpected error occurred: ") ++ exn_str e ++ ENDC.

Definition loading_lines : list Event :=
  [Print ""; Print (BLUE ++ "Loading your selected data..." ++ ENDC); Print ""].

Definition closing_lines : list Event :=
  [Print ""; Print (BLUE ++ "End of session" ++ ENDC); Print ""].

(** *** The questions of get_filters *)








(** The line printed when [input] finds no more input. *)
Definition eof_line : string :=
  RED ++ "An error occurred: EOF when reading a line. Please try again."
    ++ ENDC.




(** Three question loops in a row, as in [get_filters]. *)
Definition ask_thrice (q1 : string) (b1 : bool) (v1 : string -> bool)
  (c1 : string) (q2 : string) (b2 : bool) (v2 : string -> bool) (c2 : string)
  (q3 : string) (b3 : bool) (v3 : string -> bool) (c3 : string)
  : IO (string * string * string) :=
  x <- ask q1 b1 v1 c1 ;;
  y <- ask q2 b2 v2 c2 ;;
  z <- ask q3 b3 v3 c3 ;;
  ret (x, y, z).

(** A run reads its input from the front: what it leaves is the end of what
    it was given. *)
Definition reads_in_order {A} (m : IO A) : Prop :=
  forall stdin, exists read, stdin = (read ++ rest (m stdin))%list.

(** *** The durations, as a reader of the report takes them *)





Definition duration_heading : list Event :=
  [Print (GREEN ++ "Trip Duration Statistics" ++ ENDC); Print ""].


(** *** The user statistics, line by line *)

(** The user types of the rows that have one, in row order. *)
Definition user_types (df : DataFrame) : list Cell :=
  filter (fun c => negb (isna c)) (map (field df "User Type") (rows df)).





(** *** The birth years, as a reader of the report takes them *)

(** A year as the column holds it: a column with gaps is a column of
    floats. *)
Definition year_cell (y : Z) : Cell := Flt (inject_Z y).

Definition is_year (c : Cell) : Prop := exists y, c = year_cell y.

(** The birth years of the subscribers that have one, in row order. *)
Definition subscriber_birth_years (df : DataFrame) : list Cell :=
  filter (fun c => negb (isna c))
    (map (field df "Birth Year") (subscriber_rows df)).

Definition age_line (name : string) (year : Z) : Event :=
  Print (name ++ BAR ++ " " ++ str_int year ++ " (current age: "
           ++ str_int (current_year - year) ++ ")").

(** The lines of the birth years. *)
Definition birth_year_report (earliest latest common : Z) : list Event :=
  [Print "Subscriber birth year:";
   age_line "Earliest    " earliest;
   age_line "Latest      " latest;
   age_line "Most Common " common].

(** The number of times a year occurs in a list. *)
Definition times (ys : list Z) (y : Z) : nat := count_occ Z.eq_dec ys y.

(** *** The answers to a yes-or-no question *)



Definition end_of_input : exn := EOFError "EOF when reading a line".

(** *** The tables of a trace *)

Definition is_table (e : Event) : bool :=
  match e with
  | PrintTable _ _ => true
  | _ => false
  end.

Definition shown_tables (t : list Event) : list Event := filter is_table t.

(** The pages [k], [k + 1], ... [k + n - 1]. *)
Definition pages_from (df : DataFrame) (k n : nat) : list Event :=
  map (page df) (seq k n).

(** *** A selection without trips *)

(** What is shown of the ride statistics of no ride before they raise. *)
Definition ride_report_of_no_ride : list Event :=
  [Print (GREEN ++ "Ride Count Statistics" ++ ENDC);
   Print "";
   Print ("Total Rides " ++ BAR ++ " 0");
   Print "";
   Print "Hours:"].

Definition header_lines (city month day : string) : list Event :=
  [Print (get_filter_description city month day);
   Print (repeat_string "-"
            (String.length (get_filter_description city month day)));
   Print ""].

Definition no_busiest_hour : exn :=
  ValueError "attempt to get argmax of an empty sequence".

(** The answers that end the program and those that start it over. *)
Definition says_no (l : string) : Prop := lower l = "no" \/ lower l = "n".
Definition says_yes (l : string) : Prop := lower l = "yes" \/ lower l = "y".

(** *** Frames row by row *)


(** [df[name] = column], on the columns and on one row. *)
Definition set_columns (cs : list string) (name : string) : list string :=
  match index name cs with
  | Some _ => cs
  | None => (cs ++ [name])%list
  end.

Definition set_row (cs : list string) (name : string) (r : Row) (c : Cell)
  : Row :=
  match index name cs with
  | Some i => {| label := label r; cells := replace_nth i c (cells r) |}
  | None => {| label := label r; cells := (cells r ++ [c])%list |}
  end.


(** A run that reads no input. *)
Definition reads_nothing {A} (m : IO A) : Prop :=
  forall stdin, rest (m stdin) = stdin.


(** * Properties *)

(** ** format_time *)



Lemma truncate_inject (z : Z) : truncate (inject_Z z) = z.
Proof. unfold truncate, inject_Z. simpl. apply Z.quot_1_r. Qed.





(** ** get_filter_description *)




(** ** load_data: the filters *)

(** Propositional reasoning that leaves the variables of the section alone. *)
Ltac pure_logic :=
  try clear fs; try clear to_datetime; try clear repr_float;
  try clear fmt_float; try clear current_year;
  intuition congruence.

Ltac res_cases H :=
  repeat match type of H with
         | context [res_bind ?m _] =>
             let E := fresh "E" in
             destruct m eqn:E; cbn [res_bind] in H; try discriminate H
         end.

Lemma select_rows_map (f : Row -> bool) (rs : list Row) :
  select_rows rs (map f rs) = filter f rs.
Proof.
  induction rs as [| r rs IH]; simpl; [reflexivity |].
  destruct (f r); now rewrite IH.
Qed.

Lemma getitem_values (df : DataFrame) (name : string) (i : nat) :
  index name (columns df) = Some i ->
  getitem df name = Ok (map (fun r => (label r, cell_at i r)) (rows df)).
Proof. intros H. unfold getitem. now rewrite H. Qed.

Lemma getitem_Ok (df : DataFrame) (name : string) (s : Series) :
  getitem df name = Ok s ->
  exists i, index name (columns df) = Some i
            /\ s = map (fun r => (label r, cell_at i r)) (rows df).
Proof.
  unfold getitem. destruct (index name (columns df)) as [i |]; [| discriminate].
  intros H. injection H as <-. now exists i.
Qed.

Lemma index_app_l (x y : string) (l : list string) (i : nat) :
  index x l = Some i -> index x (l ++ [y]) = Some i.
Proof.
  revert i. induction l as [| z l IH]; simpl; intros i H; [discriminate |].
  destruct (String.eqb z x); [assumption |].
  destruct (index x l) as [k |]; [| discriminate].
  now rewrite (IH k eq_refl).
Qed.

Lemma index_app_new (x : string) (l : list string) :
  index x l = None -> index x (l ++ [x]) = Some (List.length l).
Proof.
  induction l as [| z l IH]; simpl; intros H.
  - now rewrite String.eqb_refl.
  - destruct (String.eqb z x); [discriminate |].
    destruct (index x l); [discriminate |].
    now rewrite IH.
Qed.

Lemma setitem_index_same (df : DataFrame) (name : string) (col : list Cell) :
  exists i, index name (columns (setitem df name col)) = Some i.
Proof.
  unfold setitem. destruct (index name (columns df)) as [i |] eqn:E; simpl.
  - now exists i.
  - exists (List.length (columns df)). now apply index_app_new.
Qed.

Lemma setitem_index_other (df : DataFrame) (name other : string)
  (col : list Cell) (i : nat) :
  index other (columns df) = Some i ->
  index other (columns (setitem df name col)) = Some i.
Proof.
  intros H. unfold setitem. destruct (index name (columns df)); simpl;
    [assumption | now apply index_app_l].
Qed.

(** A frame that was read carries the derived columns. *)
Lemma derive_frame_columns (df0 df : DataFrame) :
  derive_frame df0 = Ok df ->
  (exists i, index "month" (columns df) = Some i)
  /\ (exists i, index "day_of_week" (columns df) = Some i)
  /\ (exists i, index "hour" (columns df) = Some i).
Proof.
  unfold derive_frame. intros H. res_cases H. injection H as <-.
  split; [| split].
  - destruct (setitem_index_same
                (setitem df0 "Start Time" a0) "month" a2) as [i Hi].
    exists i. now do 2 apply setitem_index_other.
  - destruct (setitem_index_same
                (setitem (setitem df0 "Start Time" a0) "month" a2)
                "day_of_week" a4) as [i Hi].
    exists i. now apply setitem_index_other.
  - apply setitem_index_same.
Qed.

Lemma read_frame_columns (city : string) (df : DataFrame) :
  read_frame city = Ok df ->
  (exists i, index "month" (columns df) = Some i)
  /\ (exists i, index "day_of_week" (columns df) = Some i)
  /\ (exists i, index "hour" (columns df) = Some i).
Proof.
  unfold read_frame. intros H. res_cases H.
  now apply derive_frame_columns with (df0 := a0).
Qed.

Lemma mem_In (x : string) (l : list string) : mem x l = true <-> In x l.
Proof.
  unfold mem. rewrite existsb_exists. split.
  - intros [y [Hy E]]. apply String.eqb_eq in E. now subst.
  - intros H. exists x. split; [assumption | apply String.eqb_refl].
Qed.

Lemma eq_int_cell_eqb (k : Z) (c : Cell) : eq_int k c = cell_eqb c (Int k).
Proof. now destruct c. Qed.

Lemma valid_month_index (month : string) :
  mem month valid_months = true ->
  month = "all"
  \/ (lower month = month /\ exists i, index month months = Some i).
Proof.
  intros H. apply mem_In in H. unfold valid_months, months in H.
  cbn [In] in H.
  repeat (destruct H as [<- | H];
          [first [now left
                 | right; split; [reflexivity | eexists; reflexivity]] |]).
  contradiction.
Qed.

Lemma filter_filter {A} (f g : A -> bool) (l : list A) :
  filter g (filter f l) = filter (fun x => f x && g x) l.
Proof.
  induction l as [| x l IH]; simpl; [reflexivity |].
  destruct (f x); simpl; [destruct (g x) |]; now rewrite IH.
Qed.

Lemma filter_frame_rows (month day : string) (df : DataFrame) (i j : nat) :
  index "month" (columns df) = Some i ->
  index "day_of_week" (columns df) = Some j ->
  mem month valid_months = true ->
  filter_frame month day df
  = Ok {| columns := columns df;
          rows := filter (fun r => month_matches df month r
                                   && day_matches df day r) (rows df) |}.
Proof.
  intros Hi Hj Hm. unfold filter_frame.
  assert (Hmonth :
    filter_month month df
    = Ok {| columns := columns df;
            rows := filter (month_matches df month) (rows df) |}).
  { unfold filter_month, month_matches, month_index, field. rewrite Hi.
    destruct (valid_month_index month Hm) as [-> | [Hl [k Hk]]].
    - simpl. destruct df as [cs rs]. simpl. f_equal. f_equal.
      induction rs as [| r rs IH]; simpl; [reflexivity | now rewrite <- IH].
    - rewrite Hl, Hk. destruct (String.eqb month "all"); simpl.
      + destruct df as [cs rs]. simpl. f_equal. f_equal.
        induction rs as [| r rs IH]; simpl; [reflexivity | now rewrite <- IH].
      + rewrite (getitem_values df "month" Hi). cbn [res_bind].
        unfold select, values. rewrite !map_map. simpl.
        rewrite select_rows_map. f_equal. f_equal.
        apply filter_ext. intros r. rewrite eq_int_cell_eqb.
        now replace (Z.of_nat k + 1) with (Z.of_nat (S k)) by lia. }
  rewrite Hmonth. cbn [res_bind]. unfold filter_day.
  destruct (String.eqb day "all") eqn:Hd; simpl.
  - f_equal. f_equal. apply filter_ext. intros r.
    unfold day_matches. rewrite Hd. simpl. now rewrite andb_true_r.
  - unfold getitem. simpl. rewrite Hj. cbn [res_bind].
    unfold select, values. simpl. rewrite !map_map. simpl.
    rewrite select_rows_map, filter_filter. f_equal. f_equal.
    apply filter_ext. intros r. f_equal.
    unfold day_matches, field. rewrite Hd, Hj. simpl.
    now destruct (cell_at j r).
Qed.

(** C1. On a table that was loaded, with a month among "all", "january" ..
    "june" and a day among "all", "monday" .. "sunday", the filtering step
    succeeds, keeps the columns, and keeps exactly the rows, in their order,
    whose derived month number is the 1-based index of the month name and whose
    derived weekday name equals the day up to case; "all" on a dimension
    keeps every row, and "all" on both returns the table itself. *)
Theorem filter_frame_exact (city month day : string) (df : DataFrame) :
  read_frame city = Ok df ->
  mem month valid_months = true ->
  mem day valid_days = true ->
  exists df',
    filter_frame month day df = Ok df'
    /\ columns df' = columns df
    /\ rows df' = filter (fun r => month_matches df month r
                                   && day_matches df day r) (rows df)
    /\ (forall r, month_matches df "all" r = true)
    /\ (forall r, day_matches df "all" r = true)
    /\ filter_frame "all" "all" df = Ok df.
Proof.
  intros Hread Hm _.
  destruct (read_frame_columns _ Hread) as [[i Hi] [[j Hj] _]].
  eexists. split; [apply (filter_frame_rows month day df Hi Hj Hm) |].
  repeat split.
Qed.

(** ** load_data: failures *)

Lemma sequence_raise {A} (l : list (Res A)) (e : exn) :
  sequence l = Raise e -> In (Raise e) l.
Proof.
  induction l as [| m l IH]; simpl; [discriminate |].
  destruct m as [a | e' |]; cbn [res_bind]; [| | discriminate].
  - destruct (sequence l); cbn [res_bind]; try discriminate.
    intros H. right. now apply IH.
  - intros [= ->]. now left.
Qed.

Lemma sequence_hang {A} (l : list (Res A)) :
  sequence l = Hang -> In Hang l.
Proof.
  induction l as [| m l IH]; simpl; [discriminate |].
  destruct m as [a | e' |]; cbn [res_bind]; [| discriminate | now left].
  destruct (sequence l); cbn [res_bind]; try discriminate.
  intros _. right. now apply IH.
Qed.

Lemma getitem_raise (df : DataFrame) (name : string) (e : exn) :
  getitem df name = Raise e -> e = KeyError ("'" ++ name ++ "'").
Proof.
  unfold getitem. destruct (index name (columns df)); [discriminate |].
  now intros [= <-].
Qed.

Lemma getitem_hang (df : DataFrame) (name : string) : getitem df name <> Hang.
Proof. unfold getitem. now destruct (index name (columns df)). Qed.

Lemma to_datetime_series_raise (s : Series) (e : exn) :
  to_datetime_series s = Raise e -> is_not_found e = false.
Proof.
  intros H. apply sequence_raise in H. apply in_map_iff in H.
  destruct H as [p [H _]]. destruct (to_datetime (snd p)); [discriminate |].
  now injection H as <-.
Qed.

Lemma to_datetime_series_hang (s : Series) : to_datetime_series s <> Hang.
Proof.
  intros H. apply sequence_hang in H. apply in_map_iff in H.
  destruct H as [p [H _]]. now destruct (to_datetime (snd p)).
Qed.

Lemma dt_raise (field : Timestamp -> Cell) (s : Series) (e : exn) :
  dt field s = Raise e -> is_not_found e = false.
Proof.
  intros H. apply sequence_raise in H. apply in_map_iff in H.
  destruct H as [p [H _]]. destruct (snd p); try discriminate;
    now injection H as <-.
Qed.

Lemma dt_hang (field : Timestamp -> Cell) (s : Series) : dt field s <> Hang.
Proof.
  intros H. apply sequence_hang in H. apply in_map_iff in H.
  destruct H as [p [H _]]. now destruct (snd p).
Qed.

Lemma filter_month_outcome (month : string) (df : DataFrame) :
  match filter_month month df with
  | Ok _ => True
  | Raise e => is_not_found e = false
  | Hang => False
  end.
Proof.
  unfold filter_month. destruct (negb (String.eqb month "all")); [| exact I].
  destruct (index (lower month) months); [| reflexivity].
  unfold getitem. now destruct (index "month" (columns df)).
Qed.

Lemma filter_day_outcome (day : string) (df : DataFrame) :
  match filter_day day df with
  | Ok _ => True
  | Raise e => is_not_found e = false
  | Hang => False
  end.
Proof.
  unfold filter_day. destruct (negb (String.eqb day "all")); [| exact I].
  unfold getitem. now destruct (index "day_of_week" (columns df)).
Qed.

Lemma filter_frame_outcome (month day : string) (df : DataFrame) :
  match filter_frame month day df with
  | Ok _ => True
  | Raise e => is_not_found e = false
  | Hang => False
  end.
Proof.
  unfold filter_frame. pose proof (filter_month_outcome month df) as Hm.
  destruct (filter_month month df) as [df1 | e |]; cbn [res_bind]; try exact Hm.
  pose proof (filter_day_outcome day df1) as Hd.
  destruct (filter_day day df1); cbn [res_bind]; exact Hd.
Qed.

Lemma read_frame_unfold (city : string) :
  read_frame city
  = match dict_get city CITY_DATA with
    | Some path => df <~ read_csv path ;; derive_frame df
    | None => Raise (KeyError ("'" ++ city ++ "'"))
    end.
Proof. unfold read_frame. now destruct (dict_get city CITY_DATA). Qed.

Ltac outcome_step lemma_raise lemma_hang :=
  match goal with
  | |- match res_bind ?m _ with _ => _ end =>
      let E := fresh "E" in
      destruct m eqn:E; cbn [res_bind];
      [ | solve [eapply lemma_raise; eassumption]
        | solve [exfalso; eapply lemma_hang; eassumption] ]
  end.

Lemma getitem_not_found (df : DataFrame) (name : string) (e : exn) :
  getitem df name = Raise e -> is_not_found e = false.
Proof. intros H. apply getitem_raise in H. now subst. Qed.

Lemma derive_frame_outcome (df : DataFrame) :
  match derive_frame df with
  | Ok _ => True
  | Raise e => is_not_found e = false
  | Hang => False
  end.
Proof.
  unfold derive_frame.
  outcome_step getitem_not_found getitem_hang.
  outcome_step to_datetime_series_raise to_datetime_series_hang.
  outcome_step getitem_not_found getitem_hang.
  outcome_step dt_raise dt_hang.
  outcome_step getitem_not_found getitem_hang.
  outcome_step dt_raise dt_hang.
  outcome_step getitem_not_found getitem_hang.
  outcome_step dt_raise dt_hang.
  exact I.
Qed.

Lemma load_frame_unfold (city month day : string) :
  load_frame city month day
  = match dict_get city CITY_DATA with
    | Some path =>
        match fs path with
        | Absent =>
            Raise (FileNotFoundError
                     ("[Errno 2] No such file or directory: '" ++ path ++ "'"))
        | Unreadable msg => Raise (OtherException msg)
        | Content df => df <~ derive_frame df ;; filter_frame month day df
        end
    | None => Raise (KeyError ("'" ++ city ++ "'"))
    end.
Proof.
  unfold load_frame. rewrite read_frame_unfold.
  destruct (dict_get city CITY_DATA) as [path |]; [| reflexivity].
  unfold read_csv. now destruct (fs path).
Qed.

(** Loading never hangs, and [FileNotFoundError] is raised exactly for a file
    that is absent. *)
Lemma load_frame_not_hang (city month day : string) :
  load_frame city month day <> Hang.
Proof.
  rewrite load_frame_unfold.
  destruct (dict_get city CITY_DATA) as [path |]; [| discriminate].
  destruct (fs path) as [| msg | df]; try discriminate.
  pose proof (derive_frame_outcome df) as Hd.
  destruct (derive_frame df) as [df1 | e |]; cbn [res_bind];
    [| discriminate | contradiction].
  pose proof (filter_frame_outcome month day df1) as Hf.
  now destruct (filter_frame month day df1).
Qed.

Lemma load_frame_not_found (city month day : string) (e : exn) :
  load_frame city month day = Raise e ->
  (is_not_found e = true
   <-> exists path, dict_get city CITY_DATA = Some path /\ fs path = Absent).
Proof.
  rewrite load_frame_unfold.
  destruct (dict_get city CITY_DATA) as [path |].
  - destruct (fs path) as [| msg | df] eqn:Efs.
    + intros [= <-]. split; [intros _; now exists path | reflexivity].
    + intros [= <-]. split; [discriminate |].
      intros [p [[= <-] H]]. congruence.
    + intros H. split.
      * intros Hnf. exfalso.
        pose proof (derive_frame_outcome df) as Hd.
        destruct (derive_frame df) as [df1 | e1 |]; cbn [res_bind] in H.
        -- pose proof (filter_frame_outcome month day df1) as Hf.
           rewrite H in Hf. congruence.
        -- injection H as <-. congruence.
        -- discriminate.
      * intros [p [[= <-] Hp]]. congruence.
  - intros [= <-]. split; [discriminate |]. now intros [p [Hp _]].
Qed.

Lemma load_data_fails (city month day : string) (e : exn) (stdin : list string) :
  load_frame city month day = Raise e ->
  load_data city month day stdin
  = {| trace := (loading_lines ++ [Print (error_line e)])%list;
       rest := stdin; result := Ok None |}.
Proof.
  intros H. unfold load_data, try_except, bind, print, emit, lift, ret.
  cbn. rewrite H. cbn. unfold error_line.
  destruct e; reflexivity.
Qed.

Lemma load_data_succeeds (city month day : string) (df : DataFrame)
  (stdin : list string) :
  load_frame city month day = Ok df ->
  load_data city month day stdin
  = {| trace := loading_lines; rest := stdin; result := Ok (Some df) |}.
Proof.
  intros H. unfold load_data, try_except, bind, print, emit, lift, ret.
  cbn. rewrite H. reflexivity.
Qed.

(** The causes of failure the specification names. *)
Lemma absent_file_fails (city month day path : string) :
  dict_get city CITY_DATA = Some path -> fs path = Absent ->
  exists msg, load_frame city month day = Raise (FileNotFoundError msg).
Proof.
  intros Hc Hf. rewrite load_frame_unfold, Hc, Hf. now eexists.
Qed.

Lemma unreadable_file_fails (city month day path msg : string) :
  dict_get city CITY_DATA = Some path -> fs path = Unreadable msg ->
  load_frame city month day = Raise (OtherException msg).
Proof. intros Hc Hf. now rewrite load_frame_unfold, Hc, Hf. Qed.

Lemma sequence_first_raise {A} (l : list (Res A)) :
  (exists e, In (Raise e) l) -> ~ In Hang l -> exists e, sequence l = Raise e.
Proof.
  induction l as [| m l IH]; intros [e He] Hh; [destruct He |].
  simpl. destruct m as [a | e' |]; cbn [res_bind].
  - destruct He as [He | He]; [discriminate |].
    destruct IH as [e1 H1]; [now exists e | intros Hin; apply Hh; now right |].
    rewrite H1. now exists e1.
  - now exists e'.
  - exfalso. apply Hh. now left.
Qed.

Lemma bad_start_time_fails (city month day path : string) (df : DataFrame)
  (start : Series) (p : nat * Cell) (msg : string) :
  dict_get city CITY_DATA = Some path -> fs path = Content df ->
  getitem df "Start Time" = Ok start ->
  In p start -> to_datetime (snd p) = inr msg ->
  exists e, load_frame city month day = Raise e.
Proof.
  intros Hc Hf Hg Hp Hm. rewrite load_frame_unfold, Hc, Hf.
  unfold derive_frame. rewrite Hg. cbn [res_bind].
  destruct (@sequence_first_raise Cell
              (map (fun p0 => match to_datetime (snd p0) with
                              | inl t => Ok (Time t)
                              | inr msg0 => Raise (ValueError msg0)
                              end) start)) as [e He].
  - exists (ValueError msg). apply in_map_iff. exists p. now rewrite Hm.
  - intros Hin. apply in_map_iff in Hin. destruct Hin as [q [Hq _]].
    now destruct (to_datetime (snd q)).
  - exists e. unfold to_datetime_series. now rewrite He.
Qed.

(** ** main: a turn whose load fails *)

Lemma ask_restart_prompts (stdin : list string) :
  hd_error (trace (ask_restart stdin)) = Some (Prompt restart_prompt).
Proof.
  destruct stdin as [| l stdin]; cbn [ask_restart]; [reflexivity |].
  now destruct (mem (lower l) ["yes"; "no"; "y"; "n"]).
Qed.

Lemma session_after_failure (city month day : string) (e : exn)
  (stdin : list string) :
  load_frame city month day = Raise e ->
  let r := ask_restart stdin in
  session city month day stdin
  = {| trace :=
         (loading_lines ++ [Print (error_line e)] ++ closing_lines ++ trace r
          ++ match result r with
             | Ok a => if startswith "y" a then [Print (newline ++ newline)]
                       else []
             | _ => []
             end)%list;
       rest := rest r;
       result := match result r with
                 | Ok a => Ok (startswith "y" a)
                 | Raise e' => Raise e'
                 | Hang => Hang
                 end |}.
Proof.
  intros H r. unfold session, bind. rewrite (load_data_fails _ _ _ stdin H).
  cbn. fold r. destruct r as [t rs [a | e' |]]; cbn.
  - destruct (startswith "y" a); cbn; rewrite ?app_nil_r; reflexivity.
  - now rewrite app_nil_r.
  - now rewrite app_nil_r.
Qed.

(** C6. Loading never raises.  In a turn whose load fails, for a missing
    file, an unreadable one or any other exception, the loader returns the
    absent value after its error line, no report is printed, and the next
    thing the turn does after the closing lines is to ask whether to
    restart. *)
Theorem failed_load_reaches_restart (city month day : string) (e : exn)
  (stdin : list string) :
  load_frame city month day = Raise e ->
  let r := ask_restart stdin in
  (forall c m d i, exists o, result (load_data c m d i) = Ok o)
  /\ load_data city month day stdin
     = {| trace := (loading_lines ++ [Print (error_line e)])%list;
          rest := stdin; result := Ok None |}
  /\ trace (session city month day stdin)
     = (loading_lines ++ [Print (error_line e)] ++ closing_lines ++ trace r
        ++ match result r with
           | Ok a => if startswith "y" a then [Print (newline ++ newline)]
                     else []
           | _ => []
           end)%list
  /\ hd_error (trace r) = Some (Prompt restart_prompt)
  /\ result (session city month day stdin)
     = match result r with
       | Ok a => Ok (startswith "y" a)
       | Raise e' => Raise e'
       | Hang => Hang
       end.
Proof.
  intros H r. split; [| split; [| split; [| split]]].
  - intros c m d i. destruct (load_frame c m d) as [df | e1 |] eqn:E.
    + rewrite (load_data_succeeds _ _ _ i E). now eexists.
    + rewrite (load_data_fails _ _ _ i E). now eexists.
    + now apply load_frame_not_hang in E.
  - apply (load_data_fails _ _ _ stdin H).
  - now rewrite (session_after_failure _ _ _ stdin H).
  - apply ask_restart_prompts.
  - now rewrite (session_after_failure _ _ _ stdin H).
Qed.

(** C7, as the program has it.  A failed load returns the same absent value
    whatever the failure; the two kinds differ by the line printed, which
    starts with "Error loading data: " exactly when the file of the city is
    absent and with "An unexpected error occurred: " for every other
    failure. *)
Theorem load_failure_told_by_message (city month day : string) (e : exn)
  (stdin : list string) :
  load_frame city month day = Raise e ->
  result (load_data city month day stdin) = Ok None
  /\ trace (load_data city month day stdin)
     = (loading_lines ++ [Print (error_line e)])%list
  /\ (is_not_found e = true
      <-> exists path, dict_get city CITY_DATA = Some path /\ fs path = Absent)
  /\ error_line e
     = RED ++ (if is_not_found e then "Error loading data: "
               else "An unexpected error occurred: ") ++ exn_str e ++ ENDC.
Proof.
  intros H. rewrite (load_data_fails _ _ _ stdin H). cbn [result trace].
  repeat split; try reflexivity; now apply (load_frame_not_found _ _ _ H).
Qed.

(** ** Running the monad *)

Lemma bind_print {A} (line : string) (k : unit -> IO A) (stdin : list string) :
  bind (print line) k stdin = prefix_trace [Print line] (k tt stdin).
Proof. reflexivity. Qed.

Lemma bind_emit {A} (e : Event) (k : unit -> IO A) (stdin : list string) :
  bind (emit e) k stdin = prefix_trace [e] (k tt stdin).
Proof. reflexivity. Qed.

Lemma bind_lift_Ok {A B} (a : A) (k : A -> IO B) (stdin : list string) :
  bind (lift (Ok a)) k stdin = k a stdin.
Proof. unfold bind, lift. cbn. now destruct (k a stdin). Qed.

Lemma bind_lift_Raise {A B} (e : exn) (k : A -> IO B) (stdin : list string) :
  bind (lift (Raise e)) k stdin
  = {| trace := []; rest := stdin; result := Raise e |}.
Proof. reflexivity. Qed.

Lemma bind_ret {A B} (a : A) (k : A -> IO B) (stdin : list string) :
  bind (ret a) k stdin = k a stdin.
Proof. unfold bind, ret. cbn. now destruct (k a stdin). Qed.

Lemma bind_assoc {A B C} (m : IO A) (f : A -> IO B) (g : B -> IO C)
  (stdin : list string) :
  bind (bind m f) g stdin = bind m (fun x => bind (f x) g) stdin.
Proof.
  unfold bind. destruct (m stdin) as [t rs [a | e |]]; cbn; try reflexivity.
  destruct (f a rs) as [t1 rs1 [b | e |]]; cbn; try reflexivity.
  destruct (g b rs1) as [t2 rs2 r2]; cbn. now rewrite app_assoc.
Qed.

Lemma bind_ext {A B} (m : IO A) (f g : A -> IO B) (stdin : list string) :
  (forall a i, f a i = g a i) -> bind m f stdin = bind m g stdin.
Proof.
  intros H. unfold bind. destruct (m stdin) as [t rs [a | e |]]; cbn;
    [now rewrite H | reflexivity | reflexivity].
Qed.

Lemma bind_yes {A} (prompt : string) (k : bool -> IO A) (stdin : list string) :
  bind (get_yes_no_input prompt) k ("yes" :: stdin)
  = prefix_trace [Prompt prompt] (k true stdin).
Proof. reflexivity. Qed.

Lemma bind_no {A} (prompt : string) (k : bool -> IO A) (stdin : list string) :
  bind (get_yes_no_input prompt) k ("no" :: stdin)
  = prefix_trace [Prompt prompt] (k false stdin).
Proof. reflexivity. Qed.

Lemma result_prefix_trace {A} (t : list Event) (r : Run A) :
  result (prefix_trace t r) = result r.
Proof. reflexivity. Qed.

Ltac run_io :=
  repeat first
    [ rewrite bind_print | rewrite bind_emit | rewrite bind_lift_Ok
    | rewrite bind_lift_Raise | rewrite result_prefix_trace ].

(** ** The aggregators on an empty table *)

Lemma mem_index (x : string) (l : list string) :
  mem x l = true -> exists i, index x l = Some i.
Proof.
  intros H. apply mem_In in H. induction l as [| y l IH]; [destruct H |].
  simpl. destruct (String.eqb_spec y x) as [_ | Hne]; [now eexists |].
  destruct H as [-> | H]; [now contradiction Hne |].
  destruct (IH H) as [i ->]. now eexists.
Qed.

Lemma index_mem (x : string) (l : list string) (i : nat) :
  index x l = Some i -> mem x l = true.
Proof.
  revert i. induction l as [| y l IH]; simpl; intros i H; [discriminate |].
  unfold mem. simpl. rewrite String.eqb_sym.
  destruct (String.eqb y x); [reflexivity |]. simpl.
  destruct (index x l) as [k |]; [now apply (IH k) | discriminate].
Qed.

Lemma getitem_cases (df : DataFrame) (name : string) :
  (mem name (columns df) = true
   /\ exists i, getitem df name
                = Ok (map (fun r => (label r, cell_at i r)) (rows df))
                /\ index name (columns df) = Some i)
  \/ (mem name (columns df) = false
      /\ getitem df name = Raise (KeyError ("'" ++ name ++ "'"))).
Proof.
  unfold getitem. destruct (index name (columns df)) as [i |] eqn:E.
  - left. split; [now apply index_mem in E | now exists i].
  - right. split; [| reflexivity].
    destruct (mem name (columns df)) eqn:Hm; [| reflexivity].
    apply mem_index in Hm. destruct Hm as [i Hi]. congruence.
Qed.

Lemma ride_stats_empty (df : DataFrame) (stdin : list string) :
  rows df = [] ->
  exists e, result (display_ride_stats df stdin) = Raise e
            /\ (mem "hour" (columns df) = true ->
                e = ValueError "attempt to get argmax of an empty sequence").
Proof.
  intros H. unfold display_ride_stats. run_io.
  destruct (getitem_cases df "hour") as [[Hm [i [-> _]]] | [Hm ->]].
  - rewrite H. run_io. cbn [map]. change (value_counts []) with (@nil (Cell * nat)).
    change (sort_index []) with (@nil (Cell * nat)). cbn [idxmax]. run_io.
    eexists. split; reflexivity.
  - run_io. eexists. split; [reflexivity |]. congruence.
Qed.

Lemma dropna_all_missing (s : Series) :
  (forall p, In p s -> snd p = NaN) -> dropna s = [].
Proof.
  induction s as [| p s IH]; intros H; [reflexivity |].
  simpl. rewrite (H p (or_introl eq_refl)). simpl.
  apply IH. intros q Hq. apply H. now right.
Qed.

Lemma station_stats_no_start (df : DataFrame) (stdin : list string) :
  (forall r, In r (rows df) -> field df "Start Station" r = NaN) ->
  exists e, result (display_station_stats df stdin) = Raise e
            /\ (mem "Start Station" (columns df) = true ->
                mem "End Station" (columns df) = true ->
                e = IndexError "index 0 is out of bounds for axis 0 with size 0").
Proof.
  intros H. unfold display_station_stats. run_io.
  destruct (getitem_cases df "Start Station") as [[Hm [i [-> Hi]]] | [Hm ->]].
  - run_io. rewrite dropna_all_missing.
    + destruct (getitem_cases df "End Station") as [[Hm' [j [-> _]]] | [Hm' ->]];
        run_io.
      * change (value_counts []) with (@nil (Cell * nat)). cbn [index0].
        run_io. eexists. split; reflexivity.
      * eexists. split; [reflexivity |]. congruence.
    + intros p Hp. apply in_map_iff in Hp. destruct Hp as [r [<- Hr]].
      simpl. specialize (H r Hr). unfold field in H. now rewrite Hi in H.
  - run_io. eexists. split; [reflexivity |]. congruence.
Qed.

Lemma duration_stats_empty (df : DataFrame) (stdin : list string) :
  rows df = [] ->
  exists e, result (display_trip_duration_stats df stdin) = Raise e
            /\ (mem "Trip Duration" (columns df) = true ->
                e = ValueError "cannot convert float NaN to integer").
Proof.
  intros H. unfold display_trip_duration_stats. run_io.
  destruct (getitem_cases df "Trip Duration") as [[Hm [i [-> _]]] | [Hm ->]].
  - rewrite H. cbn [map]. run_io.
    change (series_sum []) with (Ok (Int 0)). run_io.
    change (series_mean []) with (@Ok Cell NaN). run_io.
    change (format_time (Int 0)) with (Ok "0h 0m 0s"). run_io.
    change (format_time NaN)
      with (@Raise string (ValueError "cannot convert float NaN to integer")).
    run_io. eexists. split; reflexivity.
  - run_io. eexists. split; [reflexivity |]. congruence.
Qed.

(** C10. On a table without rows none of the three aggregators reports "no
    data": the ride statistics raise on the busiest hour of no hour, the
    station statistics raise on the first of no station (as they do whenever
    no row has a start station), and the duration statistics raise on the
    mean of no duration, which is not a number. *)
Theorem empty_table_aggregators_raise (df : DataFrame) (stdin : list string) :
  rows df = [] ->
  (exists e, result (display_ride_stats df stdin) = Raise e
             /\ (mem "hour" (columns df) = true ->
                 e = ValueError "attempt to get argmax of an empty sequence"))
  /\ (exists e, result (display_station_stats df stdin) = Raise e
                /\ (mem "Start Station" (columns df) = true ->
                    mem "End Station" (columns df) = true ->
                    e = IndexError
                          "index 0 is out of bounds for axis 0 with size 0"))
  /\ (exists e, result (display_trip_duration_stats df stdin) = Raise e
                /\ (mem "Trip Duration" (columns df) = true ->
                    e = ValueError "cannot convert float NaN to integer"))
  /\ (forall df' stdin',
        (forall r, In r (rows df') -> field df' "Start Station" r = NaN) ->
        exists e, result (display_station_stats df' stdin') = Raise e)
  /\ series_mean [] = Ok NaN
  /\ format_time NaN = Raise (ValueError "cannot convert float NaN to integer")
  /\ idxmax [] = Raise (ValueError "attempt to get argmax of an empty sequence")
  /\ idxmin [] = Raise (ValueError "attempt to get argmin of an empty sequence")
  /\ index0 [] = Raise (IndexError "index 0 is out of bounds for axis 0 with size 0")
  /\ getitem0 (mode []) = Raise (KeyError "0").
Proof.
  intros H. split; [now apply ride_stats_empty |].
  split; [apply station_stats_no_start; rewrite H; now intros r [] |].
  split; [now apply duration_stats_empty |].
  split; [| repeat split].
  intros df' stdin' H'.
  destruct (station_stats_no_start df' stdin' H') as [e [He _]]. now exists e.
Qed.

(** ** display_user_stats: the gender of the subscribers *)

Lemma count_key_nonempty (c : Cell) (table : list (Cell * nat)) :
  count_key c table <> [].
Proof.
  destruct table as [| [k n] table]; simpl; [discriminate |].
  now destruct (cell_eqb k c).
Qed.

Lemma tally_from_nonempty (xs : list Cell) (table : list (Cell * nat)) :
  table <> [] -> fold_left (fun t c => count_key c t) xs table <> [].
Proof.
  revert table. induction xs as [| x xs IH]; simpl; intros table H;
    [assumption |].
  apply IH. apply count_key_nonempty.
Qed.

Lemma tally_nil (xs : list Cell) : tally xs = [] <-> xs = [].
Proof.
  split; [| now intros ->].
  destruct xs as [| x xs]; [reflexivity |]. unfold tally. simpl. intros H.
  exfalso. revert H. apply tally_from_nonempty. discriminate.
Qed.




Lemma eq_str_cell_eqb (s : string) (c : Cell) :
  eq_str s c = cell_eqb c (Str s).
Proof. now destruct c. Qed.

Lemma subscribers_rows (df : DataFrame) (u : nat) :
  index "User Type" (columns df) = Some u ->
  subscribers df = Ok {| columns := columns df; rows := subscriber_rows df |}.
Proof.
  intros H. unfold subscribers, subscriber_rows, field.
  rewrite (getitem_values df "User Type" H), H. cbn [res_bind].
  unfold select, values. rewrite !map_map. simpl. rewrite select_rows_map.
  reflexivity.
Qed.









(** ** display_raw_data *)

Lemma original_columns_spec (df : DataFrame) (col : string) :
  In col (original_columns df)
  <-> In col (columns df) /\ ~ In col derived_columns.
Proof.
  unfold original_columns. rewrite filter_In, negb_true_iff.
  split; intros [H1 H2]; (split; [assumption |]).
  - intros H. apply mem_In in H. congruence.
  - destruct (mem col derived_columns) eqn:E; [| reflexivity].
    apply mem_In in E. contradiction.
Qed.

Lemma project_fields (df chunk : DataFrame) (cols : list string) :
  columns chunk = columns df ->
  (forall col, In col cols -> In col (columns df)) ->
  project chunk cols
  = Ok {| columns := cols;
          rows := map (fun r =>
                    {| label := label r;
                       cells := map (fun col => field df col r) cols |})
                    (rows chunk) |}.
Proof.
  intros Hc Hin. unfold project. rewrite Hc.
  assert (Hseq :
    sequence (map (fun col =>
                match index col (columns df) with
                | Some i => Ok i
                | None => Raise (KeyError ("'" ++ col ++ "'"))
                end) cols)
    = Ok (map (fun col => match index col (columns df) with
                          | Some i => i
                          | None => O
                          end) cols)).
  { induction cols as [| c cols IH]; [reflexivity |]. cbn [sequence map].
    destruct (mem_index c (columns df)) as [i Hi].
    - apply mem_In. apply Hin. now left.
    - rewrite Hi. cbn [res_bind]. rewrite IH; [reflexivity |].
      intros col H. apply Hin. now right. }
  rewrite Hseq. cbn [res_bind]. do 2 f_equal.
  apply map_ext. intros r. f_equal. rewrite map_map.
  apply map_ext_in. intros col H. unfold field.
  destruct (mem_index col (columns df)) as [i Hi];
    [apply mem_In; now apply Hin | now rewrite Hi].
Qed.

(** One turn of the loop prints the page that starts at [5 * k]. *)
Lemma chunk_is_page (df : DataFrame) (k : nat) :
  selected <~ project (iloc df (5 * k) (Nat.min (5 * k + 5) (len df)))
                (original_columns df) ;;
  Ok (PrintTable (original_columns df) (tolist selected))
  = Ok (page df k).
Proof.
  rewrite (@project_fields df); [| reflexivity |].
  - cbn [res_bind]. unfold page, tolist, page_rows, iloc. simpl.
    do 2 f_equal. rewrite map_map. apply map_ext. intros r. simpl.
    now rewrite map_map.
  - intros col H. now apply original_columns_spec in H.
Qed.

Lemma raw_data_loop_turn (fuel : nat) (df : DataFrame) (k : nat)
  (stdin : list string) :
  (5 * k < len df)%nat ->
  raw_data_loop (S fuel) df (original_columns df) (5 * k) stdin
  = prefix_trace [page df k]
      ((if (5 * S k <? len df)%nat then
          more <- get_yes_no_input more_prompt ;;
          if more then raw_data_loop fuel df (original_columns df) (5 * S k)
          else ret tt
        else raw_data_loop fuel df (original_columns df) (5 * S k)) stdin).
Proof.
  intros Hk. cbn [raw_data_loop].
  apply Nat.ltb_lt in Hk. rewrite Hk.
  pose proof (chunk_is_page df k) as Hp.
  destruct (project _ _) as [sel | e |]; cbn [res_bind] in Hp;
    try discriminate Hp.
  injection Hp as Hp.
  replace (5 * k + 5)%nat with (5 * S k)%nat by lia.
  rewrite bind_lift_Ok, bind_emit.
  replace (PrintTable (original_columns df) (tolist sel)) with (page df k)
    by (unfold page; now rewrite Hp).
  f_equal. destruct (5 * S k <? len df)%nat.
  - rewrite bind_assoc. apply bind_ext.
    intros [|] i; now rewrite bind_ret.
  - now rewrite bind_ret.
Qed.

Lemma raw_data_loop_done (fuel : nat) (df : DataFrame) (cols : list string)
  (i : nat) (stdin : list string) :
  (len df <= i)%nat ->
  raw_data_loop (S fuel) df cols i stdin
  = {| trace := []; rest := stdin; result := Ok tt |}.
Proof.
  intros H. cbn [raw_data_loop]. apply Nat.ltb_ge in H. now rewrite H.
Qed.

(** The user answers yes [m] times from page [k] on, and page [k + m] is the
    last one. *)
Lemma raw_data_loop_to_the_end (df : DataFrame) (m : nat) :
  forall (k fuel : nat) (tail : list string),
    (5 * (k + m) < len df <= 5 * (k + m) + 5)%nat ->
    (m + 2 <= fuel)%nat ->
    raw_data_loop fuel df (original_columns df) (5 * k)
      (repeat "yes" m ++ tail)%list
    = {| trace := pages_with_prompts df k m; rest := tail; result := Ok tt |}.
Proof.
  induction m as [| m IH]; intros k fuel tail Hk Hf.
  - destruct fuel as [| [| fuel]]; try lia.
    rewrite raw_data_loop_turn by lia.
    replace (5 * S k <? len df)%nat with false
      by (symmetry; apply Nat.ltb_ge; lia).
    rewrite raw_data_loop_done by lia. reflexivity.
  - destruct fuel as [| fuel]; try lia.
    rewrite raw_data_loop_turn by lia.
    replace (5 * S k <? len df)%nat with true
      by (symmetry; apply Nat.ltb_lt; lia).
    cbn [repeat app]. rewrite bind_yes.
    rewrite IH by lia. reflexivity.
Qed.

(** The user answers yes [m] times from page [k] on, then no, and there are
    pages after page [k + m]. *)
Lemma raw_data_loop_stopped (df : DataFrame) (m : nat) :
  forall (k fuel : nat) (tail : list string),
    (5 * S (k + m) < len df)%nat ->
    (m + 1 <= fuel)%nat ->
    raw_data_loop fuel df (original_columns df) (5 * k)
      (repeat "yes" m ++ "no" :: tail)%list
    = {| trace := (pages_with_prompts df k m ++ [Prompt more_prompt])%list;
         rest := tail; result := Ok tt |}.
Proof.
  induction m as [| m IH]; intros k fuel tail Hk Hf.
  - destruct fuel as [| fuel]; try lia.
    rewrite raw_data_loop_turn by lia.
    replace (5 * S k <? len df)%nat with true
      by (symmetry; apply Nat.ltb_lt; lia).
    cbn [repeat app]. rewrite bind_no. reflexivity.
  - destruct fuel as [| fuel]; try lia.
    rewrite raw_data_loop_turn by lia.
    replace (5 * S k <? len df)%nat with true
      by (symmetry; apply Nat.ltb_lt; lia).
    cbn [repeat app]. rewrite bind_yes.
    rewrite IH by lia. reflexivity.
Qed.

Lemma display_raw_data_viewed (df : DataFrame) (city month day : string)
  (stdin : list string) :
  display_raw_data df city month day ("yes" :: stdin)
  = prefix_trace (raw_data_intro city month day)
      (raw_data_loop (S (len df)) df (original_columns df) 0 stdin).
Proof.
  unfold display_raw_data, raw_data_intro.
  rewrite !bind_print, bind_yes.
  destruct (raw_data_loop _ _ _ _ _). reflexivity.
Qed.

(** C9, as the program has it.  Once the user has asked for the raw data the
    table is shown in pages of five rows, in order, page [k] holding the rows
    5k to min(5k+5, n) under the original columns (the columns of the table
    that are not month, day_of_week or hour).  The question whether to go on
    is asked after every page that is not the last: a user who answers yes
    to the end sees every page and is asked nothing after the last one, and a
    user who answers no after page [j] sees the pages up to [j]. *)
Theorem raw_data_paging (df : DataFrame) (city month day : string)
  (last j : nat) (tail : list string) :
  (5 * last < len df <= 5 * last + 5)%nat ->
  (j <= last)%nat ->
  (forall col, In col (original_columns df)
               <-> In col (columns df) /\ ~ In col derived_columns)
  /\ (j = last ->
      display_raw_data df city month day ("yes" :: repeat "yes" j ++ tail)%list
      = {| trace := (raw_data_intro city month day
                     ++ pages_with_prompts df 0 j)%list;
           rest := tail; result := Ok tt |})
  /\ (j < last ->
      display_raw_data df city month day
        ("yes" :: repeat "yes" j ++ "no" :: tail)%list
      = {| trace := (raw_data_intro city month day
                     ++ pages_with_prompts df 0 j ++ [Prompt more_prompt])%list;
           rest := tail; result := Ok tt |})%nat
  /\ display_raw_data df city month day ("no" :: tail)
     = {| trace := raw_data_intro city month day; rest := tail;
          result := Ok tt |}.
Proof.
  intros Hlast Hj. split; [apply original_columns_spec |].
  split; [| split].
  - intros ->. rewrite display_raw_data_viewed.
    change 0%nat with (5 * 0)%nat at 1.
    rewrite raw_data_loop_to_the_end by (simpl; lia). reflexivity.
  - intros Hlt. rewrite display_raw_data_viewed.
    change 0%nat with (5 * 0)%nat at 1.
    rewrite raw_data_loop_stopped by (simpl; lia). reflexivity.
  - unfold display_raw_data, raw_data_intro.
    rewrite !bind_print, bind_no. reflexivity.
Qed.

(** ** Count tables *)

Lemma timestamp_eqb_refl (t : Timestamp) : timestamp_eqb t t = true.
Proof.
  unfold timestamp_eqb. rewrite !Z.eqb_refl, String.eqb_refl.
  now destruct (ts_weekday t).
Qed.

Lemma timestamp_eqb_eq (a b : Timestamp) : timestamp_eqb a b = true -> a = b.
Proof.
  destruct a as [m1 w1 h1 t1], b as [m2 w2 h2 t2]. unfold timestamp_eqb. simpl.
  rewrite !andb_true_iff. intros [[[Hm Hw] Hh] Ht].
  apply Z.eqb_eq in Hm, Hh. apply String.eqb_eq in Ht. subst.
  now destruct w1, w2.
Qed.

(** The value of a number, to compare an integer with a float. *)
Lemma Zeqb_Qeq_bool (x y : Z) : Z.eqb x y = Qeq_bool (inject_Z x) (inject_Z y).
Proof.
  unfold Qeq_bool, inject_Z. simpl. now rewrite !Z.mul_1_r.
Qed.

Lemma cell_eqb_refl (a : Cell) : cell_eqb a a = true.
Proof.
  destruct a; simpl; auto using String.eqb_refl, Z.eqb_refl, timestamp_eqb_refl.
  apply Qeq_bool_iff. reflexivity.
Qed.

Lemma Qeq_bool_sym (x y : Q) : Qeq_bool x y = Qeq_bool y x.
Proof.
  destruct (Qeq_bool x y) eqn:E1, (Qeq_bool y x) eqn:E2; try reflexivity.
  - apply Qeq_bool_iff in E1. symmetry in E1. apply Qeq_bool_iff in E1.
    congruence.
  - apply Qeq_bool_iff in E2. symmetry in E2. apply Qeq_bool_iff in E2.
    congruence.
Qed.

Lemma cell_eqb_sym (a b : Cell) : cell_eqb a b = cell_eqb b a.
Proof.
  destruct a, b; simpl; try reflexivity;
    auto using String.eqb_sym, Z.eqb_sym, Qeq_bool_sym.
  destruct (timestamp_eqb t t0) eqn:E1.
  - apply timestamp_eqb_eq in E1. subst. now rewrite timestamp_eqb_refl.
  - destruct (timestamp_eqb t0 t) eqn:E2; [| reflexivity].
    apply timestamp_eqb_eq in E2. subst. now rewrite timestamp_eqb_refl in E1.
Qed.

Lemma cell_eqb_trans (a b c : Cell) :
  cell_eqb a b = true -> cell_eqb b c = true -> cell_eqb a c = true.
Proof.
  destruct a, b, c; simpl; try discriminate; try reflexivity;
    rewrite ?Zeqb_Qeq_bool; rewrite ?Qeq_bool_iff;
    try (intros H1 H2; now rewrite H1).
  - rewrite !String.eqb_eq. congruence.
  - intros H1 H2. apply timestamp_eqb_eq in H1, H2. subst.
    apply timestamp_eqb_refl.
Qed.

Lemma occurrences_app (k : Cell) (xs ys : list Cell) :
  occurrences k (xs ++ ys) = (occurrences k xs + occurrences k ys)%nat.
Proof. unfold occurrences. now rewrite filter_app, length_app. Qed.

Lemma occurrences_eqb (a b : Cell) (xs : list Cell) :
  cell_eqb a b = true -> occurrences a xs = occurrences b xs.
Proof.
  intros H. unfold occurrences. f_equal. apply filter_ext. intros x.
  destruct (cell_eqb b x) eqn:E.
  - now apply cell_eqb_trans with (b := b).
  - destruct (cell_eqb a x) eqn:E'; [| reflexivity].
    rewrite cell_eqb_sym in H.
    now rewrite (cell_eqb_trans _ _ _ H E') in E.
Qed.

Lemma occurrences_pos (k : Cell) (xs : list Cell) :
  (0 < occurrences k xs)%nat <-> exists x, In x xs /\ cell_eqb k x = true.
Proof.
  unfold occurrences. split.
  - destruct (filter (cell_eqb k) xs) as [| x l] eqn:E; simpl; [lia |].
    intros _. exists x. apply filter_In. rewrite E. now left.
  - intros [x Hx]. apply filter_In in Hx.
    destruct (filter (cell_eqb k) xs); [destruct Hx | simpl; lia].
Qed.

Lemma first_pos_eqb (a b : Cell) (xs : list Cell) :
  cell_eqb a b = true -> first_pos a xs = first_pos b xs.
Proof.
  intros H. induction xs as [| x xs IH]; simpl; [reflexivity |].
  rewrite IH. destruct (cell_eqb b x) eqn:E.
  - now rewrite (cell_eqb_trans _ _ _ H E).
  - destruct (cell_eqb a x) eqn:E'; [| reflexivity].
    rewrite cell_eqb_sym in H.
    now rewrite (cell_eqb_trans _ _ _ H E') in E.
Qed.

Lemma first_pos_le (k : Cell) (xs : list Cell) :
  (first_pos k xs <= List.length xs)%nat.
Proof.
  induction xs as [| x xs IH]; simpl; [lia |].
  destruct (cell_eqb k x); lia.
Qed.

Lemma first_pos_found (k : Cell) (xs : list Cell) :
  (first_pos k xs < List.length xs)%nat
  <-> exists x, In x xs /\ cell_eqb k x = true.
Proof.
  induction xs as [| x xs IH]; simpl.
  - split; [lia | now intros [y [[] _]]].
  - destruct (cell_eqb k x) eqn:E.
    + split; [intros _; exists x; auto | lia].
    + rewrite <- Nat.succ_lt_mono, IH. split.
      * intros [y [Hy Ey]]. exists y. auto.
      * intros [y [[-> | Hy] Ey]]; [congruence | now exists y].
Qed.

Lemma first_pos_app_l (k : Cell) (xs ys : list Cell) :
  (first_pos k xs < List.length xs)%nat ->
  first_pos k (xs ++ ys) = first_pos k xs.
Proof.
  induction xs as [| x xs IH]; simpl; [lia |].
  destruct (cell_eqb k x); [reflexivity |].
  intros H. f_equal. apply IH. lia.
Qed.

Lemma first_pos_app_r (k : Cell) (xs ys : list Cell) :
  first_pos k xs = List.length xs ->
  first_pos k (xs ++ ys) = (List.length xs + first_pos k ys)%nat.
Proof.
  induction xs as [| x xs IH]; simpl; [reflexivity |].
  destruct (cell_eqb k x); [discriminate |].
  intros H. f_equal. apply IH. lia.
Qed.

Lemma first_pos_nth (k : Cell) (xs : list Cell) :
  (first_pos k xs < List.length xs)%nat ->
  exists x, nth_error xs (first_pos k xs) = Some x /\ cell_eqb k x = true.
Proof.
  induction xs as [| x xs IH]; simpl; [lia |].
  destruct (cell_eqb k x) eqn:E.
  - intros _. now exists x.
  - intros H. apply IH. lia.
Qed.

(** The count of a key grows by one for each of its occurrences. *)
Lemma count_in_count_key (c k : Cell) (table : list (Cell * nat)) :
  count_in (count_key c table) k
  = (count_in table k + if cell_eqb c k then 1 else 0)%nat.
Proof.
  unfold count_in. induction table as [| [k' n] table IH]; simpl.
  - destruct (cell_eqb c k); reflexivity.
  - destruct (cell_eqb k' c) eqn:Ec; simpl.
    + destruct (cell_eqb k' k) eqn:Ek.
      * rewrite cell_eqb_sym in Ec.
        rewrite (cell_eqb_trans _ _ _ Ec Ek). lia.
      * destruct (cell_eqb c k) eqn:Eck; [| lia].
        now rewrite (cell_eqb_trans _ _ _ Ec Eck) in Ek.
    + destruct (cell_eqb k' k) eqn:Ek; [| apply IH].
      destruct (cell_eqb c k) eqn:Eck; [| lia].
      rewrite cell_eqb_sym in Eck.
      now rewrite (cell_eqb_trans _ _ _ Ek Eck) in Ec.
Qed.

Lemma count_in_fold (xs : list Cell) (k : Cell) :
  forall table,
    count_in (fold_left (fun t c => count_key c t) xs table) k
    = (count_in table k + occurrences k xs)%nat.
Proof.
  induction xs as [| x xs IH]; intros table; simpl.
  - unfold occurrences. simpl. lia.
  - rewrite IH, count_in_count_key. unfold occurrences. simpl.
    rewrite (cell_eqb_sym k x). destruct (cell_eqb x k); simpl; lia.
Qed.

Lemma count_in_tally (xs : list Cell) (k : Cell) :
  count_in (tally xs) k = occurrences k xs.
Proof. unfold tally. now rewrite count_in_fold. Qed.

Lemma keys_count_key (c : Cell) (table : list (Cell * nat)) :
  map fst (count_key c table) = see (map fst table) c.
Proof.
  unfold see. induction table as [| [k n] table IH]; simpl; [reflexivity |].
  destruct (cell_eqb k c); simpl; [reflexivity |].
  rewrite IH. now destruct (existsb _ _).
Qed.

Lemma tally_snoc (xs : list Cell) (c : Cell) :
  tally (xs ++ [c]) = count_key c (tally xs).
Proof. unfold tally. now rewrite fold_left_app. Qed.

Lemma StronglySorted_ext_in {A} (R R' : A -> A -> Prop) (l : list A) :
  (forall a b, In a l -> In b l -> R a b -> R' a b) ->
  StronglySorted R l -> StronglySorted R' l.
Proof.
  intros H Hs. induction Hs as [| a l Hs IH Hf]; constructor.
  - apply IH. intros x y Hx Hy. apply H; now right.
  - rewrite Forall_forall in *. intros x Hx. apply H; auto using in_eq, in_cons.
Qed.

Lemma StronglySorted_snoc {A} (R : A -> A -> Prop) (l : list A) (c : A) :
  StronglySorted R l -> Forall (fun a => R a c) l ->
  StronglySorted R (l ++ [c]).
Proof.
  intros Hs Hf. induction Hs as [| a l Hs IH Ha]; simpl.
  - repeat constructor.
  - inversion Hf as [| ? ? Hac Hf']. subst. constructor; [now apply IH |].
    apply Forall_app. split; [assumption | now constructor].
Qed.

Lemma StronglySorted_middle {A} (R : A -> A -> Prop) (l1 l2 : list A) (x : A) :
  StronglySorted R (l1 ++ x :: l2) ->
  Forall (fun a => R a x) l1 /\ Forall (R x) l2.
Proof.
  induction l1 as [| a l1 IH]; simpl; intros H; inversion H as [| ? ? Hs Hf];
    subst.
  - now split.
  - destruct (IH Hs) as [H1 H2]. split; [| assumption].
    constructor; [| assumption].
    rewrite Forall_forall in Hf. apply Hf. apply in_elt.
Qed.

Lemma first_seen_nil : first_seen [] [].
Proof. repeat split; try constructor. now intros y []. Qed.

Lemma first_seen_key_found (xs keys : list Cell) (k : Cell) :
  first_seen xs keys -> In k keys -> (first_pos k xs < List.length xs)%nat.
Proof.
  intros [_ [Hn _]] Hk. rewrite Forall_forall in Hn.
  apply nth_error_Some. rewrite (Hn k Hk). discriminate.
Qed.

Lemma first_seen_snoc (xs keys : list Cell) (c : Cell) :
  first_seen xs keys -> first_seen (xs ++ [c]) (see keys c).
Proof.
  intros Hfs. pose proof Hfs as [Hs [Hn Hc]].
  assert (Hkeep : forall k, In k keys ->
            first_pos k (xs ++ [c]) = first_pos k xs).
  { intros k Hk. apply first_pos_app_l.
    now apply first_seen_key_found with (keys := keys). }
  assert (Hs' : StronglySorted
                  (fun a b => (first_pos a (xs ++ [c])
                               < first_pos b (xs ++ [c]))%nat) keys).
  { apply StronglySorted_ext_in with (2 := Hs).
    intros a b Ha Hb. now rewrite !Hkeep. }
  assert (Hn' : Forall (fun k => nth_error (xs ++ [c])
                                   (first_pos k (xs ++ [c])) = Some k) keys).
  { rewrite Forall_forall in *. intros k Hk. rewrite (Hkeep k Hk).
    rewrite nth_error_app1;
      [now apply Hn | now apply first_seen_key_found with (keys := keys)]. }
  unfold see. destruct (existsb (fun k => cell_eqb k c) keys) eqn:E.
  - split; [assumption | split; [assumption |]].
    intros y Hy. apply in_app_or in Hy. destruct Hy as [Hy | [<- | []]];
      [now apply Hc |].
    apply existsb_exists in E. destruct E as [k [Hk Ek]]. now exists k.
  - assert (Hnew : first_pos c xs = List.length xs).
    { pose proof (first_pos_le c xs) as Hle.
      destruct (Nat.eq_dec (first_pos c xs) (List.length xs)) as [| Hne];
        [assumption | exfalso].
      assert (Hlt : (first_pos c xs < List.length xs)%nat) by lia.
      apply first_pos_found in Hlt. destruct Hlt as [x [Hx Ex]].
      destruct (Hc x Hx) as [k [Hk Ek]].
      assert (Ekc : cell_eqb k c = true).
      { apply cell_eqb_trans with (b := x); [assumption |].
        now rewrite cell_eqb_sym. }
      assert (Et : existsb (fun k => cell_eqb k c) keys = true)
        by (apply existsb_exists; now exists k).
      congruence. }
    assert (Hpos : first_pos c (xs ++ [c]) = List.length xs).
    { rewrite first_pos_app_r by assumption. simpl.
      rewrite cell_eqb_refl. lia. }
    split; [| split].
    + apply StronglySorted_snoc; [assumption |].
      rewrite Forall_forall. intros k Hk. rewrite Hpos, (Hkeep k Hk).
      now apply first_seen_key_found with (keys := keys).
    + apply Forall_app. split; [assumption |]. constructor; [| constructor].
      rewrite Hpos, nth_error_app2 by lia. now rewrite Nat.sub_diag.
    + intros y Hy. apply in_app_or in Hy. destruct Hy as [Hy | [<- | []]].
      * destruct (Hc y Hy) as [k [Hk Ek]]. exists k. split; [| assumption].
        apply in_or_app. now left.
      * exists c. split; [apply in_or_app; right; now left |].
        apply cell_eqb_refl.
Qed.

Lemma first_seen_tally (xs : list Cell) : first_seen xs (map fst (tally xs)).
Proof.
  induction xs as [| c xs IH] using rev_ind; [apply first_seen_nil |].
  rewrite tally_snoc, keys_count_key. now apply first_seen_snoc.
Qed.

Lemma first_seen_distinct (xs keys : list Cell) :
  first_seen xs keys ->
  StronglySorted (fun a b => cell_eqb a b = false) keys.
Proof.
  intros [Hs _]. apply StronglySorted_ext_in with (2 := Hs).
  intros a b _ _ Hlt. destruct (cell_eqb a b) eqn:E; [| reflexivity].
  rewrite (first_pos_eqb _ _ xs E) in Hlt. lia.
Qed.

Lemma count_in_entry (table : list (Cell * nat)) :
  StronglySorted (fun a b => cell_eqb a b = false) (map fst table) ->
  forall k n, In (k, n) table -> count_in table k = n.
Proof.
  unfold count_in. induction table as [| [k' n'] table IH]; simpl;
    intros Hs k n Hin; [destruct Hin |].
  inversion Hs as [| ? ? Hs' Hf]. subst.
  destruct Hin as [[= -> ->] | Hin].
  - now rewrite cell_eqb_refl.
  - rewrite Forall_forall in Hf.
    rewrite (Hf k) by (apply in_map_iff; now exists (k, n)).
    now apply IH.
Qed.

Lemma tally_entry (xs : list Cell) (k : Cell) (n : nat) :
  In (k, n) (tally xs) -> n = occurrences k xs.
Proof.
  intros H. rewrite <- count_in_tally. symmetry.
  apply count_in_entry; [| assumption].
  apply first_seen_distinct with (xs := xs). apply first_seen_tally.
Qed.

Lemma tally_covers (xs : list Cell) (y : Cell) :
  (0 < occurrences y xs)%nat ->
  exists k, In (k, occurrences y xs) (tally xs) /\ cell_eqb k y = true.
Proof.
  intros H. apply occurrences_pos in H. destruct H as [x [Hx Ex]].
  destruct (first_seen_tally xs) as [_ [_ Hc]].
  destruct (Hc x Hx) as [k [Hk Ek]].
  apply in_map_iff in Hk. destruct Hk as [[k' n] [Hfst Hin]]. simpl in Hfst.
  subst k'. assert (Eky : cell_eqb k y = true).
  { apply cell_eqb_trans with (b := x); [assumption |].
    now rewrite cell_eqb_sym. }
  exists k. split; [| assumption].
  rewrite <- (occurrences_eqb _ _ xs Eky).
  now rewrite <- (tally_entry _ _ _ Hin).
Qed.



(** *** The order of texts *)





(** *** The mode *)


Lemma insert_asc_In (x y : Cell) (l : list Cell) :
  In y (insert_asc x l) <-> y = x \/ In y l.
Proof.
  induction l as [| z l IH]; simpl; [pure_logic |].
  destruct (cell_leb x z); simpl; [pure_logic |].
  rewrite IH. pure_logic.
Qed.

Lemma sort_asc_In (y : Cell) (l : list Cell) : In y (sort_asc l) <-> In y l.
Proof.
  induction l as [| x l IH]; simpl; [reflexivity |].
  rewrite insert_asc_In, IH. pure_logic.
Qed.


Lemma max_count_ge (table : list (Cell * nat)) (p : Cell * nat) :
  In p table -> (snd p <= max_count table)%nat.
Proof.
  induction table as [| q table IH]; simpl; [intros [] |].
  intros [-> | H]; [lia | specialize (IH H); lia].
Qed.

Lemma max_count_attained (table : list (Cell * nat)) :
  table <> [] -> exists p, In p table /\ snd p = max_count table.
Proof.
  induction table as [| q table IH]; [congruence |]. intros _.
  destruct table as [| q' table'].
  - exists q. split; [now left | simpl; lia].
  - destruct IH as [p [Hp Ep]]; [discriminate |].
    simpl in *. destruct (Nat.le_gt_cases (snd q) (max_count (q' :: table')))
      as [Hle | Hgt]; simpl in *.
    + exists p. split; [now right | lia].
    + exists q. split; [now left | lia].
Qed.


(** ** display_station_stats *)









Lemma dropna_idem (s : Series) : dropna (dropna s) = dropna s.
Proof.
  unfold dropna. induction s as [| p s IH]; simpl; [reflexivity |].
  destruct (negb (isna (snd p))) eqn:E; simpl; [rewrite E |]; now rewrite IH.
Qed.










(** ** display_ride_stats *)

Lemma dropna_none_missing (s : Series) :
  (forall p, In p s -> isna (snd p) = false) -> dropna s = s.
Proof.
  unfold dropna. induction s as [| p s IH]; intros H; [reflexivity |].
  simpl. rewrite (H p (or_introl eq_refl)). simpl. f_equal.
  apply IH. intros q Hq. apply H. now right.
Qed.

Lemma insert_desc_In (x p : Cell * nat) (l : list (Cell * nat)) :
  In p (insert_desc x l) <-> p = x \/ In p l.
Proof.
  induction l as [| y l IH]; simpl; [pure_logic |].
  destruct (snd y <=? snd x)%nat; simpl; [pure_logic |].
  rewrite IH. pure_logic.
Qed.

Lemma sort_desc_In (p : Cell * nat) (l : list (Cell * nat)) :
  In p (sort_desc l) <-> In p l.
Proof.
  induction l as [| x l IH]; simpl; [reflexivity |].
  rewrite insert_desc_In, IH. pure_logic.
Qed.

Lemma insert_key_In (x p : Cell * nat) (l : list (Cell * nat)) :
  In p (insert_key x l) <-> p = x \/ In p l.
Proof.
  induction l as [| y l IH]; simpl; [pure_logic |].
  destruct (cell_leb (fst x) (fst y)); simpl; [pure_logic |].
  rewrite IH. pure_logic.
Qed.

Lemma sort_index_In (p : Cell * nat) (l : list (Cell * nat)) :
  In p (sort_index l) <-> In p l.
Proof.
  induction l as [| x l IH]; simpl; [reflexivity |].
  rewrite insert_key_In, IH. pure_logic.
Qed.

Lemma insert_key_sorted (x : Cell * nat) (l : list (Cell * nat)) :
  (exists z, fst x = Int z) ->
  Forall (fun p => exists z, fst p = Int z) l ->
  StronglySorted (fun p q => int_key p <= int_key q) l ->
  StronglySorted (fun p q => int_key p <= int_key q) (insert_key x l).
Proof.
  intros [zx Hx] Hint Hs. induction Hs as [| y l Hs IH Hy]; simpl.
  - repeat constructor.
  - inversion Hint as [| ? ? [zy Hzy] Hint']. subst.
    rewrite Hx, Hzy. simpl. destruct (Z.leb_spec zx zy) as [Hle | Hgt].
    + constructor; [now constructor |].
      assert (Hxy : int_key x <= int_key y)
        by (unfold int_key; now rewrite Hx, Hzy).
      constructor; [assumption |].
      rewrite Forall_forall in *. intros p Hp. specialize (Hy p Hp). lia.
    + constructor; [now apply IH |].
      apply Forall_forall. intros p Hp. apply insert_key_In in Hp.
      destruct Hp as [-> | Hp].
      * unfold int_key. rewrite Hx, Hzy. lia.
      * rewrite Forall_forall in Hy. now apply Hy.
Qed.

Lemma sort_index_sorted (l : list (Cell * nat)) :
  Forall (fun p => exists z, fst p = Int z) l ->
  StronglySorted (fun p q => int_key p <= int_key q) (sort_index l).
Proof.
  induction l as [| x l IH]; intros H; simpl; [constructor |].
  inversion H as [| ? ? Hx Hl]. subst.
  apply insert_key_sorted; [assumption | | now apply IH].
  apply Forall_forall. intros p Hp. apply (proj1 (sort_index_In _ _)) in Hp.
  rewrite Forall_forall in Hl. now apply Hl.
Qed.

(** The scan of [idxmax] and [idxmin] stops on the first entry that is best:
    the entries before it are strictly worse and none after it is better. *)
Lemma first_best_spec (better : nat -> nat -> bool) (g : nat -> Z) :
  (forall n m, better n m = (g m <? g n)%Z) ->
  forall l before best after,
    (forall p, In p before -> g (snd p) < g (snd best)) ->
    (forall p, In p after -> g (snd p) <= g (snd best)) ->
    exists l1 l2,
      (before ++ best :: after ++ l)%list
      = (l1 ++ first_best better best l :: l2)%list
      /\ (forall p, In p l1 -> g (snd p) < g (snd (first_best better best l)))
      /\ (forall p, In p l2 -> g (snd p) <= g (snd (first_best better best l))).
Proof.
  intros Hb. induction l as [| x l IH]; intros before best after H1 H2.
  - exists before, after. now rewrite app_nil_r.
  - cbn [first_best]. rewrite Hb.
    destruct (Z.ltb_spec (g (snd best)) (g (snd x))) as [Hlt | Hge].
    + destruct (IH (before ++ best :: after)%list x []) as [l1 [l2 [E H]]].
      * intros p Hp. apply in_app_or in Hp.
        destruct Hp as [Hp | [<- | Hp]];
          [specialize (H1 p Hp) | | specialize (H2 p Hp)]; lia.
      * now intros p [].
      * exists l1, l2. split; [| assumption]. rewrite <- E.
        now rewrite <- app_assoc.
    + destruct (IH before best (after ++ [x])%list) as [l1 [l2 [E H]]].
      * assumption.
      * intros p Hp. apply in_app_or in Hp.
        destruct Hp as [Hp | [<- | []]]; [now apply H2 | lia].
      * exists l1, l2. split; [| assumption]. rewrite <- E.
        now rewrite <- app_assoc.
Qed.

Lemma functional_tally (xs : list Cell) : functional (tally xs).
Proof.
  pose proof (first_seen_distinct (first_seen_tally xs)) as Hs.
  unfold functional. induction (tally xs) as [| x table IH];
    intros p q Hp Hq E; [destruct Hp |].
  simpl in Hs. inversion Hs as [| ? ? Hs' Hf]. subst.
  rewrite Forall_forall in Hf.
  destruct Hp as [<- | Hp], Hq as [<- | Hq].
  - reflexivity.
  - rewrite (Hf (fst q)) in E by now apply in_map. discriminate.
  - rewrite cell_eqb_sym in E.
    rewrite (Hf (fst p)) in E by now apply in_map. discriminate.
  - now apply IH.
Qed.

Lemma count_of_functional (table : list (Cell * nat)) (k : Cell) (n : nat) :
  functional table -> In (k, n) table -> count_of k table = Ok n.
Proof.
  induction table as [| [k' n'] table IH]; intros Hf Hin; [destruct Hin |].
  simpl. destruct (cell_eqb k' k) eqn:E.
  - assert (Heq : (k', n') = (k, n))
      by (apply Hf; [now left | assumption | assumption]).
    now injection Heq as -> ->.
  - destruct Hin as [[= -> ->] | Hin];
      [now rewrite cell_eqb_refl in E |].
    apply IH; [| assumption].
    intros p q Hp Hq. apply Hf; now right.
Qed.

Lemma occurrences_int (hs : list Z) (h : Z) :
  occurrences (Int h) (map Int hs) = rides_at hs h.
Proof.
  unfold occurrences, rides_at.
  induction hs as [| x hs IH]; simpl; [reflexivity |].
  destruct (Z.eq_dec x h) as [-> | Hne].
  - rewrite Z.eqb_refl. simpl. now rewrite IH.
  - replace (h =? x)%Z with false by (symmetry; apply Z.eqb_neq; congruence).
    assumption.
Qed.

Lemma tally_key_In (xs : list Cell) (k : Cell) (n : nat) :
  In (k, n) (tally xs) -> In k xs.
Proof.
  intros Hin. destruct (first_seen_tally xs) as [_ [Hn _]].
  rewrite Forall_forall in Hn.
  apply nth_error_In with (n := first_pos k xs). apply Hn.
  apply in_map_iff. now exists (k, n).
Qed.

(** The table of the hours, sorted by hour. *)
Lemma hourly_rides_entries (hs : list Z) :
  let table := sort_index (sort_desc (tally (map Int hs))) in
  functional table
  /\ StronglySorted (fun p q => int_key p <= int_key q) table
  /\ (forall p, In p table ->
                exists h, p = (Int h, rides_at hs h) /\ In h hs)
  /\ (forall h, In h hs -> In (Int h, rides_at hs h) table).
Proof.
  intros table.
  assert (Hin : forall p, In p table <-> In p (tally (map Int hs))).
  { intros p. unfold table. now rewrite sort_index_In, sort_desc_In. }
  assert (Hentry : forall p, In p table ->
                     exists h, p = (Int h, rides_at hs h) /\ In h hs).
  { intros [k n] Hp. apply Hin in Hp.
    pose proof (tally_key_In _ _ _ Hp) as Hk. apply in_map_iff in Hk.
    destruct Hk as [h [<- Hh]]. exists h. split; [| assumption].
    now rewrite (tally_entry _ _ _ Hp), occurrences_int. }
  split; [| split; [| split]].
  - intros p q Hp Hq. apply functional_tally with (xs := map Int hs);
      now apply Hin.
  - apply sort_index_sorted. apply Forall_forall. intros p Hp.
    destruct (Hentry p) as [h [-> _]].
    + apply Hin. now apply (proj1 (sort_desc_In _ _)) in Hp.
    + now exists h.
  - exact Hentry.
  - intros h Hh. apply Hin.
    destruct (tally_covers (map Int hs) (Int h)) as [k [Hk Ek]].
    + apply occurrences_pos. exists (Int h). split; [now apply in_map |].
      apply cell_eqb_refl.
    + pose proof (tally_key_In _ _ _ Hk) as Hkin. apply in_map_iff in Hkin.
      destruct Hkin as [z [<- _]]. simpl in Ek. apply Z.eqb_eq in Ek. subst z.
      now rewrite occurrences_int in Hk.
Qed.

(** The busiest and the quietest hour, as [idxmax] and [idxmin] find them in
    the table sorted by hour. *)
Lemma busiest_and_quietest (hs : list Z) :
  hs <> [] ->
  let table := sort_index (sort_desc (tally (map Int hs))) in
  exists b q,
    idxmax table = Ok (Int b) /\ idxmin table = Ok (Int q)
    /\ count_of (Int b) table = Ok (rides_at hs b)
    /\ count_of (Int q) table = Ok (rides_at hs q)
    /\ In b hs
    /\ (forall h, (rides_at hs h <= rides_at hs b)%nat)
    /\ (forall h, rides_at hs h = rides_at hs b -> b <= h)
    /\ In q hs
    /\ (forall h, In h hs -> (rides_at hs q <= rides_at hs h)%nat)
    /\ (forall h, In h hs -> rides_at hs h = rides_at hs q -> q <= h).
Proof.
  intros Hne table.
  destruct (hourly_rides_entries hs) as [Hfun [Hsorted [Hentry Hcover]]].
  fold table in Hfun, Hsorted, Hentry, Hcover.
  destruct table as [| x l] eqn:Et.
  { destruct hs as [| h hs]; [congruence |].
    destruct (Hcover h (or_introl eq_refl)). }
  destruct (@first_best_spec (fun n m => (m <? n)%nat) Z.of_nat) with
    (l := l) (before := @nil (Cell * nat)) (best := x)
    (after := @nil (Cell * nat)) as [l1 [l2 [E1 [Hb1 Hb2]]]];
    [ intros n m; destruct (Nat.ltb_spec m n), (Z.ltb_spec (Z.of_nat m)
        (Z.of_nat n)); (reflexivity || lia)
    | now intros p [] | now intros p [] | ].
  destruct (@first_best_spec (fun n m => (n <? m)%nat)
             (fun n => - Z.of_nat n)) with
    (l := l) (before := @nil (Cell * nat)) (best := x)
    (after := @nil (Cell * nat)) as [m1 [m2 [E2 [Hq1 Hq2]]]];
    [ intros n m; destruct (Nat.ltb_spec n m), (Z.ltb_spec (- Z.of_nat m)
        (- Z.of_nat n)); (reflexivity || lia)
    | now intros p [] | now intros p [] | ].
  cbn [app] in E1, E2.
  set (rb := first_best (fun n m => (m <? n)%nat) x l) in *.
  set (rq := first_best (fun n m => (n <? m)%nat) x l) in *.
  assert (Hrb : In rb (x :: l)) by (rewrite E1; apply in_elt).
  assert (Hrq : In rq (x :: l)) by (rewrite E2; apply in_elt).
  destruct (Hentry rb Hrb) as [b [Eb Hbin]].
  destruct (Hentry rq Hrq) as [q [Eq Hqin]].
  exists b, q. cbn [idxmax idxmin]. fold rb rq. rewrite Eb, Eq. cbn [fst].
  rewrite Eb in Hb1, Hb2, Hrb, E1. rewrite Eq in Hq1, Hq2, Hrq, E2.
  cbn [snd] in Hb1, Hb2, Hq1, Hq2.
  split; [reflexivity | split; [reflexivity |]].
  split; [now apply count_of_functional |].
  split; [now apply count_of_functional |].
  assert (Hpos : forall h, In h hs <-> (0 < rides_at hs h)%nat)
    by (intros h; apply (count_occ_In Z.eq_dec)).
  split; [assumption | split; [| split; [| split; [assumption | split]]]].
  - intros h. destruct (Nat.eq_dec (rides_at hs h) 0) as [-> | Hz]; [lia |].
    assert (Hh : In h hs) by (apply Hpos; lia).
    specialize (Hcover h Hh). rewrite E1 in Hcover.
    apply in_app_or in Hcover. destruct Hcover as [Hc | [[= <-] | Hc]];
      [specialize (Hb1 _ Hc) | | specialize (Hb2 _ Hc)]; simpl in *; lia.
  - intros h Heq.
    assert (Hh : In h hs) by (apply Hpos; rewrite Heq; now apply Hpos).
    specialize (Hcover h Hh). rewrite E1 in Hcover, Hsorted.
    apply StronglySorted_middle in Hsorted. destruct Hsorted as [_ Hafter].
    rewrite Forall_forall in Hafter.
    apply in_app_or in Hcover. destruct Hcover as [Hc | [[= <-] | Hc]].
    + specialize (Hb1 _ Hc). simpl in Hb1. lia.
    + lia.
    + specialize (Hafter _ Hc). unfold int_key in Hafter. simpl in Hafter.
      assumption.
  - intros h Hh. specialize (Hcover h Hh). rewrite E2 in Hcover.
    apply in_app_or in Hcover. destruct Hcover as [Hc | [[= <-] | Hc]];
      [specialize (Hq1 _ Hc) | | specialize (Hq2 _ Hc)]; simpl in *; lia.
  - intros h Hh Heq. specialize (Hcover h Hh).
    rewrite E2 in Hcover, Hsorted.
    apply StronglySorted_middle in Hsorted. destruct Hsorted as [_ Hafter].
    rewrite Forall_forall in Hafter.
    apply in_app_or in Hcover. destruct Hcover as [Hc | [[= <-] | Hc]].
    + specialize (Hq1 _ Hc). simpl in Hq1. lia.
    + lia.
    + specialize (Hafter _ Hc). unfold int_key in Hafter. simpl in Hafter.
      assumption.
Qed.

(** C2. On a table that has rows and whose hour column is populated, the
    ride statistics print as busiest an hour with the highest number of rides
    and as quietest an hour, among those of the table, with the lowest; when
    several hours hold that number the lowest hour is printed.  The counts
    0:5, 8:120, 17:150, 23:2 give 17 as busiest and 23 as quietest. *)
Theorem busiest_and_quietest_hour (df : DataFrame) (col : Series)
  (hs : list Z) (stdin : list string) :
  rows df <> [] ->
  getitem df "hour" = Ok col ->
  values col = map Int hs ->
  (exists b q,
      display_ride_stats df stdin
      = {| trace := ride_report (len df) b (rides_at hs b) q (rides_at hs q);
           rest := stdin; result := Ok tt |}
      /\ In b hs
      /\ (forall h, (rides_at hs h <= rides_at hs b)%nat)
      /\ (forall h, rides_at hs h = rides_at hs b -> b <= h)
      /\ In q hs
      /\ (forall h, In h hs -> (rides_at hs q <= rides_at hs h)%nat)
      /\ (forall h, In h hs -> rides_at hs h = rides_at hs q -> q <= h))
  /\ idxmax (sort_index [(Int 0, 5%nat); (Int 8, 120%nat); (Int 17, 150%nat);
                         (Int 23, 2%nat)]) = Ok (Int 17)
  /\ idxmin (sort_index [(Int 0, 5%nat); (Int 8, 120%nat); (Int 17, 150%nat);
                         (Int 23, 2%nat)]) = Ok (Int 23).
Proof.
  intros Hrows Hcol Hvalues. split; [| split; reflexivity].
  assert (Hne : hs <> []).
  { intros ->. apply getitem_Ok in Hcol. destruct Hcol as [i [_ ->]].
    unfold values in Hvalues. rewrite map_map in Hvalues.
    apply map_eq_nil in Hvalues. contradiction. }
  destruct (busiest_and_quietest Hne)
    as [b [q [Hmax [Hmin [Hcb [Hcq Hprops]]]]]].
  exists b, q. split; [| exact Hprops].
  assert (Hdrop : dropna col = col).
  { apply dropna_none_missing. intros p Hp.
    assert (Hin : In (snd p) (values col)) by now apply in_map.
    rewrite Hvalues in Hin. apply in_map_iff in Hin.
    now destruct Hin as [h [<- _]]. }
  unfold display_ride_stats. run_io. rewrite Hcol. run_io. cbv zeta.
  unfold value_counts, value_counts_na. rewrite Hdrop, Hvalues.
  rewrite Hmax. run_io. rewrite Hmin. run_io.
  cbn [fmt_02d_cell]. run_io. rewrite Hcb. run_io. rewrite Hcq. run_io.
  reflexivity.
Qed.

(** ** The loops end *)

Lemma reads_forward_ret {A} (a : A) : reads_forward (ret a).
Proof. intros stdin. apply Nat.le_refl. Qed.

Lemma reads_forward_emit (e : Event) : reads_forward (emit e).
Proof. intros stdin. apply Nat.le_refl. Qed.

Lemma reads_forward_print (line : string) : reads_forward (print line).
Proof. apply reads_forward_emit. Qed.

Lemma reads_forward_lift {A} (m : Res A) : reads_forward (lift m).
Proof. intros stdin. apply Nat.le_refl. Qed.

Lemma reads_forward_bind {A B} (m : IO A) (f : A -> IO B) :
  reads_forward m -> (forall a, reads_forward (f a)) ->
  reads_forward (bind m f).
Proof.
  intros Hm Hf stdin. unfold bind. specialize (Hm stdin).
  destruct (m stdin) as [t rs [a | e |]]; cbn in *; try assumption.
  specialize (Hf a rs). lia.
Qed.

Lemma reads_forward_try_except {A} (m : IO A) (h : exn -> IO A) :
  reads_forward m -> (forall e, reads_forward (h e)) ->
  reads_forward (try_except m h).
Proof.
  intros Hm Hh stdin. unfold try_except. specialize (Hm stdin).
  destruct (m stdin) as [t rs [a | e |]]; cbn in *; try assumption.
  specialize (Hh e rs). lia.
Qed.

Lemma reads_forward_for_each {A} (l : list A) (body : A -> IO unit) :
  (forall x, reads_forward (body x)) -> reads_forward (for_each l body).
Proof.
  intros H. induction l as [| x l IH]; cbn [for_each].
  - apply reads_forward_ret.
  - apply reads_forward_bind; [apply H | intros _; apply IH].
Qed.

Lemma reads_forward_yes_no (prompt : string) :
  reads_forward (get_yes_no_input prompt).
Proof.
  intros stdin. induction stdin as [| l stdin IH]; cbn [get_yes_no_input];
    [apply Nat.le_refl |]. cbv zeta.
  destruct (mem (lower (strip l)) ["yes"; "y"]); [cbn; lia |].
  destruct (mem (lower (strip l)) ["no"; "n"]); cbn in *; lia.
Qed.

Lemma reads_a_line_bind_l {A B} (m : IO A) (f : A -> IO B) :
  reads_a_line m -> (forall a, reads_forward (f a)) ->
  reads_a_line (bind m f).
Proof.
  intros Hm Hf stdin b. unfold bind. specialize (Hm stdin).
  destruct (m stdin) as [t rs [a | e |]]; cbn in *; try discriminate.
  intros _. specialize (Hm a eq_refl). specialize (Hf a rs). lia.
Qed.

Lemma reads_a_line_bind_r {A B} (m : IO A) (f : A -> IO B) :
  reads_forward m -> (forall a, reads_a_line (f a)) ->
  reads_a_line (bind m f).
Proof.
  intros Hm Hf stdin b. unfold bind. specialize (Hm stdin).
  destruct (m stdin) as [t rs [a | e |]]; cbn in *; try discriminate.
  intros H. specialize (Hf a rs b H). lia.
Qed.

Lemma reads_a_line_ask (question : string) (blank_line : bool)
  (valid : string -> bool) (complaint : string) :
  reads_a_line (ask question blank_line valid complaint).
Proof.
  intros stdin a. induction stdin as [| l stdin IH]; cbn [ask];
    [discriminate |]. cbv zeta.
  destruct (valid (lower l)); cbn in *; [lia |].
  intros H. specialize (IH H). lia.
Qed.

Lemma reads_forward_ask_restart : reads_forward ask_restart.
Proof.
  intros stdin. induction stdin as [| l stdin IH]; cbn [ask_restart];
    [apply Nat.le_refl |]. cbv zeta.
  destruct (mem (lower l) ["yes"; "no"; "y"; "n"]); cbn in *; lia.
Qed.

Lemma reads_forward_raw_data_loop (df : DataFrame) (cols : list string)
  (fuel : nat) :
  forall start_idx, reads_forward (raw_data_loop fuel df cols start_idx).
Proof.
  induction fuel as [| fuel IH]; intros start_idx; cbn [raw_data_loop].
  - apply reads_forward_lift.
  - destruct (start_idx <? len df)%nat; [| apply reads_forward_ret].
    apply reads_forward_bind; [apply reads_forward_lift | intros selected].
    apply reads_forward_bind; [apply reads_forward_emit | intros _].
    apply reads_forward_bind.
    + destruct (start_idx + 5 <? len df)%nat; [| apply reads_forward_ret].
      apply reads_forward_bind; [apply reads_forward_yes_no | intros more].
      apply reads_forward_ret.
    + intros [|]; [apply reads_forward_ret | apply IH].
Qed.

Ltac reads_forward_steps :=
  repeat (intros;
          first [ apply reads_forward_ret | apply reads_forward_print
                | apply reads_forward_emit | apply reads_forward_lift
                | apply reads_forward_yes_no | apply reads_forward_ask_restart
                | apply reads_forward_raw_data_loop
                | apply reads_forward_for_each | apply reads_forward_bind
                | apply reads_forward_try_except
                | match goal with
                  | |- reads_forward (if ?c then _ else _) => destruct c
                  | |- reads_forward (match ?x with _ => _ end) => destruct x
                  end ]).

Lemma reads_forward_session (city month day : string) :
  reads_forward (session city month day).
Proof.
  unfold session, load_data, report, display_header, display_ride_stats,
    display_station_stats, display_trip_duration_stats, display_user_stats,
    display_user_types, display_gender, display_birth_year, display_raw_data.
  reads_forward_steps.
Qed.

Lemma reads_forward_ask (question : string) (blank_line : bool)
  (valid : string -> bool) (complaint : string) :
  reads_forward (ask question blank_line valid complaint).
Proof.
  intros stdin. induction stdin as [| l stdin IH]; cbn [ask];
    [apply Nat.le_refl |]. cbv zeta.
  destruct (valid (lower l)); cbn in *; lia.
Qed.

Lemma reads_a_line_main_iteration : reads_a_line main_iteration.
Proof.
  unfold main_iteration. apply reads_a_line_bind_l.
  - unfold get_filters.
    do 3 (apply reads_a_line_bind_r; [apply reads_forward_print | intros _]).
    apply reads_a_line_bind_l; [apply reads_a_line_ask | intros city].
    apply reads_forward_bind; [apply reads_forward_ask | intros month].
    apply reads_forward_bind; [apply reads_forward_ask | intros day].
    apply reads_forward_ret.
  - intros [[city month] day]. apply reads_forward_session.
Qed.

Lemma bind_ext_returned {A B} (m : IO A) (f g : A -> IO B)
  (stdin : list string) :
  (forall a, result (m stdin) = Ok a ->
             f a (rest (m stdin)) = g a (rest (m stdin))) ->
  bind m f stdin = bind m g stdin.
Proof.
  intros H. unfold bind. destruct (m stdin) as [t rs [a | e |]]; cbn in *;
    [now rewrite (H a eq_refl) | reflexivity | reflexivity].
Qed.

(** The session loop takes at most one turn per line of input: with more
    fuel than lines, the amount of fuel does not matter. *)
Lemma main_loop_fuel (n : nat) :
  forall stdin fuel fuel',
    (List.length stdin <= n)%nat -> (n < fuel)%nat -> (n < fuel')%nat ->
    main_loop fuel stdin = main_loop fuel' stdin.
Proof.
  induction n as [| n IH]; intros stdin fuel fuel' Hn Hf Hf';
    (destruct fuel as [| fuel]; [lia |]);
    (destruct fuel' as [| fuel']; [lia |]);
    cbn [main_loop]; apply bind_ext_returned; intros again Hr;
    pose proof (reads_a_line_main_iteration stdin Hr) as Hlt.
  - lia.
  - destruct again; [| reflexivity]. apply IH; lia.
Qed.

(** The paging loop shows five rows a turn: with a turn of fuel for every
    five rows that remain, and one more, the amount of fuel does not
    matter. *)
Lemma raw_data_loop_fuel (df : DataFrame) (cols : list string) (n : nat) :
  forall start_idx fuel fuel' stdin,
    (len df <= start_idx + 5 * n)%nat -> (n < fuel)%nat -> (n < fuel')%nat ->
    raw_data_loop fuel df cols start_idx stdin
    = raw_data_loop fuel' df cols start_idx stdin.
Proof.
  induction n as [| n IH]; intros start_idx fuel fuel' stdin Hn Hf Hf';
    (destruct fuel as [| fuel]; [lia |]);
    (destruct fuel' as [| fuel']; [lia |]);
    cbn [raw_data_loop];
    destruct (Nat.ltb_spec start_idx (len df)) as [Hlt | Hge];
    try reflexivity.
  - lia.
  - cbv zeta. apply bind_ext; intros selected i.
    apply bind_ext; intros [] i'.
    apply bind_ext; intros [|] i''; [reflexivity |].
    apply IH; lia.
Qed.

(** The fuel that [main] and [display_raw_data] give their loops is
    enough: more fuel changes nothing. *)
Lemma main_fuel_enough (stdin : list string) (fuel : nat) :
  (List.length stdin < fuel)%nat -> main_loop fuel stdin = main stdin.
Proof.
  intros H. unfold main. apply (@main_loop_fuel (List.length stdin)); lia.
Qed.

Lemma raw_data_fuel_enough (df : DataFrame) (cols : list string)
  (stdin : list string) (fuel : nat) :
  (len df < fuel)%nat ->
  raw_data_loop fuel df cols 0 stdin
  = raw_data_loop (S (len df)) df cols 0 stdin.
Proof.
  intros H. apply (@raw_data_loop_fuel df cols (len df)); lia.
Qed.

(** * The rest of the program *)

(** ** get_filters *)

Lemma bind_Ok {A B} (m : IO A) (k : A -> IO B) (stdin : list string)
  (t : list Event) (r : list string) (a : A) :
  m stdin = {| trace := t; rest := r; result := Ok a |} ->
  bind m k stdin = prefix_trace t (k a r).
Proof. intros H. unfold bind. rewrite H. reflexivity. Qed.



Lemma last_app_nonempty {A} (l1 l2 : list A) (d : A) :
  l2 <> [] -> last (l1 ++ l2) d = last l2 d.
Proof.
  intros H. induction l1 as [| x l1 IH]; [reflexivity |].
  cbn [app last]. rewrite IH.
  destruct (l1 ++ l2)%list eqn:E; [| reflexivity].
  apply app_eq_nil in E. now destruct E.
Qed.

Lemma app_nonempty_r {A} (l1 l2 : list A) : l2 <> [] -> (l1 ++ l2)%list <> [].
Proof. intros H E. apply app_eq_nil in E. now destruct E. Qed.

Lemma last_app_r {A} (l1 l2 : list A) (d x : A) :
  last l2 d = x -> l2 <> [] -> last (l1 ++ l2) d = x.
Proof. intros H N. now rewrite last_app_nonempty. Qed.

Ltac last_of_trace :=
  repeat first
    [ assumption
    | apply last_app_r; [| repeat first [assumption | apply app_nonempty_r]] ].

Lemma ask_trace_nonempty (question : string) (blank_line : bool)
  (valid : string -> bool) (complaint : string) (stdin : list string) :
  trace (ask question blank_line valid complaint stdin) <> [].
Proof.
  destruct stdin as [| l stdin]; cbn [ask]; cbv zeta; [discriminate |].
  destruct (valid (lower l)); cbn; destruct blank_line; discriminate.
Qed.

(** The three ways a question loop can go. *)
Lemma ask_outcome (question : string) (blank_line : bool)
  (valid : string -> bool) (complaint : string) (stdin : list string) :
  match result (ask question blank_line valid complaint stdin) with
  | Ok a =>
      exists rejected l,
        stdin = (rejected ++ l
                   :: rest (ask question blank_line valid complaint stdin))%list
        /\ Forall (fun x => valid (lower x) = false) rejected
        /\ valid (lower l) = true /\ a = lower l
  | Raise _ => False
  | Hang =>
      Forall (fun x => valid (lower x) = false) stdin
      /\ rest (ask question blank_line valid complaint stdin) = []
      /\ last (trace (ask question blank_line valid complaint stdin)) (Print "")
         = Print eof_line
  end.
Proof.
  induction stdin as [| l stdin IH]; cbn [ask]; cbv zeta.
  - cbn. repeat split. constructor.
  - destruct (valid (lower l)) eqn:Hl; cbn [result rest trace prefix_trace].
    + exists [], l. repeat split; [constructor | assumption].
    + destruct (result (ask question blank_line valid complaint stdin))
        as [a | e |].
      * destruct IH as [rejected [l' [Hs [Hr [Hv Ha]]]]].
        exists (l :: rejected), l'. cbn [app]. rewrite <- Hs.
        repeat split; [now constructor | assumption | assumption].
      * assumption.
      * destruct IH as [Hr [Hn Hlast]].
        split; [now constructor |]. split; [assumption |].
        rewrite last_app_nonempty; [assumption | apply ask_trace_nonempty].
Qed.


Section Three_questions.

Variables (q1 q2 q3 c1 c2 c3 : string) (b1 b2 b3 : bool).
Variables v1 v2 v3 : string -> bool.

Local Notation three_questions :=
  (ask_thrice q1 b1 v1 c1 q2 b2 v2 c2 q3 b3 v3 c3).

Lemma three_questions_return (stdin : list string) (x y z : string) :
  result (three_questions stdin) = Ok (x, y, z) ->
  exists bad1 l1 bad2 l2 bad3 l3,
    stdin = (bad1 ++ l1 :: bad2 ++ l2 :: bad3 ++ l3
               :: rest (three_questions stdin))%list
    /\ Forall (fun l => v1 (lower l) = false) bad1
    /\ Forall (fun l => v2 (lower l) = false) bad2
    /\ Forall (fun l => v3 (lower l) = false) bad3
    /\ v1 (lower l1) = true /\ v2 (lower l2) = true /\ v3 (lower l3) = true
    /\ x = lower l1 /\ y = lower l2 /\ z = lower l3.
Proof.
  unfold ask_thrice, bind.
  pose proof (ask_outcome q1 b1 v1 c1 stdin) as H1.
  destruct (ask q1 b1 v1 c1 stdin) as [t1 r1 [a1 | e1 |]];
    cbn [result rest trace] in *; try discriminate.
  pose proof (ask_outcome q2 b2 v2 c2 r1) as H2.
  destruct (ask q2 b2 v2 c2 r1) as [t2 r2 [a2 | e2 |]];
    cbn [result rest trace] in *; try discriminate.
  pose proof (ask_outcome q3 b3 v3 c3 r2) as H3.
  destruct (ask q3 b3 v3 c3 r2) as [t3 r3 [a3 | e3 |]];
    cbn [result rest trace ret] in *; try discriminate.
  intros H. injection H as <- <- <-.
  destruct H1 as [bad1 [l1 [E1 [F1 [V1 ->]]]]].
  destruct H2 as [bad2 [l2 [E2 [F2 [V2 ->]]]]].
  destruct H3 as [bad3 [l3 [E3 [F3 [V3 ->]]]]].
  exists bad1, l1, bad2, l2, bad3, l3. subst stdin r1 r2.
  repeat split; assumption.
Qed.

Lemma three_questions_no_raise (stdin : list string) (e : exn) :
  result (three_questions stdin) <> Raise e.
Proof.
  unfold ask_thrice, bind.
  pose proof (ask_outcome q1 b1 v1 c1 stdin) as H1.
  destruct (ask q1 b1 v1 c1 stdin) as [t1 r1 [a1 | e1 |]];
    cbn [result rest trace] in *; [| contradiction | discriminate].
  pose proof (ask_outcome q2 b2 v2 c2 r1) as H2.
  destruct (ask q2 b2 v2 c2 r1) as [t2 r2 [a2 | e2 |]];
    cbn [result rest trace] in *; [| contradiction | discriminate].
  pose proof (ask_outcome q3 b3 v3 c3 r2) as H3.
  destruct (ask q3 b3 v3 c3 r2) as [t3 r3 [a3 | e3 |]];
    cbn [result rest trace ret] in *; [| contradiction | discriminate].
  discriminate.
Qed.

Lemma three_questions_hang (stdin : list string) :
  result (three_questions stdin) = Hang ->
  rest (three_questions stdin) = []
  /\ last (trace (three_questions stdin)) (Print "") = Print eof_line
  /\ trace (three_questions stdin) <> [].
Proof.
  unfold ask_thrice, bind.
  pose proof (ask_outcome q1 b1 v1 c1 stdin) as H1.
  pose proof (ask_trace_nonempty q1 b1 v1 c1 stdin) as N1.
  destruct (ask q1 b1 v1 c1 stdin) as [t1 r1 [a1 | e1 |]];
    cbn [result rest trace] in *; [| contradiction |].
  2: { intros _. destruct H1 as [_ [-> H1]]. now repeat split. }
  pose proof (ask_outcome q2 b2 v2 c2 r1) as H2.
  pose proof (ask_trace_nonempty q2 b2 v2 c2 r1) as N2.
  destruct (ask q2 b2 v2 c2 r1) as [t2 r2 [a2 | e2 |]];
    cbn [result rest trace] in *; [| contradiction |].
  2: { intros _. destruct H2 as [_ [-> H2]].
       split; [reflexivity |]. split; [last_of_trace |].
       now apply app_nonempty_r. }
  pose proof (ask_outcome q3 b3 v3 c3 r2) as H3.
  pose proof (ask_trace_nonempty q3 b3 v3 c3 r2) as N3.
  destruct (ask q3 b3 v3 c3 r2) as [t3 r3 [a3 | e3 |]];
    cbn [result rest trace ret] in *; [discriminate | contradiction |].
  intros _. destruct H3 as [_ [-> H3]].
  split; [reflexivity |]. split; [last_of_trace |].
  now do 2 apply app_nonempty_r.
Qed.

End Three_questions.


(** X3. [get_filters] never raises: every exception of [input] is caught
    inside its loops.  When the input runs out before the three answers are
    given it never returns either; all the input is read by then and the last
    thing shown is the line that reports the end of the input. *)
Theorem get_filters_never_raises (stdin : list string) :
  (forall e, result (get_filters stdin) <> Raise e)
  /\ (result (get_filters stdin) = Hang ->
      rest (get_filters stdin) = []
      /\ last (trace (get_filters stdin)) (Print "") = Print eof_line).
Proof.
  unfold get_filters. rewrite !bind_print.
  cbn [result rest trace prefix_trace]. split.
  - intros e. apply three_questions_no_raise.
  - intros H. apply three_questions_hang in H. destruct H as [Hr [Hl Hn]].
    split; [exact Hr | last_of_trace].
Qed.

Lemma get_filters_valid (stdin : list string) (city month day : string) :
  result (get_filters stdin) = Ok (city, month, day) ->
  dict_mem city CITY_DATA = true
  /\ mem month valid_months = true
  /\ mem day valid_days = true.
Proof.
  unfold get_filters. rewrite !bind_print.
  cbn [result rest prefix_trace]. intros H.
  apply three_questions_return in H.
  destruct H
    as (bc & c & bm & m & bd & d & E & F1 & F2 & F3 & V1 & V2 & V3 & -> & -> & ->).
  now repeat split.
Qed.

(** X4. A load asked with the answers of [get_filters] never fails because
    of them: the city is a key of [CITY_DATA] and the month one of the list
    that [months.index] searches, so a failure comes from reading the file of
    the city or from deriving the columns of its start times, and the
    filtering step raises nothing. *)
Theorem validated_filters_never_fail_the_load (stdin : list string)
  (city month day : string) (e : exn) :
  result (get_filters stdin) = Ok (city, month, day) ->
  load_frame city month day = Raise e ->
  exists path,
    dict_get city CITY_DATA = Some path
    /\ (read_csv path = Raise e
        \/ exists df, fs path = Content df /\ derive_frame df = Raise e).
Proof.
  intros Hf. apply get_filters_valid in Hf. destruct Hf as [Hc [Hm Hd]].
  rewrite load_frame_unfold. unfold dict_mem in Hc.
  destruct (dict_get city CITY_DATA) as [path |]; [| discriminate].
  intros H. exists path. split; [reflexivity |]. unfold read_csv.
  destruct (fs path) as [| msg | df]; [now left | now left |].
  right. exists df. split; [reflexivity |].
  destruct (derive_frame df) as [df1 | e1 |] eqn:E; cbn [res_bind] in H;
    [| assumption | discriminate].
  exfalso. destruct (derive_frame_columns _ E) as [[i Hi] [[j Hj] _]].
  now rewrite (filter_frame_rows month day df1 Hi Hj Hm) in H.
Qed.

(** ** get_filter_description and display_header *)











(** ** display_trip_duration_stats *)





(** X8. On a table in which no row has a duration (a table without rows
    among them) the total is printed as "0h 0m 0s" and the statistics then
    raise on the average, which is not a number: the line of the average and
    what follows are not printed. *)
Theorem duration_stats_without_durations (df : DataFrame) (i : nat)
  (stdin : list string) :
  index "Trip Duration" (columns df) = Some i ->
  (forall r, In r (rows df) -> field df "Trip Duration" r = NaN) ->
  display_trip_duration_stats df stdin
  = {| trace := (duration_heading
                 ++ [Print ("Total Time  " ++ BAR ++ " 0h 0m 0s")])%list;
       rest := stdin;
       result := Raise (ValueError "cannot convert float NaN to integer") |}.
Proof.
  intros Hi Hn. unfold field in Hn. rewrite Hi in Hn.
  unfold display_trip_duration_stats. rewrite (getitem_values df _ Hi).
  assert (Hd : dropna (map (fun r => (label r, cell_at i r)) (rows df)) = []).
  { apply dropna_all_missing. intros p Hp. apply in_map_iff in Hp.
    destruct Hp as [r [<- Hr]]. now apply Hn. }
  run_io. unfold series_sum, series_mean. rewrite Hd.
  cbn [values map sequence res_bind all_int forallb fold_left].
  run_io. rewrite Hd.
  cbn [values map sequence res_bind all_int forallb fold_left].
  run_io. change (format_time (Int (truncate (0 # 1)))) with (Ok "0h 0m 0s").
  run_io.
  change (format_time NaN)
    with (@Raise string (ValueError "cannot convert float NaN to integer")).
  run_io. reflexivity.
Qed.

(** ** display_user_stats: the user types and the genders *)








Lemma values_dropna_col (a : Row -> Cell) (rs : list Row) :
  values (dropna (map (fun r => (label r, a r)) rs))
  = filter (fun c => negb (isna c)) (map a rs).
Proof.
  unfold values, dropna. induction rs as [| r rs IH]; [reflexivity |].
  cbn [map filter snd]. destruct (isna (a r)); cbn [negb map snd];
    now rewrite IH.
Qed.












(** ** display_user_stats: the birth years *)

Section Ordered_cells.

(** A kind of cells that [cell_leb] orders and [cell_eqb] tells apart. *)
Variable P : Cell -> Prop.
Hypothesis P_total :
  forall a b, P a -> P b -> cell_leb a b = true \/ cell_leb b a = true.
Hypothesis P_trans :
  forall a b c, P a -> P b -> P c ->
                cell_leb a b = true -> cell_leb b c = true ->
                cell_leb a c = true.
Hypothesis P_eq : forall a b, P a -> P b -> cell_eqb a b = true -> a = b.

Lemma sort_asc_least (l : list Cell) :
  Forall P l ->
  forall x rest, sort_asc l = x :: rest ->
                 forall y, In y l -> cell_leb x y = true.
Proof using P_total P_trans.
  induction l as [| a l IH]; intros Ht x rest H y Hy; [destruct Hy |].
  inversion Ht as [| ? ? Pa Ht']. subst. cbn [sort_asc fold_right] in H.
  fold (sort_asc l) in H.
  assert (Hrefl : forall c, P c -> cell_leb c c = true).
  { intros c Pc. now destruct (P_total Pc Pc). }
  rewrite Forall_forall in Ht'.
  destruct (sort_asc l) as [| z l'] eqn:E.
  - assert (l = []) as ->.
    { destruct l as [| b l]; [reflexivity |].
      assert (Hb : In b (sort_asc (b :: l)))
        by (apply sort_asc_In; now left).
      rewrite E in Hb. destruct Hb. }
    cbn in H. injection H as <- <-. destruct Hy as [<- | []].
    now apply Hrefl.
  - assert (Hz : In z l) by (apply sort_asc_In; rewrite E; now left).
    assert (Hzy : forall y0, In y0 l -> cell_leb z y0 = true).
    { intros y0 Hy0.
      apply (IH (proj2 (Forall_forall _ _) Ht') z l' eq_refl y0 Hy0). }
    cbn [insert_asc] in H. destruct (cell_leb a z) eqn:Eaz.
    + injection H as <- <-. destruct Hy as [<- | Hy]; [now apply Hrefl |].
      apply P_trans with (b := z); auto.
    + injection H as <- <-. destruct Hy as [<- | Hy]; [| now apply Hzy].
      destruct (P_total Pa (Ht' z Hz)); congruence.
Qed.

Lemma mode_least_of (s : Series) (r : Cell) :
  let xs := values (dropna s) in
  Forall P xs ->
  getitem0 (mode s) = Ok r ->
  In r xs
  /\ (forall y, (occurrences y xs <= occurrences r xs)%nat)
  /\ (forall y, In y xs -> occurrences y xs = occurrences r xs ->
                cell_leb r y = true).
Proof using P_total P_trans P_eq.
  intros xs Ht. unfold mode. fold xs.
  set (m := max_count (tally xs)).
  set (top := map fst (filter (fun x => (snd x =? m)%nat) (tally xs))).
  destruct (sort_asc top) as [| r' rest] eqn:E; cbn [getitem0];
    [discriminate |].
  intros [= ->].
  assert (Htop : forall k, In k top <-> In (k, m) (tally xs)).
  { intros k. unfold top. rewrite in_map_iff. split.
    - intros [[k' n] [Hk Hin]]. cbn in Hk. subst k'.
      apply filter_In in Hin. destruct Hin as [Hin Hn]. cbn in Hn.
      apply Nat.eqb_eq in Hn. now subst.
    - intros Hin. exists (k, m). split; [reflexivity |].
      apply filter_In. split; [assumption | apply Nat.eqb_refl]. }
  assert (Hr : In r top) by (apply sort_asc_In; rewrite E; now left).
  apply Htop in Hr. pose proof (tally_entry _ _ _ Hr) as Hm.
  assert (Hmax : forall y, (occurrences y xs <= m)%nat).
  { intros y. destruct (Nat.eq_dec (occurrences y xs) 0) as [-> | Hne]; [lia |].
    destruct (tally_covers xs y) as [k [Hk _]]; [lia |].
    apply (max_count_ge _ _ Hk). }
  split; [now apply tally_key_In with (n := m) | split].
  - intros y. rewrite <- Hm. apply Hmax.
  - intros y Hy Hocc.
    destruct (tally_covers xs y) as [k [Hk Ek]].
    { apply occurrences_pos. exists y. split; [assumption |].
      apply cell_eqb_refl. }
    rewrite Hocc, <- Hm in Hk.
    rewrite Forall_forall in Ht.
    assert (k = y) as ->.
    { apply P_eq; [apply Ht; now apply tally_key_In with (n := m)
                  | now apply Ht | assumption]. }
    apply (@sort_asc_least top) with (rest := rest); [| assumption |].
    + apply Forall_forall. intros k Hk'. apply Ht. apply Htop in Hk'.
      now apply tally_key_In with (n := m).
    + now apply Htop.
Qed.

End Ordered_cells.

Lemma Qle_bool_inject_Z (a b : Z) :
  Qle_bool (inject_Z a) (inject_Z b) = (a <=? b)%Z.
Proof. unfold Qle_bool, inject_Z. cbn. now rewrite !Z.mul_1_r. Qed.

Lemma Qeq_bool_inject_Z (a b : Z) :
  Qeq_bool (inject_Z a) (inject_Z b) = (a =? b)%Z.
Proof. symmetry. apply Zeqb_Qeq_bool. Qed.

Lemma year_leb (a b : Z) :
  cell_leb (year_cell a) (year_cell b) = (a <=? b)%Z.
Proof. apply Qle_bool_inject_Z. Qed.

Lemma year_eqb (a b : Z) :
  cell_eqb (year_cell a) (year_cell b) = (a =? b)%Z.
Proof. apply Qeq_bool_inject_Z. Qed.

Lemma year_cell_inj (a b : Z) : year_cell a = year_cell b -> a = b.
Proof. unfold year_cell, inject_Z. now intros [= ->]. Qed.

Lemma years_are_years (ys : list Z) : Forall is_year (map year_cell ys).
Proof.
  apply Forall_forall. intros c Hc. apply in_map_iff in Hc.
  destruct Hc as [y [<- _]]. now exists y.
Qed.

Lemma occurrences_year (ys : list Z) (y : Z) :
  occurrences (year_cell y) (map year_cell ys) = times ys y.
Proof.
  unfold occurrences, times. induction ys as [| x ys IH]; [reflexivity |].
  cbn [map filter count_occ]. rewrite year_eqb.
  destruct (Z.eq_dec x y) as [-> | Hne].
  - rewrite Z.eqb_refl. cbn [List.length]. now rewrite IH.
  - destruct (Z.eqb_spec y x); [congruence | assumption].
Qed.

Lemma year_min (ys : list Z) :
  forall x,
    fold_left (fun m c => if cell_leb m c then m else c) (map year_cell ys)
      (year_cell x)
    = year_cell (fold_left Z.min ys x).
Proof.
  induction ys as [| y ys IH]; intros x; [reflexivity |].
  cbn [map fold_left]. rewrite year_leb.
  destruct (Z.leb_spec x y).
  - rewrite IH. now rewrite Z.min_l by lia.
  - rewrite IH. now rewrite Z.min_r by lia.
Qed.

Lemma year_max (ys : list Z) :
  forall x,
    fold_left (fun m c => if cell_leb c m then m else c) (map year_cell ys)
      (year_cell x)
    = year_cell (fold_left Z.max ys x).
Proof.
  induction ys as [| y ys IH]; intros x; [reflexivity |].
  cbn [map fold_left]. rewrite year_leb.
  destruct (Z.leb_spec y x).
  - rewrite IH. now rewrite Z.max_l by lia.
  - rewrite IH. now rewrite Z.max_r by lia.
Qed.

Lemma fold_min_least (ys : list Z) :
  forall x, In (fold_left Z.min ys x) (x :: ys)
            /\ forall y, In y (x :: ys) -> fold_left Z.min ys x <= y.
Proof.
  induction ys as [| z ys IH]; intros x; cbn [fold_left].
  - split; [now left | intros y [<- | []]; lia].
  - destruct (IH (Z.min x z)) as [Hin Hle]. split.
    + destruct Hin as [Hin | Hin]; [| now right; right].
      rewrite <- Hin. destruct (Z.min_spec x z) as [[_ ->] | [_ ->]];
        [now left | now right; left].
    + intros y [<- | [<- | Hy]].
      * specialize (Hle (Z.min x z) (or_introl eq_refl)). lia.
      * specialize (Hle (Z.min x z) (or_introl eq_refl)). lia.
      * apply Hle. now right.
Qed.

Lemma fold_max_greatest (ys : list Z) :
  forall x, In (fold_left Z.max ys x) (x :: ys)
            /\ forall y, In y (x :: ys) -> y <= fold_left Z.max ys x.
Proof.
  induction ys as [| z ys IH]; intros x; cbn [fold_left].
  - split; [now left | intros y [<- | []]; lia].
  - destruct (IH (Z.max x z)) as [Hin Hle]. split.
    + destruct Hin as [Hin | Hin]; [| now right; right].
      rewrite <- Hin. destruct (Z.max_spec x z) as [[_ ->] | [_ ->]];
        [now right; left | now left].
    + intros y [<- | [<- | Hy]].
      * specialize (Hle (Z.max x z) (or_introl eq_refl)). lia.
      * specialize (Hle (Z.max x z) (or_introl eq_refl)). lia.
      * apply Hle. now right.
Qed.

Lemma int_year (y : Z) : int_ (year_cell y) = Ok y.
Proof. unfold year_cell. cbn [int_]. now rewrite truncate_inject. Qed.

(** The most common of a list of years, as [mode()[0]] finds it. *)
Lemma mode_of_years (s : Series) (ys : list Z) :
  values (dropna s) = map year_cell ys -> ys <> [] ->
  exists c,
    getitem0 (mode s) = Ok (year_cell c)
    /\ In c ys
    /\ (forall y, (times ys y <= times ys c)%nat)
    /\ (forall y, In y ys -> times ys y = times ys c -> c <= y).
Proof.
  intros Hv Hne.
  destruct (getitem0 (mode s)) as [r | e |] eqn:E.
  - destruct (@mode_least_of is_year) with (s := s) (r := r)
      as [Hin [Hmax Hleast]].
    + intros a b [x ->] [y ->]. rewrite !year_leb.
      destruct (Z.leb_spec x y); [now left | right].
      apply Z.leb_le. lia.
    + intros a b c [x ->] [y ->] [z ->]. rewrite !year_leb, !Z.leb_le. lia.
    + intros a b [x ->] [y ->]. rewrite year_eqb. intros H.
      apply Z.eqb_eq in H. now subst.
    + rewrite Hv. apply years_are_years.
    + exact E.
    + rewrite Hv in *. apply in_map_iff in Hin. destruct Hin as [c [<- Hc]].
      exists c. split; [reflexivity |]. split; [assumption |]. split.
      * intros y. rewrite <- !occurrences_year. apply Hmax.
      * intros y Hy Ht. apply Z.leb_le. rewrite <- year_leb.
        apply Hleast; [now apply in_map |].
        now rewrite !occurrences_year.
  - exfalso. unfold mode in E. rewrite Hv in E.
    destruct (max_count_attained (table := tally (map year_cell ys)))
      as [p [Hp Hm]].
    { intros H. apply tally_nil in H. apply map_eq_nil in H. contradiction. }
    match type of E with
    | getitem0 (sort_asc ?top) = _ =>
        assert (Hin : In (fst p) (sort_asc top))
    end.
    { apply sort_asc_In. apply in_map. apply filter_In.
      split; [assumption | now apply Nat.eqb_eq]. }
    match type of E with
    | getitem0 ?l = _ => destruct l; [destruct Hin | discriminate E]
    end.
  - unfold mode in E. now destruct (sort_asc _).
Qed.

Lemma birth_years_series (df : DataFrame) (b : nat) :
  index "Birth Year" (columns df) = Some b ->
  values (dropna (map (fun r => (label r, cell_at b r)) (subscriber_rows df)))
  = subscriber_birth_years df.
Proof.
  intros Hb. rewrite values_dropna_col. unfold subscriber_birth_years, field.
  now rewrite Hb.
Qed.

Lemma values_nil (s : Series) : values s = [] -> s = [].
Proof. apply map_eq_nil. Qed.

(** The birth-year part once the column and the subscribers are found. *)
Lemma display_birth_year_unfold (df : DataFrame) (u b : nat)
  (stdin : list string) :
  index "User Type" (columns df) = Some u ->
  index "Birth Year" (columns df) = Some b ->
  let years :=
    dropna (map (fun r => (label r, cell_at b r)) (subscriber_rows df)) in
  display_birth_year df stdin
  = match years with
    | [] => print birth_year_warning stdin
    | _ =>
        (print "Subscriber birth year:" ;;
         earliest <- lift (int_ (series_min years)) ;;
         latest <- lift (int_ (series_max years)) ;;
         common <- lift (m <~ getitem0 (mode years) ;; int_ m) ;;
         emit (age_line "Earliest    " earliest) ;;
         emit (age_line "Latest      " latest) ;;
         emit (age_line "Most Common " common)) stdin
    end.
Proof.
  intros Hu Hb years. unfold display_birth_year.
  rewrite (proj2 (mem_In _ _)) by (apply mem_In; now apply index_mem in Hb).
  rewrite (subscribers_rows df Hu), bind_lift_Ok.
  rewrite (@getitem_values {| columns := columns df;
                              rows := subscriber_rows df |} "Birth Year" b Hb).
  rewrite bind_lift_Ok. cbn [rows]. cbv zeta. fold years.
  destruct years; reflexivity.
Qed.

(** X11. On a table with a user-type column, the birth-year part of the user
    statistics prints its warning, and nothing else, exactly when the table
    has no birth-year column or no subscriber has a birth year; unlike the
    genders, birth years that are missing are left out before the test, so
    subscribers who all lack one get the warning and not a report. *)
Theorem birth_year_warning_exactly (df : DataFrame) (u : nat)
  (stdin : list string) :
  index "User Type" (columns df) = Some u ->
  (In (Print birth_year_warning) (trace (display_birth_year df stdin))
   <-> mem "Birth Year" (columns df) = false
       \/ subscriber_birth_years df = [])
  /\ (mem "Birth Year" (columns df) = false
      \/ subscriber_birth_years df = [] ->
      display_birth_year df stdin
      = {| trace := [Print birth_year_warning]; rest := stdin;
           result := Ok tt |}).
Proof.
  intros Hu.
  assert (Hwarn : mem "Birth Year" (columns df) = false
                  \/ subscriber_birth_years df = [] ->
                  display_birth_year df stdin
                  = {| trace := [Print birth_year_warning]; rest := stdin;
                       result := Ok tt |}).
  { intros H. destruct (mem "Birth Year" (columns df)) eqn:Hm.
    - destruct H as [H | H]; [discriminate |].
      destruct (mem_index _ _ Hm) as [b Hb].
      rewrite (display_birth_year_unfold df stdin Hu Hb). cbv zeta.
      rewrite <- (birth_years_series df Hb) in H. apply values_nil in H.
      now rewrite H.
    - unfold display_birth_year. now rewrite Hm. }
  split; [| exact Hwarn]. split; [| intros H; rewrite (Hwarn H); now left].
  intros Hin. destruct (mem "Birth Year" (columns df)) eqn:Hm; [| now left].
  right. destruct (mem_index _ _ Hm) as [b Hb].
  rewrite (display_birth_year_unfold df stdin Hu Hb) in Hin. cbv zeta in Hin.
  rewrite <- (birth_years_series df Hb).
  destruct (dropna _) as [| p years] eqn:E; [reflexivity |]. exfalso.
  rewrite bind_print in Hin. cbn [trace prefix_trace app] in Hin.
  destruct Hin as [Hin | Hin]; [discriminate Hin |].
  unfold bind, lift, emit in Hin. cbn [result rest trace] in Hin.
  destruct (int_ (series_min (p :: years))); cbn [result rest trace app] in Hin;
    try contradiction.
  destruct (int_ (series_max (p :: years))); cbn [result rest trace app] in Hin;
    try contradiction.
  destruct (res_bind (getitem0 (mode (p :: years))) _);
    cbn [result rest trace app] in Hin; try contradiction.
  unfold age_line in Hin.
  destruct Hin as [Hin | [Hin | [Hin | []]]];
    apply (f_equal (fun e => match e with
                             | Print line => String.get 0 line
                             | _ => None
                             end)) in Hin;
    discriminate Hin.
Qed.

(** X12. When the birth years of the subscribers are whole years, and one at
    least is there, the report gives the smallest as the earliest, the
    greatest as the latest and, as the most common, a year that occurs most
    often: the smallest of the years that occur that often, since the modes
    come in ascending order.  Each is followed by the age it gives in the
    current year. *)
Theorem birth_years_reported (df : DataFrame) (u b : nat) (ys : list Z)
  (stdin : list string) :
  index "User Type" (columns df) = Some u ->
  index "Birth Year" (columns df) = Some b ->
  subscriber_birth_years df = map year_cell ys ->
  ys <> [] ->
  exists earliest latest common,
    display_birth_year df stdin
    = {| trace := birth_year_report earliest latest common; rest := stdin;
         result := Ok tt |}
    /\ In earliest ys /\ (forall y, In y ys -> earliest <= y)
    /\ In latest ys /\ (forall y, In y ys -> y <= latest)
    /\ In common ys
    /\ (forall y, (times ys y <= times ys common)%nat)
    /\ (forall y, In y ys -> times ys y = times ys common -> common <= y).
Proof.
  intros Hu Hb Hys Hne.
  rewrite <- (birth_years_series df Hb) in Hys.
  rewrite (display_birth_year_unfold df stdin Hu Hb). cbv zeta.
  set (years := dropna (map (fun r => (label r, cell_at b r))
                          (subscriber_rows df))) in *.
  assert (Hd : dropna years = years) by apply dropna_idem.
  destruct (@mode_of_years years ys) as [common [Hmode Hcommon]];
    [now rewrite Hd | assumption |].
  destruct ys as [| y0 ys]; [contradiction |].
  destruct (fold_min_least ys y0) as [Hmin_in Hmin].
  destruct (fold_max_greatest ys y0) as [Hmax_in Hmax].
  exists (fold_left Z.min ys y0), (fold_left Z.max ys y0), common.
  split; [| now repeat split].
  assert (Emin : int_ (series_min years) = Ok (fold_left Z.min ys y0)).
  { unfold series_min. rewrite Hd, Hys. cbn [map].
    now rewrite year_min, int_year. }
  assert (Emax : int_ (series_max years) = Ok (fold_left Z.max ys y0)).
  { unfold series_max. rewrite Hd, Hys. cbn [map].
    now rewrite year_max, int_year. }
  destruct years as [| p years'] eqn:E; [discriminate Hys |].
  rewrite bind_print, Emin, bind_lift_Ok, Emax, bind_lift_Ok, Hmode.
  cbn [res_bind]. rewrite int_year, bind_lift_Ok. reflexivity.
Qed.

(** ** display_raw_data: any input *)


Lemma shown_tables_app (t1 t2 : list Event) :
  shown_tables (t1 ++ t2) = (shown_tables t1 ++ shown_tables t2)%list.
Proof. apply filter_app. Qed.

Lemma yes_no_outcome (prompt : string) (stdin : list string) :
  shown_tables (trace (get_yes_no_input prompt stdin)) = []
  /\ ((exists a, result (get_yes_no_input prompt stdin) = Ok a)
      \/ result (get_yes_no_input prompt stdin) = Raise end_of_input).
Proof.
  induction stdin as [| l stdin [IH1 IH2]]; cbn [get_yes_no_input]; cbv zeta.
  - split; [reflexivity | now right].
  - destruct (mem (lower (strip l)) ["yes"; "y"]);
      [split; [reflexivity | left; now eexists] |].
    destruct (mem (lower (strip l)) ["no"; "n"]);
      [split; [reflexivity | left; now eexists] |].
    cbn [prefix_trace trace result]. split; [| exact IH2].
    cbn [app shown_tables filter is_table]. exact IH1.
Qed.

Lemma page_rows_length (df : DataFrame) (k : nat) :
  (5 * k < len df)%nat ->
  (1 <= List.length (page_rows df k) <= 5)%nat.
Proof.
  intros H. unfold page_rows, len in *.
  rewrite length_firstn, length_skipn. lia.
Qed.

(** What the paging loop shows, whatever is typed. *)
Lemma raw_data_loop_pages (df : DataFrame) (fuel : nat) :
  forall (k : nat) (stdin : list string),
    (5 * k < len df + 5)%nat ->
    (len df + 5 <= 5 * (k + fuel))%nat ->
    let r := raw_data_loop fuel df (original_columns df) (5 * k) stdin in
    exists n,
      shown_tables (trace r) = pages_from df k n
      /\ (5 * (k + n) < len df + 5)%nat
      /\ (result r = Ok tt \/ result r = Raise end_of_input).
Proof.
  induction fuel as [| fuel IH]; intros k stdin Hk Hf; [lia |].
  cbv zeta. destruct (Nat.lt_ge_cases (5 * k) (len df)) as [Hlt | Hge].
  - rewrite raw_data_loop_turn by assumption.
    cbn [prefix_trace trace result]. rewrite shown_tables_app.
    change (shown_tables [page df k]) with [page df k].
    destruct (Nat.ltb_spec (5 * S k) (len df)) as [Hmore | Hlast].
    + unfold bind.
      destruct (yes_no_outcome more_prompt stdin) as [Ht [[a Ha] | Hr]].
      * rewrite Ha. cbn [trace result]. rewrite shown_tables_app, Ht.
        cbn [app]. destruct a.
        -- destruct (IH (S k) (rest (get_yes_no_input more_prompt stdin)))
             as [n [Hn [Hb Hres]]]; [lia | lia |].
           exists (S n). cbn [pages_from seq map]. fold (pages_from df (S k) n).
           rewrite Hn. split; [reflexivity |]. split; [lia | exact Hres].
        -- exists 1%nat. split; [reflexivity |]. split; [lia | now left].
      * rewrite Hr. cbn [trace result]. rewrite Ht.
        exists 1%nat. split; [reflexivity |]. split; [lia | now right].
    + destruct fuel as [| fuel]; [lia |].
      rewrite raw_data_loop_done by lia. cbn [trace result].
      exists 1%nat. split; [reflexivity |]. split; [lia | now left].
  - rewrite raw_data_loop_done by lia. exists 0%nat.
    split; [reflexivity |]. split; [lia | now left].
Qed.

(** X14. Whatever is typed at its questions, the raw-data view shows the
    first pages of the table and nothing else: page 0, page 1 and so on
    without a gap or a repeat, never a page past the end of the table, each
    page holding one row at least and five at most.  The view always comes to
    an end: it returns, or raises [EOFError] when the input ends at one of
    its questions. *)
Theorem raw_data_shows_first_pages (df : DataFrame) (city month day : string)
  (stdin : list string) :
  let r := display_raw_data df city month day stdin in
  exists n,
    shown_tables (trace r) = pages_from df 0 n
    /\ (5 * n < len df + 5)%nat
    /\ (forall k, (k < n)%nat ->
                  (1 <= List.length (page_rows df k) <= 5)%nat)
    /\ (result r = Ok tt \/ result r = Raise end_of_input).
Proof.
  cbv zeta. unfold display_raw_data. rewrite !bind_print.
  cbn [prefix_trace trace result]. rewrite !shown_tables_app.
  change (shown_tables [Print ""]) with (@nil Event).
  match goal with
  | |- context [shown_tables [Print ?line]] =>
      change (shown_tables [Print line]) with (@nil Event)
  end.
  cbn [app]. unfold bind.
  destruct (yes_no_outcome view_prompt stdin) as [Ht [[a Ha] | Hr]].
  - rewrite Ha. cbn [trace result]. rewrite shown_tables_app, Ht. cbn [app].
    destruct a.
    + destruct (@raw_data_loop_pages df (S (len df)) 0
                  (rest (get_yes_no_input view_prompt stdin)))
        as [n [Hn [Hb Hres]]]; [lia | lia |].
      cbv zeta in Hn, Hres. change (5 * 0)%nat with 0%nat in Hn, Hres.
      exists n. split; [exact Hn |]. split; [lia |]. split; [| exact Hres].
      intros k Hk. apply page_rows_length. lia.
    + exists 0%nat. split; [reflexivity |]. split; [lia |].
      split; [lia | now left].
  - rewrite Hr. cbn [trace result]. rewrite Ht. exists 0%nat.
    split; [reflexivity |]. split; [lia |]. split; [lia | now right].
Qed.

(** ** main *)

Lemma reads_in_order_ret {A} (a : A) : reads_in_order (ret a).
Proof. intros stdin. now exists []. Qed.

Lemma reads_in_order_emit (e : Event) : reads_in_order (emit e).
Proof. intros stdin. now exists []. Qed.

Lemma reads_in_order_print (line : string) : reads_in_order (print line).
Proof. apply reads_in_order_emit. Qed.

Lemma reads_in_order_lift {A} (m : Res A) : reads_in_order (lift m).
Proof. intros stdin. now exists []. Qed.

Lemma reads_in_order_bind {A B} (m : IO A) (f : A -> IO B) :
  reads_in_order m -> (forall a, reads_in_order (f a)) ->
  reads_in_order (bind m f).
Proof.
  intros Hm Hf stdin. unfold bind. destruct (Hm stdin) as [r1 H1].
  destruct (m stdin) as [t rs [a | e |]]; cbn in *; try now exists r1.
  destruct (Hf a rs) as [r2 H2]. exists (r1 ++ r2)%list.
  now rewrite <- app_assoc, <- H2.
Qed.

Lemma reads_in_order_try_except {A} (m : IO A) (h : exn -> IO A) :
  reads_in_order m -> (forall e, reads_in_order (h e)) ->
  reads_in_order (try_except m h).
Proof.
  intros Hm Hh stdin. unfold try_except. destruct (Hm stdin) as [r1 H1].
  destruct (m stdin) as [t rs [a | e |]]; cbn in *; try now exists r1.
  destruct (Hh e rs) as [r2 H2]. exists (r1 ++ r2)%list.
  now rewrite <- app_assoc, <- H2.
Qed.

Lemma reads_in_order_for_each {A} (l : list A) (body : A -> IO unit) :
  (forall x, reads_in_order (body x)) -> reads_in_order (for_each l body).
Proof.
  intros H. induction l as [| x l IH]; cbn [for_each].
  - apply reads_in_order_ret.
  - apply reads_in_order_bind; [apply H | intros _; apply IH].
Qed.

Lemma reads_in_order_yes_no (prompt : string) :
  reads_in_order (get_yes_no_input prompt).
Proof.
  intros stdin. induction stdin as [| l stdin [r IH]]; cbn [get_yes_no_input];
    [now exists [] |]. cbv zeta.
  destruct (mem (lower (strip l)) ["yes"; "y"]); [now exists [l] |].
  destruct (mem (lower (strip l)) ["no"; "n"]); [now exists [l] |].
  cbn [prefix_trace rest]. exists (l :: r). cbn [app]. now rewrite <- IH.
Qed.

Lemma reads_in_order_ask (question : string) (blank_line : bool)
  (valid : string -> bool) (complaint : string) :
  reads_in_order (ask question blank_line valid complaint).
Proof.
  intros stdin. induction stdin as [| l stdin [r IH]]; cbn [ask];
    [now exists [] |]. cbv zeta.
  destruct (valid (lower l)); [now exists [l] |].
  cbn [prefix_trace rest]. exists (l :: r). cbn [app]. now rewrite <- IH.
Qed.

Lemma reads_in_order_raw_data_loop (df : DataFrame) (cols : list string)
  (fuel : nat) :
  forall start_idx, reads_in_order (raw_data_loop fuel df cols start_idx).
Proof.
  induction fuel as [| fuel IH]; intros start_idx; cbn [raw_data_loop].
  - apply reads_in_order_lift.
  - destruct (start_idx <? len df)%nat; [| apply reads_in_order_ret].
    apply reads_in_order_bind; [apply reads_in_order_lift | intros selected].
    apply reads_in_order_bind; [apply reads_in_order_emit | intros _].
    apply reads_in_order_bind.
    + destruct (start_idx + 5 <? len df)%nat; [| apply reads_in_order_ret].
      apply reads_in_order_bind; [apply reads_in_order_yes_no | intros more].
      apply reads_in_order_ret.
    + intros [|]; [apply reads_in_order_ret | apply IH].
Qed.

Ltac reads_in_order_steps :=
  repeat (intros;
          first [ apply reads_in_order_ret | apply reads_in_order_print
                | apply reads_in_order_emit | apply reads_in_order_lift
                | apply reads_in_order_yes_no | apply reads_in_order_ask
                | apply reads_in_order_raw_data_loop
                | apply reads_in_order_for_each | apply reads_in_order_bind
                | apply reads_in_order_try_except
                | match goal with
                  | |- reads_in_order (if ?c then _ else _) => destruct c
                  | |- reads_in_order (match ?x with _ => _ end) => destruct x
                  end ]).

Lemma reads_in_order_load_data (city month day : string) :
  reads_in_order (load_data city month day).
Proof. unfold load_data. reads_in_order_steps. Qed.

Lemma reads_in_order_report (df : DataFrame) (city month day : string) :
  reads_in_order (report df city month day).
Proof.
  unfold report, display_header, display_ride_stats,
    display_station_stats, display_trip_duration_stats, display_user_stats,
    display_user_types, display_gender, display_birth_year, display_raw_data.
  reads_in_order_steps.
Qed.

Lemma reads_in_order_get_filters : reads_in_order get_filters.
Proof. unfold get_filters. reads_in_order_steps. Qed.

Lemma bind_returns {A B} (m : IO A) (k : A -> IO B) (stdin : list string)
  (b : B) :
  result (bind m k stdin) = Ok b ->
  exists a,
    result (m stdin) = Ok a
    /\ result (k a (rest (m stdin))) = Ok b
    /\ rest (bind m k stdin) = rest (k a (rest (m stdin)))
    /\ trace (bind m k stdin)
       = (trace (m stdin) ++ trace (k a (rest (m stdin))))%list.
Proof.
  unfold bind. destruct (m stdin) as [t rs [a | e |]]; cbn; try discriminate.
  intros H. now exists a.
Qed.

(** The question whether to restart: the first of "yes", "no", "y" and "n",
    read without regard to case, is the answer. *)
Lemma ask_restart_outcome (stdin : list string) :
  match result (ask_restart stdin) with
  | Ok a =>
      exists rejected l,
        stdin = (rejected ++ l :: rest (ask_restart stdin))%list
        /\ a = lower l /\ (says_yes l \/ says_no l)
  | Raise e => e = end_of_input
  | Hang => False
  end.
Proof.
  induction stdin as [| l stdin IH]; cbn [ask_restart]; cbv zeta;
    [reflexivity |].
  destruct (mem (lower l) ["yes"; "no"; "y"; "n"]) eqn:E;
    cbn [result rest prefix_trace].
  - exists [], l. split; [reflexivity |]. split; [reflexivity |].
    apply mem_In in E. unfold says_yes, says_no. cbn [In] in E.
    destruct E as [E | [E | [E | [E | []]]]]; symmetry in E;
      [left; left | right; left | left; right | right; right]; exact E.
  - destruct (result (ask_restart stdin)) as [a | e |]; [| exact IH | exact IH].
    destruct IH as [rejected [l' [Hs Ha]]]. exists (l :: rejected), l'.
    cbn [app]. now rewrite <- Hs.
Qed.

Lemma startswith_y (l : string) :
  (says_yes l -> startswith "y" (lower l) = true)
  /\ (says_no l -> startswith "y" (lower l) = false).
Proof. split; intros [-> | ->]; reflexivity. Qed.

Lemma rest_prefix_trace {A} (t : list Event) (r : Run A) :
  rest (prefix_trace t r) = rest r.
Proof. reflexivity. Qed.

Lemma trace_prefix_trace {A} (t : list Event) (r : Run A) :
  trace (prefix_trace t r) = (t ++ trace r)%list.
Proof. reflexivity. Qed.

Lemma restart_decision (restart : string) (stdin : list string) :
  (if negb (startswith "y" restart) then ret false
   else print (newline ++ newline) ;; ret true) stdin
  = {| trace := if startswith "y" restart then [Print (newline ++ newline)]
                else [];
       rest := stdin; result := Ok (startswith "y" restart) |}.
Proof. now destruct (startswith "y" restart). Qed.

(** The end of a turn, after whatever the turn did before. *)
Lemma closing_returns (body : IO unit) (stdin : list string) (again : bool) :
  reads_in_order body ->
  let turn :=
    body ;;
    print "" ;;
    print (BLUE ++ "End of session" ++ ENDC) ;;
    print "" ;;
    restart <- ask_restart ;;
    if negb (startswith "y" restart) then ret false
    else print (newline ++ newline) ;; ret true in
  result (turn stdin) = Ok again ->
  exists read l,
    stdin = (read ++ l :: rest (turn stdin))%list
    /\ (again = true /\ says_yes l
        /\ last (trace (turn stdin)) (Print "") = Print (newline ++ newline)
        \/ again = false /\ says_no l).
Proof.
  intros Hb turn H. subst turn.
  apply bind_returns in H. destruct H as [[] [_ [H [-> ->]]]].
  destruct (Hb stdin) as [r0 H0]. set (s0 := rest (body stdin)) in *.
  rewrite !bind_print, !result_prefix_trace in H.
  rewrite !bind_print, !rest_prefix_trace, !trace_prefix_trace.
  apply bind_returns in H. destruct H as [a [Ha [H [-> ->]]]].
  pose proof (ask_restart_outcome s0) as Ho. rewrite Ha in Ho.
  destruct Ho as [rejected [l [Hs [-> Hl]]]].
  rewrite restart_decision in *. cbn [result rest trace] in *.
  injection H as <-. destruct (startswith_y l) as [Hy Hn].
  exists (r0 ++ rejected)%list, l.
  split; [rewrite <- app_assoc, <- Hs; exact H0 |].
  destruct Hl as [Hl | Hl].
  - left. rewrite (Hy Hl). split; [reflexivity |]. split; [assumption |].
    repeat (apply last_app_r; [| repeat first [discriminate
                                              | apply app_nonempty_r]]).
    reflexivity.
  - right. rewrite (Hn Hl). now split.
Qed.

Lemma session_as_turn (city month day : string) (stdin : list string) :
  session city month day stdin
  = ((df <- load_data city month day ;;
      match df with
      | Some df => report df city month day
      | None => ret tt
      end) ;;
     print "" ;;
     print (BLUE ++ "End of session" ++ ENDC) ;;
     print "" ;;
     restart <- ask_restart ;;
     if negb (startswith "y" restart) then ret false
     else print (newline ++ newline) ;; ret true) stdin.
Proof. unfold session. now rewrite bind_assoc. Qed.

(** A turn returns on the answer to the question whether to restart. *)
Lemma session_returns (city month day : string) (stdin : list string)
  (again : bool) :
  result (session city month day stdin) = Ok again ->
  exists read l,
    stdin = (read ++ l :: rest (session city month day stdin))%list
    /\ (again = true /\ says_yes l
        /\ last (trace (session city month day stdin)) (Print "")
           = Print (newline ++ newline)
        \/ again = false /\ says_no l).
Proof.
  rewrite session_as_turn. apply closing_returns.
  apply reads_in_order_bind; [apply reads_in_order_load_data |].
  intros [df |]; [apply reads_in_order_report | apply reads_in_order_ret].
Qed.

Lemma main_iteration_returns (stdin : list string) (again : bool) :
  result (main_iteration stdin) = Ok again ->
  exists read l,
    stdin = (read ++ l :: rest (main_iteration stdin))%list
    /\ (again = true /\ says_yes l
        /\ last (trace (main_iteration stdin)) (Print "")
           = Print (newline ++ newline)
        \/ again = false /\ says_no l).
Proof.
  unfold main_iteration. intros H.
  apply bind_returns in H. destruct H as [[[city month] day] [_ [H [-> ->]]]].
  destruct (reads_in_order_get_filters stdin) as [r0 H0].
  destruct (session_returns _ _ _ _ H) as [read [l [Hs Hl]]].
  exists (r0 ++ read)%list, l.
  split; [rewrite <- app_assoc, <- Hs; exact H0 |].
  destruct Hl as [[-> [Hy Hlast]] | [-> Hn]]; [left | now right].
  split; [reflexivity |]. split; [assumption |].
  apply last_app_r; [assumption |].
  intros E. rewrite E in Hlast. discriminate Hlast.
Qed.

Lemma main_loop_returns (fuel : nat) :
  forall stdin,
    result (main_loop fuel stdin) = Ok tt ->
    exists read l,
      stdin = (read ++ l :: rest (main_loop fuel stdin))%list /\ says_no l.
Proof.
  induction fuel as [| fuel IH]; intros stdin H; [discriminate H |].
  cbn [main_loop] in *. apply bind_returns in H.
  destruct H as [again [Hit [H [-> _]]]].
  destruct (main_iteration_returns _ Hit) as [read [l [Hs Hl]]].
  destruct Hl as [[-> _] | [-> Hn]].
  - destruct (IH _ H) as [read' [l' [Hs' Hn']]].
    exists (read ++ l :: read')%list, l'.
    split; [| assumption].
    rewrite <- app_assoc. cbn [app]. rewrite <- Hs'. exact Hs.
  - exists read, l. split; assumption.
Qed.

(** X15. The program returns only on a "no": when [main] returns, the last
    line it has read is the answer "no" or "n", in any case, to the question
    whether to restart, and the lines after it are left unread. *)
Theorem main_returns_after_no (stdin : list string) :
  result (main stdin) = Ok tt ->
  exists read l,
    stdin = (read ++ l :: rest (main stdin))%list /\ says_no l.
Proof. unfold main. apply main_loop_returns. Qed.

Lemma bind_returned {A B} (m : IO A) (k : A -> IO B) (stdin : list string)
  (a : A) :
  result (m stdin) = Ok a ->
  bind m k stdin = prefix_trace (trace (m stdin)) (k a (rest (m stdin))).
Proof. intros H. unfold bind. now rewrite H. Qed.

Lemma main_unfold (stdin : list string) :
  main stdin
  = (again <- main_iteration ;;
     if again then main_loop (List.length stdin) else ret tt) stdin.
Proof. reflexivity. Qed.

(** X16. The answer to the question whether to restart decides what [main]
    does next.  On "yes" or "y", in any case, two blank lines are printed and
    the program starts over on the input that is left, as a fresh run would;
    on "no" or "n" it returns.  Any other line is asked about again and never
    ends a turn. *)
Theorem main_restarts_on_yes (stdin : list string) (again : bool) :
  result (main_iteration stdin) = Ok again ->
  exists read l,
    stdin = (read ++ l :: rest (main_iteration stdin))%list
    /\ if again then
         says_yes l
         /\ last (trace (main_iteration stdin)) (Print "")
            = Print (newline ++ newline)
         /\ main stdin
            = prefix_trace (trace (main_iteration stdin))
                (main (rest (main_iteration stdin)))
       else
         says_no l
         /\ main stdin
            = {| trace := trace (main_iteration stdin);
                 rest := rest (main_iteration stdin); result := Ok tt |}.
Proof.
  intros H. destruct (main_iteration_returns _ H) as [read [l [Hs Hl]]].
  exists read, l. split; [assumption |].
  pose proof (reads_a_line_main_iteration stdin H) as Hlt.
  rewrite main_unfold, (@bind_returned _ _ _ _ _ _ H).
  destruct Hl as [[-> [Hy Hlast]] | [-> Hn]].
  - split; [assumption |]. split; [assumption |].
    rewrite main_fuel_enough by assumption. reflexivity.
  - split; [assumption |]. unfold prefix_trace, ret. cbn [trace rest result].
    now rewrite app_nil_r.
Qed.

(** ** main: a selection without trips *)

Lemma bind_Raise {A B} (m : IO A) (k : A -> IO B) (stdin : list string)
  (t : list Event) (r : list string) (e : exn) :
  m stdin = {| trace := t; rest := r; result := Raise e |} ->
  bind m k stdin = {| trace := t; rest := r; result := Raise e |}.
Proof. intros H. unfold bind. rewrite H. reflexivity. Qed.

Lemma filter_frame_keeps_columns (month day : string) (df0 df : DataFrame) :
  filter_frame month day df0 = Ok df -> columns df = columns df0.
Proof.
  unfold filter_frame, filter_month, filter_day. intros H.
  destruct (negb (String.eqb month "all")).
  - destruct (index (lower month) months); [| discriminate H].
    destruct (getitem df0 "month"); cbn [res_bind] in H; try discriminate H.
    destruct (negb (String.eqb day "all")); cbn [res_bind] in H.
    + destruct (getitem _ "day_of_week"); cbn [res_bind] in H;
        try discriminate H.
      now injection H as <-.
    + now injection H as <-.
  - cbn [res_bind] in H. destruct (negb (String.eqb day "all")).
    + destruct (getitem _ "day_of_week"); cbn [res_bind] in H;
        try discriminate H.
      now injection H as <-.
    + now injection H as <-.
Qed.

Lemma load_frame_has_hours (city month day : string) (df : DataFrame) :
  load_frame city month day = Ok df ->
  exists h, index "hour" (columns df) = Some h.
Proof.
  unfold load_frame. intros H.
  destruct (read_frame city) as [df0 | e |] eqn:E; cbn [res_bind] in H;
    try discriminate H.
  rewrite (filter_frame_keeps_columns _ _ _ H).
  now destruct (read_frame_columns _ E) as [_ [_ Hh]].
Qed.

Lemma ride_stats_of_no_ride (df : DataFrame) (h : nat) (stdin : list string) :
  index "hour" (columns df) = Some h -> rows df = [] ->
  display_ride_stats df stdin
  = {| trace := ride_report_of_no_ride; rest := stdin;
       result := Raise no_busiest_hour |}.
Proof.
  intros Hh Hr. unfold display_ride_stats, len.
  rewrite (getitem_values df _ Hh), Hr. reflexivity.
Qed.

Lemma session_without_trips (city month day : string) (df : DataFrame)
  (stdin : list string) :
  load_frame city month day = Ok df -> rows df = [] ->
  session city month day stdin
  = {| trace := (loading_lines ++ header_lines city month day
                 ++ ride_report_of_no_ride)%list;
       rest := stdin; result := Raise no_busiest_hour |}.
Proof.
  intros Hl Hr. destruct (load_frame_has_hours _ _ _ Hl) as [h Hh].
  unfold session.
  rewrite (@bind_Ok _ _ _ _ _ _ _ _ (load_data_succeeds _ _ _ stdin Hl)).
  unfold report, display_header.
  repeat first [rewrite bind_assoc | rewrite bind_print].
  rewrite (@bind_Raise _ _ _ _ _ _ _ _ (ride_stats_of_no_ride df stdin Hh Hr)).
  reflexivity.
Qed.

(** X17. When the filters select no trip the program does not reach the
    question whether to restart: after the header, the heading of the ride
    statistics, a total of 0 rides and the line "Hours:", the search for the
    busiest hour raises [ValueError], which nothing in [main] catches.  The
    input after the three answers is left unread. *)
Theorem empty_selection_ends_the_program (stdin : list string)
  (city month day : string) (df : DataFrame) :
  result (get_filters stdin) = Ok (city, month, day) ->
  load_frame city month day = Ok df ->
  rows df = [] ->
  main stdin
  = {| trace := (trace (get_filters stdin) ++ loading_lines
                 ++ header_lines city month day
                 ++ ride_report_of_no_ride)%list;
       rest := rest (get_filters stdin);
       result := Raise no_busiest_hour |}.
Proof.
  intros Hf Hl Hr. rewrite main_unfold. apply bind_Raise.
  unfold main_iteration. rewrite (@bind_returned _ _ _ _ _ _ Hf).
  rewrite (@session_without_trips _ _ _ _ _ Hl Hr). reflexivity.
Qed.

(** ** load_data: the derived columns *)







Lemma setitem_eq (df : DataFrame) (name : string) (col : list Cell) :
  setitem df name col
  = {| columns := set_columns (columns df) name;
       rows := zip_rows (set_row (columns df) name) (rows df) col |}.
Proof.
  unfold setitem, set_columns, set_row.
  now destruct (index name (columns df)).
Qed.




Lemma sequence_Forall2 {A B} (h : A -> Res B) (l : list A) :
  forall ys, sequence (map h l) = Ok ys ->
             Forall2 (fun x y => h x = Ok y) l ys.
Proof.
  induction l as [| x l IH]; intros ys H; cbn [map sequence] in H.
  - injection H as <-. constructor.
  - destruct (h x) as [y | e |] eqn:E; cbn [res_bind] in H;
      try discriminate H.
    destruct (sequence (map h l)) as [ys' | e |]; cbn [res_bind] in H;
      try discriminate H.
    injection H as <-. constructor; [assumption | now apply IH].
Qed.







(** ** load_data: what it reports and what it keeps *)


(** X20. A file that has no "Start Time" column is not loaded: the
    [KeyError] of the column is caught, the line "An unexpected error
    occurred: 'Start Time'" is printed and the absent value is returned,
    whatever the filters. *)
Theorem load_data_needs_start_time (city month day path : string)
  (df : DataFrame) (stdin : list string) :
  dict_get city CITY_DATA = Some path ->
  fs path = Content df ->
  mem "Start Time" (columns df) = false ->
  load_data city month day stdin
  = {| trace := (loading_lines
                 ++ [Print (RED ++ "An unexpected error occurred: 'Start Time'"
                              ++ ENDC)])%list;
       rest := stdin; result := Ok None |}.
Proof.
  intros Hc Hf Hm.
  assert (H : load_frame city month day = Raise (KeyError "'Start Time'")).
  { rewrite load_frame_unfold, Hc, Hf. unfold derive_frame.
    destruct (getitem_cases df "Start Time") as [[Hm' _] | [_ ->]];
      [congruence | reflexivity]. }
  exact (load_data_fails _ _ _ stdin H).
Qed.

Lemma sequence_length {A B} (h : A -> Res B) (l : list A) (ys : list B) :
  sequence (map h l) = Ok ys -> List.length ys = List.length l.
Proof.
  intros H. apply sequence_Forall2 in H. symmetry.
  now apply Forall2_length in H.
Qed.

Lemma zip_rows_labels (f : Row -> Cell -> Row) (rs : list Row) :
  (forall r c, label (f r c) = label r) ->
  forall cs, List.length cs = List.length rs ->
             map label (zip_rows f rs cs) = map label rs.
Proof.
  intros Hf. induction rs as [| r rs IH]; intros [| c cs] H;
    cbn in *; try reflexivity; try discriminate H.
  rewrite Hf, IH; [reflexivity | congruence].
Qed.

Lemma setitem_labels (df : DataFrame) (name : string) (col : list Cell) :
  List.length col = len df ->
  map label (rows (setitem df name col)) = map label (rows df).
Proof.
  intros H. rewrite setitem_eq. cbn [rows]. apply zip_rows_labels; [| exact H].
  intros r c. unfold set_row. now destruct (index name (columns df)).
Qed.

Lemma setitem_len (df : DataFrame) (name : string) (col : list Cell) :
  List.length col = len df -> len (setitem df name col) = len df.
Proof.
  intros H. unfold len. rewrite <- (length_map label), setitem_labels by exact H.
  apply length_map.
Qed.

Lemma getitem_length (df : DataFrame) (name : string) (s : Series) :
  getitem df name = Ok s -> List.length s = len df.
Proof.
  intros H. apply getitem_Ok in H. destruct H as [i [_ ->]]. apply length_map.
Qed.

Lemma derive_frame_labels (df df' : DataFrame) :
  derive_frame df = Ok df' -> map label (rows df') = map label (rows df).
Proof.
  unfold derive_frame, to_datetime_series, dt. intros H.
  repeat match type of H with
         | context [res_bind (getitem ?d ?n) _] =>
             let G := fresh "G" in
             destruct (getitem d n) eqn:G; cbn [res_bind] in H;
             try discriminate H; apply getitem_length in G
         | context [res_bind (sequence (map ?h ?l)) _] =>
             let S := fresh "S" in
             destruct (sequence (map h l)) eqn:S; cbn [res_bind] in H;
             try discriminate H; apply sequence_length in S
         end.
  injection H as <-.
  repeat match goal with
         | |- map label (rows (setitem ?d ?n ?c)) = _ =>
             rewrite (@setitem_labels d n c) by congruence
         end.
  reflexivity.
Qed.

Lemma filter_frame_selects (month day : string) (df0 df : DataFrame) :
  filter_frame month day df0 = Ok df ->
  exists keep, rows df = filter keep (rows df0).
Proof.
  assert (Hall : forall rs : list Row, rs = filter (fun _ => true) rs).
  { induction rs as [| r rs IH]; cbn; [reflexivity | now rewrite <- IH]. }
  assert (Hsel : forall (d : DataFrame) (n : string) (g : Cell -> bool) s,
             getitem d n = Ok s ->
             exists keep, rows (select d (map g (values s)))
                          = filter keep (rows d)).
  { intros d n g s Hs. apply getitem_Ok in Hs. destruct Hs as [i [_ ->]].
    exists (fun r => g (cell_at i r)). unfold select, values. cbn [rows].
    rewrite !map_map. cbn [snd]. apply select_rows_map. }
  unfold filter_frame. intros H.
  destruct (filter_month month df0) as [df1 | |] eqn:M; cbn [res_bind] in H;
    try discriminate H.
  destruct (filter_day day df1) as [df2 | |] eqn:D; cbn [res_bind] in H;
    try discriminate H.
  injection H as <-.
  assert (H1 : exists keep, rows df1 = filter keep (rows df0)).
  { unfold filter_month in M. destruct (negb (String.eqb month "all")).
    - destruct (index (lower month) months); [| discriminate M].
      destruct (getitem df0 "month") as [s | |] eqn:G; cbn [res_bind] in M;
        try discriminate M.
      injection M as <-. now apply Hsel with (n := "month").
    - injection M as <-. eexists. apply Hall. }
  assert (H2 : exists keep, rows df2 = filter keep (rows df1)).
  { unfold filter_day in D. destruct (negb (String.eqb day "all")).
    - destruct (getitem df1 "day_of_week") as [s | |] eqn:G;
        cbn [res_bind] in D; try discriminate D.
      injection D as <-. now apply Hsel with (n := "day_of_week").
    - injection D as <-. eexists. apply Hall. }
  destruct H1 as [k1 H1], H2 as [k2 H2].
  exists (fun r => k1 r && k2 r). now rewrite H2, H1, filter_filter.
Qed.

Lemma filter_labels_sorted (keep : Row -> bool) (rs : list Row) :
  StronglySorted lt (map label rs) ->
  StronglySorted lt (map label (filter keep rs)).
Proof.
  induction rs as [| r rs IH]; cbn [map filter]; intros H; [constructor |].
  inversion H as [| ? ? Hs Hf]; subst.
  destruct (keep r); cbn [map]; [| now apply IH].
  constructor; [now apply IH |].
  rewrite Forall_forall in *. intros l Hl. apply Hf.
  apply in_map_iff in Hl. destruct Hl as [x [<- Hx]].
  apply in_map. now apply filter_In in Hx.
Qed.

(** X21. The loader keeps the labels of the rows: the rows of the loaded
    table carry labels of the file, in the order of the file, none of them
    twice when none is twice in the file.  Labels that increase in the file
    increase in the loaded table, which is what pairing the start and the end
    of a route by label relies on. *)
Theorem load_frame_keeps_labels (city month day path : string)
  (df0 df : DataFrame) :
  dict_get city CITY_DATA = Some path ->
  fs path = Content df0 ->
  load_frame city month day = Ok df ->
  (forall l, In l (map label (rows df)) -> In l (map label (rows df0)))
  /\ (StronglySorted lt (map label (rows df0)) ->
      StronglySorted lt (map label (rows df)))
  /\ (len df <= len df0)%nat.
Proof.
  intros Hc Hf H. rewrite load_frame_unfold, Hc, Hf in H.
  destruct (derive_frame df0) as [df1 | |] eqn:D; cbn [res_bind] in H;
    try discriminate H.
  apply derive_frame_labels in D.
  destruct (filter_frame_selects _ _ _ H) as [keep Hk].
  split; [| split].
  - intros l Hl. rewrite <- D. rewrite Hk in Hl.
    apply in_map_iff in Hl. destruct Hl as [x [<- Hx]].
    apply in_map. now apply filter_In in Hx.
  - intros Hs. rewrite Hk. apply filter_labels_sorted. now rewrite D.
  - unfold len. rewrite Hk, <- (length_map label (rows df0)), <- D, length_map.
    apply filter_length_le.
Qed.

(** ** The statistics on a table that lacks a column *)



(** X23. Each of the four statistics raises the [KeyError] of the first
    column it reads and does not find: "hour" for the rides, "Start Station"
    and then "End Station" for the stations, "Trip Duration" for the
    durations and "User Type" for the users.  Nothing is shown in place of
    the figures. *)
Theorem statistics_need_their_columns (df : DataFrame) (stdin : list string) :
  (mem "hour" (columns df) = false ->
   result (display_ride_stats df stdin) = Raise (KeyError "'hour'"))
  /\ (mem "Start Station" (columns df) = false ->
      result (display_station_stats df stdin)
      = Raise (KeyError "'Start Station'"))
  /\ (mem "Start Station" (columns df) = true ->
      mem "End Station" (columns df) = false ->
      result (display_station_stats df stdin)
      = Raise (KeyError "'End Station'"))
  /\ (mem "Trip Duration" (columns df) = false ->
      result (display_trip_duration_stats df stdin)
      = Raise (KeyError "'Trip Duration'"))
  /\ (mem "User Type" (columns df) = false ->
      result (display_user_stats df stdin) = Raise (KeyError "'User Type'")).
Proof.
  assert (Hno : forall name, mem name (columns df) = false ->
                             getitem df name = Raise (KeyError ("'" ++ name ++ "'"))).
  { intros name H. destruct (getitem_cases df name) as [[H' _] | [_ ->]];
      [congruence | reflexivity]. }
  split; [| split; [| split; [| split]]].
  - intros H. unfold display_ride_stats. run_io. now rewrite (Hno _ H).
  - intros H. unfold display_station_stats. run_io. now rewrite (Hno _ H).
  - intros Hs He. unfold display_station_stats. run_io.
    destruct (getitem_cases df "Start Station") as [[_ [i [-> _]]] | [H' _]];
      [| congruence].
    run_io. now rewrite (Hno _ He).
  - intros H. unfold display_trip_duration_stats. run_io.
    now rewrite (Hno _ H).
  - intros H. unfold display_user_stats, display_user_types. run_io.
    now rewrite (Hno _ H).
Qed.

(** ** main: the end of the input *)




(** ** A loaded table with rows *)




(** ** display_station_stats: no row with both stations *)


(** ** What reads the input *)

Lemma reads_nothing_ret {A} (a : A) : reads_nothing (ret a).
Proof. intros stdin. reflexivity. Qed.

Lemma reads_nothing_emit (e : Event) : reads_nothing (emit e).
Proof. intros stdin. reflexivity. Qed.

Lemma reads_nothing_print (line : string) : reads_nothing (print line).
Proof. intros stdin. reflexivity. Qed.

Lemma reads_nothing_lift {A} (m : Res A) : reads_nothing (lift m).
Proof. intros stdin. reflexivity. Qed.

Lemma reads_nothing_bind {A B} (m : IO A) (f : A -> IO B) :
  reads_nothing m -> (forall a, reads_nothing (f a)) ->
  reads_nothing (bind m f).
Proof.
  intros Hm Hf stdin. unfold bind. specialize (Hm stdin).
  destruct (m stdin) as [t rs [a | e |]]; cbn in *; try assumption.
  now rewrite (Hf a rs).
Qed.

Lemma reads_nothing_try_except {A} (m : IO A) (h : exn -> IO A) :
  reads_nothing m -> (forall e, reads_nothing (h e)) ->
  reads_nothing (try_except m h).
Proof.
  intros Hm Hh stdin. unfold try_except. specialize (Hm stdin).
  destruct (m stdin) as [t rs [a | e |]]; cbn in *; try assumption.
  now rewrite (Hh e rs).
Qed.

Lemma reads_nothing_for_each {A} (l : list A) (body : A -> IO unit) :
  (forall x, reads_nothing (body x)) -> reads_nothing (for_each l body).
Proof.
  intros H. induction l as [| x l IH]; cbn [for_each].
  - apply reads_nothing_ret.
  - apply reads_nothing_bind; [apply H | intros _; apply IH].
Qed.

Ltac reads_nothing_steps :=
  repeat (intros;
          first [ apply reads_nothing_ret | apply reads_nothing_print
                | apply reads_nothing_emit | apply reads_nothing_lift
                | apply reads_nothing_for_each | apply reads_nothing_bind
                | apply reads_nothing_try_except
                | match goal with
                  | |- reads_nothing (if ?c then _ else _) => destruct c
                  | |- reads_nothing (match ?x with _ => _ end) => destruct x
                  end ]).

(** X27. Neither the loader nor the header nor any of the four statistics
    reads the input, whether it returns or raises: the lines typed are read
    by the questions of [get_filters], of the raw-data view and of the
    restart only. *)
Theorem statistics_read_no_input (df : DataFrame) (city month day : string)
  (stdin : list string) :
  rest (load_data city month day stdin) = stdin
  /\ rest (display_header city month day stdin) = stdin
  /\ rest (display_ride_stats df stdin) = stdin
  /\ rest (display_station_stats df stdin) = stdin
  /\ rest (display_trip_duration_stats df stdin) = stdin
  /\ rest (display_user_stats df stdin) = stdin.
Proof.
  assert (H1 : reads_nothing (load_data city month day))
    by (unfold load_data; reads_nothing_steps).
  assert (H2 : reads_nothing (display_header city month day))
    by (unfold display_header; reads_nothing_steps).
  assert (H3 : reads_nothing (display_ride_stats df))
    by (unfold display_ride_stats; reads_nothing_steps).
  assert (H4 : reads_nothing (display_station_stats df))
    by (unfold display_station_stats; reads_nothing_steps).
  assert (H5 : reads_nothing (display_trip_duration_stats df))
    by (unfold display_trip_duration_stats; reads_nothing_steps).
  assert (H6 : reads_nothing (display_user_stats df))
    by (unfold display_user_stats, display_user_types, display_gender,
          display_birth_year; reads_nothing_steps).
  split; [apply H1 |]. split; [apply H2 |]. split; [apply H3 |].
  split; [apply H4 |]. split; [apply H5 | apply H6].
Qed.

End Program.

(** * The program at work in the small world *)

Lemma filter_frame_exact_witness :
  read_frame Sample.files Sample.parse "chicago" = Ok Sample.chicago_loaded
  /\ mem "january" valid_months = true
  /\ mem "monday" valid_days = true
  /\ exists df',
       filter_frame "january" "monday" Sample.chicago_loaded = Ok df'
       /\ map label (rows df') = [0; 4]%nat.
Proof.
  assert (H : read_frame Sample.files Sample.parse "chicago"
              = Ok Sample.chicago_loaded) by (vm_compute; reflexivity).
  split; [exact H |]. split; [reflexivity |]. split; [reflexivity |].
  destruct (@filter_frame_exact Sample.files Sample.parse "chicago" "january"
              "monday" Sample.chicago_loaded H eq_refl eq_refl)
    as [df' [Hf [_ [Hrows _]]]].
  exists df'. split; [exact Hf |]. rewrite Hrows. vm_compute. reflexivity.
Defined.

Lemma busiest_and_quietest_hour_witness :
  rows Sample.chicago_loaded <> []
  /\ getitem Sample.chicago_loaded "hour" = Ok Sample.chicago_hour_column
  /\ values Sample.chicago_hour_column = map Int Sample.chicago_hours
  /\ exists b q,
       display_ride_stats Sample.chicago_loaded []
       = {| trace := ride_report 6 b (rides_at Sample.chicago_hours b)
                       q (rides_at Sample.chicago_hours q);
            rest := []; result := Ok tt |}
       /\ In b Sample.chicago_hours /\ In q Sample.chicago_hours.
Proof.
  assert (H1 : rows Sample.chicago_loaded <> []) by (vm_compute; discriminate).
  assert (H2 : getitem Sample.chicago_loaded "hour"
               = Ok Sample.chicago_hour_column) by (vm_compute; reflexivity).
  assert (H3 : values Sample.chicago_hour_column
               = map Int Sample.chicago_hours) by reflexivity.
  split; [exact H1 |]. split; [exact H2 |]. split; [exact H3 |].
  destruct (@busiest_and_quietest_hour Sample.chicago_loaded
              Sample.chicago_hour_column Sample.chicago_hours [] H1 H2 H3)
    as [[b [q [Ht [Hb [_ [_ [Hq _]]]]]]] _].
  exists b, q. split; [exact Ht |]. split; assumption.
Defined.


Lemma chicago_labels_increase :
  StronglySorted lt (map label (rows Sample.chicago)).
Proof. simpl. repeat constructor; lia. Qed.



Lemma failed_load_reaches_restart_witness :
  load_frame Sample.files Sample.parse "new york" "all" "all"
  = Raise (FileNotFoundError
             "[Errno 2] No such file or directory: 'new_york_city.csv'")
  /\ trace (session Sample.files Sample.parse Sample.repr_float
              Sample.fmt_float Sample.current_year "new york" "all" "all"
              ["no"])
     = (loading_lines
        ++ [Print (RED ++ "Error loading data: [Errno 2] No such file or directory: 'new_york_city.csv'"
                     ++ ENDC)]
        ++ closing_lines ++ [Prompt restart_prompt])%list
  /\ result (session Sample.files Sample.parse Sample.repr_float
               Sample.fmt_float Sample.current_year "new york" "all" "all"
               ["no"])
     = Ok false.
Proof.
  assert (H : load_frame Sample.files Sample.parse "new york" "all" "all"
              = Raise (FileNotFoundError
                         "[Errno 2] No such file or directory: 'new_york_city.csv'"))
    by (vm_compute; reflexivity).
  split; [exact H |].
  destruct (@failed_load_reaches_restart Sample.files Sample.parse
              Sample.repr_float Sample.fmt_float Sample.current_year
              "new york" "all" "all" _ ["no"] H)
    as [_ [_ [Ht [_ Hr]]]].
  split; [rewrite Ht | rewrite Hr]; reflexivity.
Defined.

Lemma load_failure_told_by_message_witness :
  load_frame Sample.files Sample.parse "washington" "june" "sunday"
  = Raise (OtherException "Error tokenizing data")
  /\ result (load_data Sample.files Sample.parse "washington" "june" "sunday" [])
     = Ok None
  /\ trace (load_data Sample.files Sample.parse "washington" "june" "sunday" [])
     = (loading_lines
        ++ [Print (RED ++ "An unexpected error occurred: Error tokenizing data"
                     ++ ENDC)])%list.
Proof.
  assert (H : load_frame Sample.files Sample.parse "washington" "june" "sunday"
              = Raise (OtherException "Error tokenizing data"))
    by (vm_compute; reflexivity).
  split; [exact H |].
  destruct (@load_failure_told_by_message Sample.files Sample.parse
              "washington" "june" "sunday" _ [] H) as [Hr [Ht _]].
  split; [exact Hr | rewrite Ht; reflexivity].
Defined.

(** A file that is missing and a file that cannot be parsed leave the caller
    with the same value. *)
Lemma load_failures_return_the_same_value :
  Sample.files "new_york_city.csv" = Absent
  /\ Sample.files "washington.csv" = Unreadable "Error tokenizing data"
  /\ result (load_data Sample.files Sample.parse "new york" "all" "all" [])
     = Ok None
  /\ result (load_data Sample.files Sample.parse "washington" "all" "all" [])
     = Ok None
  /\ ~ (exists outcome : option DataFrame -> bool,
          forall city v,
            result (load_data Sample.files Sample.parse city "all" "all" [])
            = Ok v ->
            outcome v
            = match dict_get city CITY_DATA with
              | Some path => match Sample.files path with
                             | Absent => true
                             | _ => false
                             end
              | None => false
              end).
Proof.
  split; [reflexivity |]. split; [reflexivity |].
  assert (H1 : result (load_data Sample.files Sample.parse "new york" "all"
                         "all" []) = Ok None) by (vm_compute; reflexivity).
  assert (H2 : result (load_data Sample.files Sample.parse "washington" "all"
                         "all" []) = Ok None) by (vm_compute; reflexivity).
  split; [exact H1 |]. split; [exact H2 |].
  intros [outcome H].
  pose proof (H "new york" None H1) as Ha.
  pose proof (H "washington" None H2) as Hb.
  vm_compute in Ha, Hb. congruence.
Qed.


Lemma raw_data_paging_witness :
  (5 * 1 < len Sample.chicago <= 5 * 1 + 5)%nat
  /\ display_raw_data Sample.repr_float Sample.chicago "chicago" "all" "all"
       ["yes"; "yes"]
     = {| trace := (raw_data_intro "chicago" "all" "all"
                    ++ [page Sample.repr_float Sample.chicago 0;
                        Prompt more_prompt;
                        page Sample.repr_float Sample.chicago 1])%list;
          rest := []; result := Ok tt |}.
Proof.
  assert (H : (5 * 1 < len Sample.chicago <= 5 * 1 + 5)%nat)
    by (vm_compute; lia).
  split; [exact H |].
  destruct (@raw_data_paging Sample.repr_float Sample.chicago "chicago" "all"
              "all" 1 1 [] H (le_n 1)) as [_ [Hall _]].
  exact (Hall eq_refl).
Defined.

(** The table of six rows is shown in two pages; nothing is asked after the
    second. *)
Lemma no_prompt_after_last_page :
  trace (display_raw_data Sample.repr_float Sample.chicago "chicago" "all"
           "all" ["yes"; "yes"])
  = (raw_data_intro "chicago" "all" "all"
     ++ [page Sample.repr_float Sample.chicago 0;
         Prompt more_prompt;
         page Sample.repr_float Sample.chicago 1])%list
  /\ prompted_after_each_page
       (trace (display_raw_data Sample.repr_float Sample.chicago "chicago"
                 "all" "all" ["yes"; "yes"]))
     = false.
Proof. split; vm_compute; reflexivity. Qed.

Lemma empty_table_aggregators_raise_witness :
  rows Sample.no_rows = []
  /\ result (display_ride_stats Sample.no_rows [])
     = Raise (ValueError "attempt to get argmax of an empty sequence")
  /\ result (display_station_stats Sample.repr_float Sample.no_rows [])
     = Raise (IndexError "index 0 is out of bounds for axis 0 with size 0")
  /\ result (display_trip_duration_stats Sample.no_rows [])
     = Raise (ValueError "cannot convert float NaN to integer").
Proof.
  split; [reflexivity |].
  destruct (@empty_table_aggregators_raise Sample.repr_float Sample.no_rows []
              eq_refl)
    as [[e1 [H1 E1]] [[e2 [H2 E2]] [[e3 [H3 E3]] _]]].
  rewrite H1, H2, H3.
  rewrite (E1 eq_refl), (E2 eq_refl eq_refl), (E3 eq_refl).
  repeat split.
Defined.

(** ** The rest of the program at work *)



Lemma get_filters_never_raises_witness :
  result (get_filters ["paris"]) = Hang
  /\ rest (get_filters ["paris"]) = []
  /\ last (trace (get_filters ["paris"])) (Print "") = Print eof_line.
Proof.
  assert (H : result (get_filters ["paris"]) = Hang)
    by (vm_compute; reflexivity).
  split; [exact H |].
  exact (proj2 (get_filters_never_raises ["paris"]) H).
Defined.

Lemma validated_filters_never_fail_the_load_witness :
  result (get_filters ["New York"; "all"; "all"]) = Ok ("new york", "all", "all")
  /\ load_frame Sample.files Sample.parse "new york" "all" "all"
     = Raise (FileNotFoundError
                "[Errno 2] No such file or directory: 'new_york_city.csv'")
  /\ exists path,
       dict_get "new york" CITY_DATA = Some path
       /\ (read_csv Sample.files path
           = Raise (FileNotFoundError
                      "[Errno 2] No such file or directory: 'new_york_city.csv'")
           \/ exists df,
                Sample.files path = Content df
                /\ derive_frame Sample.parse df
                   = Raise (FileNotFoundError
                              "[Errno 2] No such file or directory: 'new_york_city.csv'")).
Proof.
  assert (H1 : result (get_filters ["New York"; "all"; "all"])
               = Ok ("new york", "all", "all")) by (vm_compute; reflexivity).
  assert (H2 : load_frame Sample.files Sample.parse "new york" "all" "all"
               = Raise (FileNotFoundError
                          "[Errno 2] No such file or directory: 'new_york_city.csv'"))
    by (vm_compute; reflexivity).
  split; [exact H1 |]. split; [exact H2 |].
  exact (@validated_filters_never_fail_the_load Sample.files Sample.parse
           _ _ _ _ _ H1 H2).
Defined.



Lemma duration_stats_without_durations_witness :
  index "Trip Duration" (columns Sample.no_rows) = Some 1%nat
  /\ result (display_trip_duration_stats Sample.no_rows [])
     = Raise (ValueError "cannot convert float NaN to integer")
  /\ trace (display_trip_duration_stats Sample.no_rows [])
     = (duration_heading
        ++ [Print ("Total Time  " ++ BAR ++ " 0h 0m 0s")])%list.
Proof.
  assert (H1 : index "Trip Duration" (columns Sample.no_rows) = Some 1%nat)
    by reflexivity.
  split; [exact H1 |].
  rewrite (@duration_stats_without_durations Sample.no_rows 1 [] H1
             (fun r (H : In r []) => match H with end)).
  split; reflexivity.
Defined.



Lemma birth_year_warning_exactly_witness :
  index "User Type" (columns Sample.washington) = Some 4%nat
  /\ mem "Birth Year" (columns Sample.washington) = false
  /\ display_birth_year Sample.current_year Sample.washington []
     = {| trace := [Print birth_year_warning]; rest := []; result := Ok tt |}.
Proof.
  assert (H : index "User Type" (columns Sample.washington) = Some 4%nat)
    by reflexivity.
  split; [exact H |]. split; [reflexivity |].
  exact (proj2 (@birth_year_warning_exactly Sample.current_year
                  Sample.washington 4 [] H) (or_introl eq_refl)).
Defined.

Lemma birth_years_reported_witness :
  index "User Type" (columns Sample.chicago) = Some 4%nat
  /\ index "Birth Year" (columns Sample.chicago) = Some 6%nat
  /\ subscriber_birth_years Sample.chicago
     = map year_cell [1990; 1985; 1990; 1990]
  /\ exists earliest latest common,
       display_birth_year Sample.current_year Sample.chicago []
       = {| trace := birth_year_report Sample.current_year earliest latest
                       common;
            rest := []; result := Ok tt |}
       /\ In earliest [1990; 1985; 1990; 1990]
       /\ In latest [1990; 1985; 1990; 1990]
       /\ In common [1990; 1985; 1990; 1990].
Proof.
  assert (H1 : index "User Type" (columns Sample.chicago) = Some 4%nat)
    by reflexivity.
  assert (H2 : index "Birth Year" (columns Sample.chicago) = Some 6%nat)
    by reflexivity.
  assert (H3 : subscriber_birth_years Sample.chicago
               = map year_cell [1990; 1985; 1990; 1990])
    by (vm_compute; reflexivity).
  assert (H4 : [1990; 1985; 1990; 1990] <> []) by discriminate.
  split; [exact H1 |]. split; [exact H2 |]. split; [exact H3 |].
  destruct (@birth_years_reported Sample.current_year Sample.chicago 4 6
              [1990; 1985; 1990; 1990] [] H1 H2 H3 H4)
    as [e [l [c [Ht [He [_ [Hl [_ [Hc _]]]]]]]]].
  exists e, l, c. now repeat split.
Defined.


Lemma main_returns_after_no_witness :
  result (main Sample.files Sample.parse Sample.repr_float Sample.fmt_float
            Sample.current_year ["new york"; "all"; "all"; "No"; "kept"])
  = Ok tt
  /\ exists read l,
       ["new york"; "all"; "all"; "No"; "kept"]
       = (read ++ l
            :: rest (main Sample.files Sample.parse Sample.repr_float
                       Sample.fmt_float Sample.current_year
                       ["new york"; "all"; "all"; "No"; "kept"]))%list
       /\ says_no l.
Proof.
  assert (H : result (main Sample.files Sample.parse Sample.repr_float
                        Sample.fmt_float Sample.current_year
                        ["new york"; "all"; "all"; "No"; "kept"]) = Ok tt)
    by (vm_compute; reflexivity).
  split; [exact H |].
  exact (@main_returns_after_no Sample.files Sample.parse Sample.repr_float
           Sample.fmt_float Sample.current_year _ H).
Defined.

Lemma main_restarts_on_yes_witness :
  result (main_iteration Sample.files Sample.parse Sample.repr_float
            Sample.fmt_float Sample.current_year
            ["new york"; "all"; "all"; "Y"; "paris"])
  = Ok true
  /\ exists read l,
       ["new york"; "all"; "all"; "Y"; "paris"]
       = (read ++ l
            :: rest (main_iteration Sample.files Sample.parse
                       Sample.repr_float Sample.fmt_float Sample.current_year
                       ["new york"; "all"; "all"; "Y"; "paris"]))%list
       /\ says_yes l
       /\ main Sample.files Sample.parse Sample.repr_float Sample.fmt_float
            Sample.current_year ["new york"; "all"; "all"; "Y"; "paris"]
          = prefix_trace
              (trace (main_iteration Sample.files Sample.parse
                        Sample.repr_float Sample.fmt_float Sample.current_year
                        ["new york"; "all"; "all"; "Y"; "paris"]))
              (main Sample.files Sample.parse Sample.repr_float
                 Sample.fmt_float Sample.current_year
                 (rest (main_iteration Sample.files Sample.parse
                          Sample.repr_float Sample.fmt_float
                          Sample.current_year
                          ["new york"; "all"; "all"; "Y"; "paris"]))).
Proof.
  assert (H : result (main_iteration Sample.files Sample.parse
                        Sample.repr_float Sample.fmt_float Sample.current_year
                        ["new york"; "all"; "all"; "Y"; "paris"]) = Ok true)
    by (vm_compute; reflexivity).
  split; [exact H |].
  destruct (@main_restarts_on_yes Sample.files Sample.parse Sample.repr_float
              Sample.fmt_float Sample.current_year _ _ H)
    as [read [l [Hs [Hy [_ Hm]]]]].
  exists read, l. split; [exact Hs |]. split; [exact Hy | exact Hm].
Defined.

Lemma empty_selection_ends_the_program_witness :
  result (get_filters ["chicago"; "march"; "all"; "no"])
  = Ok ("chicago", "march", "all")
  /\ load_frame Sample.files Sample.parse "chicago" "march" "all"
     = Ok Sample.no_rows
  /\ rows Sample.no_rows = []
  /\ result (main Sample.files Sample.parse Sample.repr_float Sample.fmt_float
               Sample.current_year ["chicago"; "march"; "all"; "no"])
     = Raise no_busiest_hour
  /\ rest (main Sample.files Sample.parse Sample.repr_float Sample.fmt_float
             Sample.current_year ["chicago"; "march"; "all"; "no"])
     = ["no"].
Proof.
  assert (H1 : result (get_filters ["chicago"; "march"; "all"; "no"])
               = Ok ("chicago", "march", "all")) by (vm_compute; reflexivity).
  assert (H2 : load_frame Sample.files Sample.parse "chicago" "march" "all"
               = Ok Sample.no_rows) by (vm_compute; reflexivity).
  assert (H3 : rows Sample.no_rows = []) by reflexivity.
  split; [exact H1 |]. split; [exact H2 |]. split; [exact H3 |].
  rewrite (@empty_selection_ends_the_program Sample.files Sample.parse
             Sample.repr_float Sample.fmt_float Sample.current_year
             _ _ _ _ _ H1 H2 H3).
  split; reflexivity.
Defined.




Lemma load_data_needs_start_time_witness :
  dict_get "chicago" CITY_DATA = Some "chicago.csv"
  /\ mem "Start Time" (columns Sample.tie) = false
  /\ load_data (fun _ => Content Sample.tie) Sample.parse "chicago" "all" "all"
       []
     = {| trace := (loading_lines
                    ++ [Print (RED
                                 ++ "An unexpected error occurred: 'Start Time'"
                                 ++ ENDC)])%list;
          rest := []; result := Ok None |}.
Proof.
  split; [reflexivity |]. split; [reflexivity |].
  exact (@load_data_needs_start_time (fun _ => Content Sample.tie)
           Sample.parse "chicago" "all" "all" "chicago.csv" Sample.tie []
           eq_refl eq_refl eq_refl).
Defined.

Lemma load_frame_keeps_labels_witness :
  dict_get "chicago" CITY_DATA = Some "chicago.csv"
  /\ Sample.files "chicago.csv" = Content Sample.chicago
  /\ load_frame Sample.files Sample.parse "chicago" "all" "all"
     = Ok Sample.chicago_loaded
  /\ StronglySorted lt (map label (rows Sample.chicago_loaded))
  /\ (len Sample.chicago_loaded <= len Sample.chicago)%nat.
Proof.
  assert (H : load_frame Sample.files Sample.parse "chicago" "all" "all"
              = Ok Sample.chicago_loaded) by (vm_compute; reflexivity).
  split; [reflexivity |]. split; [reflexivity |]. split; [exact H |].
  destruct (@load_frame_keeps_labels Sample.files Sample.parse "chicago" "all"
              "all" "chicago.csv" Sample.chicago Sample.chicago_loaded
              eq_refl eq_refl H) as [_ [Hs Hl]].
  split; [exact (Hs chicago_labels_increase) | exact Hl].
Defined.


Lemma statistics_need_their_columns_witness :
  mem "hour" (columns Sample.washington) = false
  /\ result (display_ride_stats Sample.washington [])
     = Raise (KeyError "'hour'").
Proof.
  split; [reflexivity |].
  exact (proj1 (@statistics_need_their_columns Sample.repr_float
                  Sample.fmt_float Sample.current_year Sample.washington [])
           eq_refl).
Defined.




